(** * vscode-codeql: the remote queries manager and the compare view

    A shallow embedding of

    - [extensions/ql-vscode/src/remote-queries/remote-queries-manager.ts]
      (class [RemoteQueriesManager]), and
    - the compare view controller (class [CompareView]),

    together with the JavaScript platform functions the two classes lean
    on ([String(n)], [String.prototype.includes], [Array.prototype.join],
    [JSON.stringify(_, null, 2)], [JSON.parse]).

    Conventions of the embedding.

    - A JavaScript [number] that the program handles is an integer count,
      a size in bytes, an identifier or a millisecond timestamp; it is a
      [Z] here.
    - A JavaScript [string] is a Rocq [string].
    - An optional field ([f?: T], or a value that may be [undefined]) is
      an [option].
    - An [async] method is a computation in the monad [M] below: it
      threads the mutable state and either returns a value or throws.
    - Calls that leave the program (the GitHub client, the CodeQL CLI, the
      webview) are answered by the fields of an environment record and
      leave an entry in an effect log, in program order. *)

From Stdlib Require Import ZArith List String Ascii Bool Lia.
From Stdlib Require Import DecimalString DecimalZ.
From stdpp Require Import base option list gmap strings.
Import ListNotations.

Local Open Scope list_scope.
Local Open Scope Z_scope.

#[local] Arguments String.append !s1 s2 : simpl nomatch.

(* ================================================================== *)
(** * Part I: definitions                                              *)
(* ================================================================== *)

(** ** JavaScript primitives *)

Module JS.

(** Truthiness of the values the program tests with [?:], [||] and [if]. *)
Definition truthy_number (n : Z) : bool := negb (n =? 0).

Definition truthy_string (s : string) : bool :=
  match s with
  | EmptyString => false
  | String _ _ => true
  end.

Definition truthy_opt {A} (truthy : A -> bool) (o : option A) : bool :=
  match o with
  | Some a => truthy a
  | None => false
  end.

(** [a || b] on an optional string. *)
Definition or_string (a : option string) (b : string) : string :=
  match a with
  | Some s => if truthy_string s then s else b
  | None => b
  end.

(** [String(n)], [n.toString()] and [`${n}`] for an integer [n]: the
    decimal digits, with a leading minus sign for a negative number. *)
Definition Number_toString (n : Z) : string :=
  NilEmpty.string_of_int (Z.to_int n).

(** [s.startsWith(p)]. *)
Fixpoint startsWith (s p : string) {struct p} : bool :=
  match p with
  | EmptyString => true
  | String b p' =>
      match s with
      | EmptyString => false
      | String a s' => Ascii.eqb a b && startsWith s' p'
      end
  end.

(** [s.includes(sub)]: [sub] starts at some position of [s]. *)
Fixpoint includes (s sub : string) : bool :=
  startsWith s sub ||
  match s with
  | EmptyString => false
  | String _ s' => includes s' sub
  end.

(** [parts.join(sep)]. *)
Definition Array_join (parts : list string) (sep : string) : string :=
  String.concat sep parts.

(** [xs.slice(0, -1)]: all elements but the last. *)
Definition slice_0_minus1 {A} (xs : list A) : list A := removelast xs.

(** [xs.slice(0, n)] for a count [n]. *)
Definition slice_0 {A} (n : nat) (xs : list A) : list A := firstn n xs.

(** [xs.find(p)]. *)
Definition Array_find {A} (p : A -> bool) (xs : list A) : option A :=
  List.find p xs.

End JS.

(** ** Exceptions and the state-and-exception monad of [async] methods *)

(** A thrown [Error] is represented by its [message]; [getErrorMessage]
    of the helper module reads that message back. *)
Inductive result (A : Type) : Type :=
| Ok (a : A)
| Throw (message : string).
Arguments Ok {A} a.
Arguments Throw {A} message.

Definition getErrorMessage (message : string) : string := message.

Definition M (S A : Type) : Type := S -> result A * S.

Definition ret {S A} (a : A) : M S A := fun s => (Ok a, s).

Definition throw {S A} (message : string) : M S A :=
  fun s => (Throw message, s).

Definition bind {S A B} (m : M S A) (k : A -> M S B) : M S B :=
  fun s =>
    match m s with
    | (Ok a, s') => k a s'
    | (Throw e, s') => (Throw e, s')
    end.

Definition get {S} : M S S := fun s => (Ok s, s).

Definition modify {S} (f : S -> S) : M S unit := fun s => (Ok tt, f s).

(** A pure computation that may throw, awaited inside a method. *)
Definition lift {S A} (r : result A) : M S A := fun s => (r, s).

Declare Scope js_scope.
Delimit Scope js_scope with js.
Notation "'let*' x ':=' m 'in' k" := (bind m (fun x => k))
  (at level 10, x name, m at level 100, k at level 200) : js_scope.
Notation "'let*' ' p ':=' m 'in' k" := (bind m (fun p => k))
  (at level 10, p pattern, m at level 100, k at level 200) : js_scope.
Notation "'await' m 'in' k" := (bind m (fun _ => k))
  (at level 10, m at level 100, k at level 200) : js_scope.

Definition result_bind {A B} (r : result A) (k : A -> result B) : result B :=
  match r with
  | Ok a => k a
  | Throw e => Throw e
  end.

(** ** JSON: values, [JSON.stringify(v, null, 2)] and [JSON.parse] *)

Module Json.

Unset Elimination Schemes.
Inductive json : Type :=
| JNull
| JBool (b : bool)
| JNum (n : Z)
| JStr (s : string)
| JArr (items : list json)
| JObj (members : list (string * json)).
Set Elimination Schemes.

Definition quote : ascii := "034"%char.
Definition backslash : ascii := "092"%char.
Definition newline : ascii := "010"%char.
Definition nl : string := String newline EmptyString.

(** The indentation unit of [JSON.stringify(_, null, 2)]. *)
Definition gap : string := "  ".

Definition hex_digit (n : N) : ascii :=
  if (n <? 10)%N then ascii_of_N (48 + n) else ascii_of_N (87 + n).

(** [QuoteJSONString], one character at a time. *)
Definition escape_char (c : ascii) : string :=
  let n := N_of_ascii c in
  if Ascii.eqb c quote then String backslash (String quote EmptyString)
  else if Ascii.eqb c backslash then String backslash (String backslash EmptyString)
  else if (n =? 8)%N then String backslash "b"
  else if (n =? 9)%N then String backslash "t"
  else if (n =? 10)%N then String backslash "n"
  else if (n =? 12)%N then String backslash "f"
  else if (n =? 13)%N then String backslash "r"
  else if (n <? 32)%N then
    String backslash
      (String "u" (String "0" (String "0"
        (String (hex_digit (n / 16)) (String (hex_digit (n mod 16)) EmptyString)))))
  else String c EmptyString.

Fixpoint escape (s : string) : string :=
  match s with
  | EmptyString => EmptyString
  | String c s' => escape_char c +:+ escape s'
  end.

Definition quote_string (s : string) : string :=
  String quote (escape s +:+ String quote EmptyString).

(** [SerializeJSONProperty] with [gap] two spaces; [indent] is the
    current indentation. *)
Fixpoint stringify_at (indent : string) (v : json) : string :=
  match v with
  | JNull => "null"
  | JBool true => "true"
  | JBool false => "false"
  | JNum n => JS.Number_toString n
  | JStr s => quote_string s
  | JArr items =>
      let stepback := indent in
      let indent := indent +:+ gap in
      match List.map (stringify_at indent) items with
      | [] => "[]"
      | partial =>
          "[" +:+ nl +:+ indent
          +:+ String.concat ("," +:+ nl +:+ indent) partial
          +:+ nl +:+ stepback +:+ "]"
      end
  | JObj members =>
      let stepback := indent in
      let indent := indent +:+ gap in
      match List.map
              (fun kv : string * json =>
                 let (k, x) := kv in
                 quote_string k +:+ ": " +:+ stringify_at indent x)
              members with
      | [] => "{}"
      | partial =>
          "{" +:+ nl +:+ indent
          +:+ String.concat ("," +:+ nl +:+ indent) partial
          +:+ nl +:+ stepback +:+ "}"
      end
  end.

(** [JSON.stringify(v, null, 2)]. *)
Definition stringify (v : json) : string := stringify_at EmptyString v.

(** *** The parser *)

Definition is_ws (c : ascii) : bool :=
  let n := N_of_ascii c in
  (n =? 32)%N || (n =? 10)%N || (n =? 13)%N || (n =? 9)%N.

Fixpoint skip_ws (s : string) : string :=
  match s with
  | String c s' => if is_ws c then skip_ws s' else s
  | EmptyString => EmptyString
  end.

Definition digit_of_char (c : ascii) : option (Decimal.uint -> Decimal.uint) :=
  match N_of_ascii c with
  | 48%N => Some Decimal.D0
  | 49%N => Some Decimal.D1
  | 50%N => Some Decimal.D2
  | 51%N => Some Decimal.D3
  | 52%N => Some Decimal.D4
  | 53%N => Some Decimal.D5
  | 54%N => Some Decimal.D6
  | 55%N => Some Decimal.D7
  | 56%N => Some Decimal.D8
  | 57%N => Some Decimal.D9
  | _ => None
  end.

(** The longest run of decimal digits at the head of [s]. *)
Fixpoint read_digits (s : string) : Decimal.uint * string :=
  match s with
  | EmptyString => (Decimal.Nil, EmptyString)
  | String c s' =>
      match digit_of_char c with
      | Some d => let (ds, rest) := read_digits s' in (d ds, rest)
      | None => (Decimal.Nil, s)
      end
  end.

(** A number ends where no fraction or exponent follows: numbers with a
    fraction or an exponent are outside the integer model. *)
Definition integer_ends (rest : string) : bool :=
  match rest with
  | EmptyString => true
  | String c _ =>
      negb (Ascii.eqb c "." || Ascii.eqb c "e" || Ascii.eqb c "E")
  end.

(** [s] without its first character, when that character is [c]. *)
Definition after_char (c : ascii) (s : string) : option string :=
  match s with
  | String c' rest => if Ascii.eqb c' c then Some rest else None
  | EmptyString => None
  end.

Definition parse_number (s : string) : option (Z * string) :=
  let (negative, body) :=
    match after_char "-" s with
    | Some s' => (true, s')
    | None => (false, s)
    end in
  match read_digits body with
  | (Decimal.Nil, _) => None
  | (ds, rest) =>
      if integer_ends rest then
        Some (Z.of_int (if negative then Decimal.Neg ds else Decimal.Pos ds), rest)
      else None
  end.

Definition hex_value (c : ascii) : option N :=
  let n := N_of_ascii c in
  if ((48 <=? n) && (n <=? 57))%N then Some (n - 48)%N
  else if ((97 <=? n) && (n <=? 102))%N then Some (n - 87)%N
  else if ((65 <=? n) && (n <=? 70))%N then Some (n - 55)%N
  else None.

(** The character written [\uXXXX]; code units above 255 are outside the
    model of strings. *)
Definition unicode_escape (a b c d : ascii) : option ascii :=
  match hex_value a, hex_value b, hex_value c, hex_value d with
  | Some x3, Some x2, Some x1, Some x0 =>
      let n := (((x3 * 16 + x2) * 16 + x1) * 16 + x0)%N in
      if (n <? 256)%N then Some (ascii_of_N n) else None
  | _, _, _, _ => None
  end.

Definition simple_escape (e : ascii) : option ascii :=
  if Ascii.eqb e quote then Some quote
  else if Ascii.eqb e backslash then Some backslash
  else if Ascii.eqb e "/" then Some "/"%char
  else if Ascii.eqb e "b" then Some "008"%char
  else if Ascii.eqb e "t" then Some "009"%char
  else if Ascii.eqb e "n" then Some "010"%char
  else if Ascii.eqb e "f" then Some "012"%char
  else if Ascii.eqb e "r" then Some "013"%char
  else None.

Definition prepend (c : ascii) (r : string * string) : string * string :=
  (String c (fst r), snd r).

(** The characters of a string literal after its opening quote, up to
    and including the closing quote. *)
Fixpoint parse_string_body (s : string) : option (string * string) :=
  match s with
  | EmptyString => None
  | String c s' =>
      if Ascii.eqb c quote then Some (EmptyString, s')
      else if Ascii.eqb c backslash then
        match s' with
        | String e s'' =>
            if Ascii.eqb e "u" then
              match s'' with
              | String h3 (String h2 (String h1 (String h0 s5))) =>
                  match unicode_escape h3 h2 h1 h0 with
                  | Some ch => option_map (prepend ch) (parse_string_body s5)
                  | None => None
                  end
              | _ => None
              end
            else
              match simple_escape e with
              | Some ch => option_map (prepend ch) (parse_string_body s'')
              | None => None
              end
        | EmptyString => None
        end
      else if (N_of_ascii c <? 32)%N then None
      else option_map (prepend c) (parse_string_body s')
  end.

(** [s] without its prefix [word], when it starts with [word]. *)
Fixpoint expect (word : string) (s : string) : option string :=
  match word with
  | EmptyString => Some s
  | String a word' =>
      match after_char a s with
      | Some s' => expect word' s'
      | None => None
      end
  end.

(** [CreateDataProperty] on the object under construction: a repeated
    name overwrites the earlier value, in place. *)
Fixpoint define_property (k : string) (v : json) (o : list (string * json))
  : list (string * json) :=
  match o with
  | [] => [(k, v)]
  | (k', v') :: o' =>
      if String.eqb k k' then (k, v) :: o'
      else (k', v') :: define_property k v o'
  end.

Definition object_of_members (ms : list (string * json)) : json :=
  JObj (fold_left (fun o kv => define_property (fst kv) (snd kv) o) ms []).

Fixpoint parse_value (fuel : nat) (s : string) : option (json * string) :=
  match fuel with
  | O => None
  | S fuel =>
      match skip_ws s with
      | EmptyString => None
      | String c s' =>
          if Ascii.eqb c "n" then
            option_map (pair JNull) (expect "ull" s')
          else if Ascii.eqb c "t" then
            option_map (pair (JBool true)) (expect "rue" s')
          else if Ascii.eqb c "f" then
            option_map (pair (JBool false)) (expect "alse" s')
          else if Ascii.eqb c quote then
            match parse_string_body s' with
            | Some (str, rest) => Some (JStr str, rest)
            | None => None
            end
          else if Ascii.eqb c "[" then
            match after_char "]" (skip_ws s') with
            | Some rest => Some (JArr [], rest)
            | None =>
                match parse_elements fuel s' with
                | Some (items, rest) => Some (JArr items, rest)
                | None => None
                end
            end
          else if Ascii.eqb c "{" then
            match after_char "}" (skip_ws s') with
            | Some rest => Some (JObj [], rest)
            | None =>
                match parse_members fuel s' with
                | Some (ms, rest) => Some (object_of_members ms, rest)
                | None => None
                end
            end
          else
            match parse_number (String c s') with
            | Some (n, rest) => Some (JNum n, rest)
            | None => None
            end
      end
  end
with parse_elements (fuel : nat) (s : string) : option (list json * string) :=
  match fuel with
  | O => None
  | S fuel =>
      match parse_value fuel s with
      | Some (v, rest) =>
          match after_char "," (skip_ws rest) with
          | Some rest' =>
              match parse_elements fuel rest' with
              | Some (vs, rest'') => Some (v :: vs, rest'')
              | None => None
              end
          | None =>
              match after_char "]" (skip_ws rest) with
              | Some rest' => Some ([v], rest')
              | None => None
              end
          end
      | None => None
      end
  end
with parse_members (fuel : nat) (s : string)
  : option (list (string * json) * string) :=
  match fuel with
  | O => None
  | S fuel =>
      match after_char quote (skip_ws s) with
      | Some s' =>
          match parse_string_body s' with
          | Some (k, rest) =>
              match after_char ":" (skip_ws rest) with
              | Some rest' =>
                  match parse_value fuel rest' with
                  | Some (v, rest'') =>
                      match after_char "," (skip_ws rest'') with
                      | Some r =>
                          match parse_members fuel r with
                          | Some (ms, r') => Some ((k, v) :: ms, r')
                          | None => None
                          end
                      | None =>
                          match after_char "}" (skip_ws rest'') with
                          | Some r => Some ([(k, v)], r)
                          | None => None
                          end
                      end
                  | None => None
                  end
              | None => None
              end
          | None => None
          end
      | None => None
      end
  end.

(** [JSON.parse(text)]: one value, then only white space.  The length
    of the text bounds the recursion; it is enough for every text that
    [stringify] writes ([JsonFacts.size_le_length] below). *)
Definition parse (text : string) : result json :=
  match parse_value (S (String.length text)) text with
  | Some (v, rest) =>
      match skip_ws rest with
      | EmptyString => Ok v
      | String _ _ => Throw "Unexpected token in JSON"
      end
  | None => Throw "Unexpected token in JSON"
  end.

(** A value of the model is a JavaScript value when the property names
    of each of its objects are distinct. *)
Fixpoint well_formed (v : json) : Prop :=
  match v with
  | JArr items =>
      (fix all (l : list json) : Prop :=
         match l with
         | [] => True
         | x :: l' => well_formed x /\ all l'
         end) items
  | JObj members =>
      NoDup (List.map fst members) /\
      (fix all (l : list (string * json)) : Prop :=
         match l with
         | [] => True
         | kv :: l' => well_formed (snd kv) /\ all l'
         end) members
  | _ => True
  end.

(** Measures and side conditions of the round trip: the fuel a value
    needs, text that is only white space, and text that may follow a
    printed value. *)
Fixpoint size (v : json) : nat :=
  match v with
  | JArr items => S (list_sum (List.map (fun x => S (size x)) items))
  | JObj members => S (list_sum (List.map (fun kv => S (size (snd kv))) members))
  | _ => 1%nat
  end.

Fixpoint all_ws (s : string) : bool :=
  match s with
  | EmptyString => true
  | String c s' => is_ws c && all_ws s'
  end.

Definition delimited (rest : string) : bool :=
  match rest with
  | EmptyString => true
  | String c _ => Ascii.eqb c "," || Ascii.eqb c newline
  end.

Definition digit_head (s : string) : bool :=
  match s with
  | String c _ => match digit_of_char c with Some _ => true | None => false end
  | EmptyString => false
  end.

(** The first character of a printed value is no white space and
    closes or separates nothing. *)
Definition value_head (s : string) : bool :=
  match s with
  | String c _ =>
      negb (is_ws c) && negb (Ascii.eqb c "]") && negb (Ascii.eqb c "}")
      && negb (Ascii.eqb c ",")
  | EmptyString => false
  end.

(** [v], printed at any indentation and followed by any delimited
    text, parses back to [v] and leaves that text. *)
Definition parses_back (v : json) : Prop :=
  well_formed v ->
  forall (fuel : nat) (indent rest : string),
    all_ws indent = true -> delimited rest = true -> (size v <= fuel)%nat ->
    parse_value fuel (stringify_at indent v +:+ rest) = Some (v, rest).

(** Property access [o.k] on a parsed value. *)
Definition field (k : string) (v : json) : option json :=
  match v with
  | JObj members =>
      match List.find (fun kv => String.eqb (fst kv) k) members with
      | Some kv => Some (snd kv)
      | None => None
      end
  | _ => None
  end.

End Json.

(** ** The data of the remote queries manager

    The interfaces below are declared in modules of the extension that
    the manager imports; each record lists the fields the manager reads
    or writes, under the names the source uses. *)

Module DownloadLink.
Record t : Type := mk {
  id : string;
  urlPath : string;
  innerFilePath : string;
  queryId : string
}.
End DownloadLink.

(** An item of [RemoteQueryResultIndex.successes]. *)
Module SuccessIndexItem.
Record t : Type := mk {
  artifactId : Z;
  nwo : string;
  sha : option string;
  resultCount : Z;
  bqrsFileSize : Z;
  sarifFileSize : option Z;
  sourceLocationPrefix : string
}.
End SuccessIndexItem.

(** An item of [RemoteQueryResultIndex.failures]. *)
Module FailureIndexItem.
Record t : Type := mk {
  nwo : string;
  error : string
}.
End FailureIndexItem.

Module RemoteQueryResultIndex.
Record t : Type := mk {
  artifactsUrlPath : string;
  successes : list SuccessIndexItem.t;
  failures : list FailureIndexItem.t
}.
End RemoteQueryResultIndex.

(** A value of the [RepositoriesMetadata] dictionary, keyed by [nwo]. *)
Module RepositoryMetadata.
Record t : Type := mk {
  starCount : Z;
  lastUpdated : Z
}.
End RepositoryMetadata.

Abbreviation RepositoriesMetadata := (gmap string RepositoryMetadata.t).

Module AnalysisSummary.
Record t : Type := mk {
  nwo : string;
  databaseSha : string;
  resultCount : Z;
  sourceLocationPrefix : string;
  fileSizeInBytes : Z;
  starCount : option Z;
  lastUpdated : option Z;
  downloadLink : DownloadLink.t
}.
End AnalysisSummary.

Module AnalysisFailure.
Record t : Type := mk {
  nwo : string;
  error : string
}.
End AnalysisFailure.

Module RemoteQueryResult.
Record t : Type := mk {
  executionEndTime : Z;
  analysisSummaries : list AnalysisSummary.t;
  analysisFailures : list AnalysisFailure.t;
  queryId : string
}.
End RemoteQueryResult.

(** The object literal that [autoDownloadRemoteQueryResults] builds for
    each analysis it hands to the analyses results manager. *)
Module AnalysisToDownload.
Record t : Type := mk {
  nwo : string;
  databaseSha : string;
  resultCount : Z;
  sourceLocationPrefix : string;
  downloadLink : DownloadLink.t;
  fileSize : string
}.
End AnalysisToDownload.

Module Repository.
Record t : Type := mk {
  owner : string;
  name : string
}.
End Repository.

Module RemoteQuery.
Record t : Type := mk {
  queryName : string;
  controllerRepository : Repository.t;
  actionsWorkflowRunId : Z
}.
End RemoteQuery.

Inductive QueryStatus : Type :=
| InProgress
| Completed
| Failed.

Module UpdatedQueryStatusEvent.
Record t : Type := mk {
  queryId : string;
  status : QueryStatus;
  failureReason : option string;
  repositoryCount : option Z;
  resultCount : option Z
}.
End UpdatedQueryStatusEvent.

(** The outcome of [RemoteQueriesMonitor.monitorQuery]. *)
Inductive WorkflowStatus : Type :=
| WfCompletedSuccessfully
| WfCompletedUnsuccessfully
| WfCancelled
| WfInProgress.

Module RemoteQueryWorkflowResult.
Record t : Type := mk {
  status : WorkflowStatus;
  error : option string
}.
End RemoteQueryWorkflowResult.

Inductive CancellationToken : Type :=
| Token (isCancellationRequested : bool).

(** *** The objects as JSON values

    What [JSON.stringify] sees of a [RemoteQueryResult]: the properties
    in the order of the object literals of [mapQueryResult]; a property
    whose value is [undefined] is left out. *)

Module Encode.
Import Json.

Definition optional (k : string) (o : option Z) : list (string * json) :=
  match o with
  | Some n => [(k, JNum n)]
  | None => []
  end.

Definition downloadLink (l : DownloadLink.t) : json :=
  JObj [ ("id", JStr (DownloadLink.id l));
         ("urlPath", JStr (DownloadLink.urlPath l));
         ("innerFilePath", JStr (DownloadLink.innerFilePath l));
         ("queryId", JStr (DownloadLink.queryId l)) ].

Definition analysisSummary (a : AnalysisSummary.t) : json :=
  JObj ([ ("nwo", JStr (AnalysisSummary.nwo a));
          ("databaseSha", JStr (AnalysisSummary.databaseSha a));
          ("resultCount", JNum (AnalysisSummary.resultCount a));
          ("sourceLocationPrefix", JStr (AnalysisSummary.sourceLocationPrefix a));
          ("fileSizeInBytes", JNum (AnalysisSummary.fileSizeInBytes a)) ]
        ++ optional "starCount" (AnalysisSummary.starCount a)
        ++ optional "lastUpdated" (AnalysisSummary.lastUpdated a)
        ++ [ ("downloadLink", downloadLink (AnalysisSummary.downloadLink a)) ]).

Definition analysisFailure (f : AnalysisFailure.t) : json :=
  JObj [ ("nwo", JStr (AnalysisFailure.nwo f));
         ("error", JStr (AnalysisFailure.error f)) ].

Definition remoteQueryResult (r : RemoteQueryResult.t) : json :=
  JObj [ ("executionEndTime", JNum (RemoteQueryResult.executionEndTime r));
         ("analysisSummaries",
          JArr (List.map analysisSummary (RemoteQueryResult.analysisSummaries r)));
         ("analysisFailures",
          JArr (List.map analysisFailure (RemoteQueryResult.analysisFailures r)));
         ("queryId", JStr (RemoteQueryResult.queryId r)) ].

End Encode.

(** The cast [as RemoteQueryResult] of a parsed file: the typed view of
    a value that has the shape of a [RemoteQueryResult]. *)
Module Decode.
Import Json.

Definition str (k : string) (v : json) : option string :=
  match field k v with
  | Some (JStr s) => Some s
  | _ => None
  end.

Definition num (k : string) (v : json) : option Z :=
  match field k v with
  | Some (JNum n) => Some n
  | _ => None
  end.

Definition optional_num (k : string) (v : json) : option (option Z) :=
  match field k v with
  | Some (JNum n) => Some (Some n)
  | Some _ => None
  | None => Some None
  end.

Fixpoint all {A} (f : json -> option A) (l : list json) : option (list A) :=
  match l with
  | [] => Some []
  | x :: l' =>
      match f x, all f l' with
      | Some a, Some r => Some (a :: r)
      | _, _ => None
      end
  end.

Definition array {A} (f : json -> option A) (k : string) (v : json)
  : option (list A) :=
  match field k v with
  | Some (JArr items) => all f items
  | _ => None
  end.

Definition downloadLink (v : json) : option DownloadLink.t :=
  match str "id" v, str "urlPath" v, str "innerFilePath" v, str "queryId" v with
  | Some i, Some u, Some p, Some q => Some (DownloadLink.mk i u p q)
  | _, _, _, _ => None
  end.

Definition analysisSummary (v : json) : option AnalysisSummary.t :=
  match str "nwo" v, str "databaseSha" v, num "resultCount" v,
        str "sourceLocationPrefix" v, num "fileSizeInBytes" v,
        optional_num "starCount" v, optional_num "lastUpdated" v,
        option_bind _ _ downloadLink (field "downloadLink" v) with
  | Some n, Some d, Some c, Some p, Some z, Some s, Some u, Some l =>
      Some (AnalysisSummary.mk n d c p z s u l)
  | _, _, _, _, _, _, _, _ => None
  end.

Definition analysisFailure (v : json) : option AnalysisFailure.t :=
  match str "nwo" v, str "error" v with
  | Some n, Some e => Some (AnalysisFailure.mk n e)
  | _, _ => None
  end.

Definition remoteQueryResult (v : json) : option RemoteQueryResult.t :=
  match num "executionEndTime" v,
        array analysisSummary "analysisSummaries" v,
        array analysisFailure "analysisFailures" v,
        str "queryId" v with
  | Some t, Some ss, Some fs, Some q => Some (RemoteQueryResult.mk t ss fs q)
  | _, _, _, _ => None
  end.

End Decode.

(** ** The remote queries manager *)

Module RemoteQueriesManager.

Definition autoDownloadMaxSize : Z := 300 * 1024.
Definition autoDownloadMaxCount : nat := 100.

(** What the manager asks of the world outside the program, in program
    order.  A call made with [void] (not awaited) is logged where it is
    made; what it does later is outside the model. *)
Inductive Effect : Type :=
| MonitorQuery (remoteQuery : RemoteQuery.t)
| GetRemoteQueryIndex (remoteQuery : RemoteQuery.t)
| GetRepositoriesMetadata (nwos : list string)
| FireRemoteQueryStatusUpdate (e : UpdatedQueryStatusEvent.t)
| ExecuteAutoDownloadCommand (queryResult : RemoteQueryResult.t)
| ShowInformationMessageWithAction (message action : string)
| ShowAndLogInformationMessage (message : string)
| ShowAndLogErrorMessage (message : string)
| ShowAndLogExceptionWithTelemetry (message : string)
| LoadAnalysesResults (analyses : list AnalysisToDownload.t)
                      (token : CancellationToken)
                      (queryId : string)
| ClipboardWriteText (text : string).

(** The mutable world the manager acts on: the files below the storage
    path, the system clipboard and the log of the calls made so far. *)
Record World : Type := mkWorld {
  files : gmap string string;
  clipboard : string;
  log : list Effect
}.

(** The collaborators of one manager: its [storagePath], the platform
    ([path.join], [os.EOL], [Date.now()]), the answers of the GitHub
    client and of the workflow monitor, and the answer of the file system
    to [writeFile(path, content)] of [fs-extra]: the write is accepted,
    or it is rejected with an error, as it is with [ENOENT] when the
    directory of the query does not exist. *)
Record Env : Type := mkEnv {
  storagePath : string;
  join : list string -> string;
  EOL : string;
  Date_now : Z;
  monitorQuery : RemoteQuery.t -> RemoteQueryWorkflowResult.t;
  getRemoteQueryIndex : RemoteQuery.t -> option RemoteQueryResultIndex.t;
  getRepositoriesMetadata_api : list string -> RepositoriesMetadata;
  writeFile_result : string -> string -> result unit
}.

Definition emit (e : Effect) : M World unit :=
  modify (fun w => mkWorld (files w) (clipboard w) (log w ++ [e])).

(** [writeFile(path, content, "utf8")]: a write that the file system
    rejects throws and leaves the files as they were. *)
Definition writeFile (this : Env) (path content : string) : M World unit :=
  fun w =>
    match writeFile_result this path content with
    | Ok _ =>
        (Ok tt, mkWorld (<[path := content]> (files w)) (clipboard w) (log w))
    | Throw e => (Throw e, w)
    end.

Definition readFile (path : string) : M World string :=
  fun w =>
    match files w !! path with
    | Some content => (Ok content, w)
    | None => (Throw ("ENOENT: no such file or directory, open " +:+ path), w)
    end.

Definition clipboard_writeText (text : string) : M World unit :=
  modify (fun w => mkWorld (files w) text (log w ++ [ClipboardWriteText text])).

(** Modelled from the spec: [sumAnalysisSummariesResults] of
    [remote-query-result.ts] is imported by the manager and is not part
    of the sources at hand; it is the sum of the per-analysis result
    counts. *)
Definition sumAnalysisSummariesResults (analysisSummaries : list AnalysisSummary.t) : Z :=
  fold_left (fun acc cur => acc + AnalysisSummary.resultCount cur) analysisSummaries 0.

(** [`${x}`] for a string that may be [undefined]. *)
Definition template_opt (x : option string) : string :=
  match x with
  | Some s => s
  | None => "undefined"
  end.

Definition dq : string := String Json.quote EmptyString.

Section Methods.
Context (this : Env).
Local Open Scope js_scope.

(** The callback of [filter] in [autoDownloadRemoteQueryResults]. *)
Definition smallEnough (a : AnalysisSummary.t) : bool :=
  AnalysisSummary.fileSizeInBytes a <? autoDownloadMaxSize.

(** The callback of [map] in [autoDownloadRemoteQueryResults]. *)
Definition toDownload (a : AnalysisSummary.t) : AnalysisToDownload.t :=
  {| AnalysisToDownload.nwo := AnalysisSummary.nwo a;
     AnalysisToDownload.databaseSha := AnalysisSummary.databaseSha a;
     AnalysisToDownload.resultCount := AnalysisSummary.resultCount a;
     AnalysisToDownload.sourceLocationPrefix := AnalysisSummary.sourceLocationPrefix a;
     AnalysisToDownload.downloadLink := AnalysisSummary.downloadLink a;
     AnalysisToDownload.fileSize := JS.Number_toString (AnalysisSummary.fileSizeInBytes a) |}.

(** [const analysesToDownload = ...] of [autoDownloadRemoteQueryResults]. *)
Definition analysesToDownload (queryResult : RemoteQueryResult.t)
  : list AnalysisToDownload.t :=
  List.map toDownload
    (JS.slice_0 autoDownloadMaxCount
       (List.filter smallEnough (RemoteQueryResult.analysisSummaries queryResult))).

Definition autoDownloadRemoteQueryResults
    (queryResult : RemoteQueryResult.t) (token : CancellationToken)
  : M World unit :=
  emit (LoadAnalysesResults (analysesToDownload queryResult) token
          (RemoteQueryResult.queryId queryResult)).

Definition mapSuccess (resultIndex : RemoteQueryResultIndex.t) (queryId : string)
    (metadata : RepositoriesMetadata) (item : SuccessIndexItem.t)
  : AnalysisSummary.t :=
  {| AnalysisSummary.nwo := SuccessIndexItem.nwo item;
     AnalysisSummary.databaseSha := JS.or_string (SuccessIndexItem.sha item) "HEAD";
     AnalysisSummary.resultCount := SuccessIndexItem.resultCount item;
     AnalysisSummary.sourceLocationPrefix := SuccessIndexItem.sourceLocationPrefix item;
     AnalysisSummary.fileSizeInBytes :=
       match SuccessIndexItem.sarifFileSize item with
       | Some size =>
           if JS.truthy_number size then size
           else SuccessIndexItem.bqrsFileSize item
       | None => SuccessIndexItem.bqrsFileSize item
       end;
     AnalysisSummary.starCount :=
       RepositoryMetadata.starCount <$> metadata !! SuccessIndexItem.nwo item;
     AnalysisSummary.lastUpdated :=
       RepositoryMetadata.lastUpdated <$> metadata !! SuccessIndexItem.nwo item;
     AnalysisSummary.downloadLink :=
       {| DownloadLink.id := JS.Number_toString (SuccessIndexItem.artifactId item);
          DownloadLink.urlPath :=
            RemoteQueryResultIndex.artifactsUrlPath resultIndex +:+ "/"
            +:+ JS.Number_toString (SuccessIndexItem.artifactId item);
          DownloadLink.innerFilePath :=
            if JS.truthy_opt JS.truthy_number (SuccessIndexItem.sarifFileSize item)
            then "results.sarif" else "results.bqrs";
          DownloadLink.queryId := queryId |} |}.

Definition mapFailure (item : FailureIndexItem.t) : AnalysisFailure.t :=
  {| AnalysisFailure.nwo := FailureIndexItem.nwo item;
     AnalysisFailure.error := FailureIndexItem.error item |}.

Definition mapQueryResult (executionEndTime : Z)
    (resultIndex : RemoteQueryResultIndex.t) (queryId : string)
    (metadata : RepositoriesMetadata) : RemoteQueryResult.t :=
  let analysisSummaries :=
    List.map (mapSuccess resultIndex queryId metadata)
      (RemoteQueryResultIndex.successes resultIndex) in
  let analysisFailures :=
    List.map mapFailure (RemoteQueryResultIndex.failures resultIndex) in
  {| RemoteQueryResult.executionEndTime := executionEndTime;
     RemoteQueryResult.analysisSummaries := analysisSummaries;
     RemoteQueryResult.analysisFailures := analysisFailures;
     RemoteQueryResult.queryId := queryId |}.

Definition storeJsonFile (queryId fileName : string) (obj : Json.json)
  : M World unit :=
  let filePath := join this [storagePath this; queryId; fileName] in
  writeFile this filePath (Json.stringify obj).

Definition retrieveJsonFile (queryId fileName : string) : M World Json.json :=
  let filePath := join this [storagePath this; queryId; fileName] in
  let* text := readFile filePath in
  lift (Json.parse text).

Definition getRemoteQueryResult (queryId : string) : M World RemoteQueryResult.t :=
  let* v := retrieveJsonFile queryId "query-result.json" in
  match Decode.remoteQueryResult v with
  | Some queryResult => ret queryResult
  | None => throw "TypeError: the file does not hold a RemoteQueryResult"
  end.

Definition repoListText (repos : list string) : list string :=
  [dq +:+ "new-repo-list" +:+ dq +:+ ": ["]
  ++ List.map (fun repo => "    " +:+ dq +:+ repo +:+ dq +:+ ",")
       (JS.slice_0_minus1 repos)
  ++ ["    " +:+ dq +:+ List.last repos "undefined" +:+ dq; "]"].

Definition copyRemoteQueryRepoListToClipboard (queryId : string) : M World unit :=
  let* queryResult := getRemoteQueryResult queryId in
  let repos :=
    List.map AnalysisSummary.nwo
      (List.filter (fun a => 0 <? AnalysisSummary.resultCount a)
         (RemoteQueryResult.analysisSummaries queryResult)) in
  if (0 <? length repos)%nat then
    clipboard_writeText (JS.Array_join (repoListText repos) (EOL this))
  else ret tt.

Definition getRepositoriesMetadata (resultIndex : RemoteQueryResultIndex.t)
  : M World RepositoriesMetadata :=
  let nwos := List.map SuccessIndexItem.nwo (RemoteQueryResultIndex.successes resultIndex) in
  await emit (GetRepositoriesMetadata nwos) in
  ret (getRepositoriesMetadata_api this nwos).

(** The part of [askToOpenResults] that runs before its first [await]
    resolves: the information message with the [View] action. *)
Definition askToOpenResults (query : RemoteQuery.t) (queryResult : RemoteQueryResult.t)
  : M World unit :=
  let totalResultCount :=
    sumAnalysisSummariesResults (RemoteQueryResult.analysisSummaries queryResult) in
  let totalRepoCount :=
    Z.of_nat (length (RemoteQueryResult.analysisSummaries queryResult)) in
  let message :=
    "Query " +:+ dq +:+ RemoteQuery.queryName query +:+ dq +:+ " run on "
    +:+ JS.Number_toString totalRepoCount +:+ " repositories and returned "
    +:+ JS.Number_toString totalResultCount +:+ " results" in
  emit (ShowInformationMessageWithAction message "View").

Definition downloadAvailableResults (queryId : string)
    (remoteQuery : RemoteQuery.t) (executionEndTime : Z) : M World unit :=
  await emit (GetRemoteQueryIndex remoteQuery) in
  match getRemoteQueryIndex this remoteQuery with
  | Some resultIndex =>
      let* metadata := getRepositoriesMetadata resultIndex in
      let queryResult := mapQueryResult executionEndTime resultIndex queryId metadata in
      let resultCount :=
        sumAnalysisSummariesResults (RemoteQueryResult.analysisSummaries queryResult) in
      await emit (FireRemoteQueryStatusUpdate
        {| UpdatedQueryStatusEvent.queryId := queryId;
           UpdatedQueryStatusEvent.status := Completed;
           UpdatedQueryStatusEvent.failureReason := None;
           UpdatedQueryStatusEvent.repositoryCount :=
             Some (Z.of_nat (length (RemoteQueryResult.analysisSummaries queryResult)));
           UpdatedQueryStatusEvent.resultCount := Some resultCount |}) in
      await storeJsonFile queryId "query-result.json"
              (Encode.remoteQueryResult queryResult) in
      await emit (ExecuteAutoDownloadCommand queryResult) in
      askToOpenResults remoteQuery queryResult
  | None =>
      let controllerRepo :=
        Repository.owner (RemoteQuery.controllerRepository remoteQuery) +:+ "/"
        +:+ Repository.name (RemoteQuery.controllerRepository remoteQuery) in
      let workflowRunUrl :=
        "https://github.com/" +:+ controllerRepo +:+ "/actions/runs/"
        +:+ JS.Number_toString (RemoteQuery.actionsWorkflowRunId remoteQuery) in
      await emit (ShowAndLogExceptionWithTelemetry
        ("There was an issue retrieving the result for the query ["
         +:+ RemoteQuery.queryName remoteQuery +:+ "](" +:+ workflowRunUrl +:+ ").")) in
      emit (FireRemoteQueryStatusUpdate
        {| UpdatedQueryStatusEvent.queryId := queryId;
           UpdatedQueryStatusEvent.status := Failed;
           UpdatedQueryStatusEvent.failureReason := None;
           UpdatedQueryStatusEvent.repositoryCount := None;
           UpdatedQueryStatusEvent.resultCount := None |})
  end.

(** [queryWorkflowResult.error?.includes("cancelled")], as a condition. *)
Definition errorIncludesCancelled (error : option string) : bool :=
  match error with
  | Some e => JS.includes e "cancelled"
  | None => false
  end.

Definition fireCancelled (queryId : string) : M World unit :=
  emit (FireRemoteQueryStatusUpdate
    {| UpdatedQueryStatusEvent.queryId := queryId;
       UpdatedQueryStatusEvent.status := Failed;
       UpdatedQueryStatusEvent.failureReason := Some "Cancelled";
       UpdatedQueryStatusEvent.repositoryCount := None;
       UpdatedQueryStatusEvent.resultCount := None |}).

Definition monitorRemoteQuery (queryId : string) (remoteQuery : RemoteQuery.t)
    (cancellationToken : CancellationToken) : M World unit :=
  await emit (MonitorQuery remoteQuery) in
  let queryWorkflowResult := monitorQuery this remoteQuery in
  let executionEndTime := Date_now this in
  match RemoteQueryWorkflowResult.status queryWorkflowResult with
  | WfCompletedSuccessfully =>
      downloadAvailableResults queryId remoteQuery executionEndTime
  | WfCompletedUnsuccessfully =>
      if errorIncludesCancelled (RemoteQueryWorkflowResult.error queryWorkflowResult)
      then
        await fireCancelled queryId in
        await downloadAvailableResults queryId remoteQuery executionEndTime in
        emit (ShowAndLogInformationMessage "Variant analysis was cancelled")
      else
        await emit (FireRemoteQueryStatusUpdate
          {| UpdatedQueryStatusEvent.queryId := queryId;
             UpdatedQueryStatusEvent.status := Failed;
             UpdatedQueryStatusEvent.failureReason :=
               RemoteQueryWorkflowResult.error queryWorkflowResult;
             UpdatedQueryStatusEvent.repositoryCount := None;
             UpdatedQueryStatusEvent.resultCount := None |}) in
        emit (ShowAndLogErrorMessage
          ("Variant analysis execution failed. Error: "
           +:+ template_opt (RemoteQueryWorkflowResult.error queryWorkflowResult)))
  | WfCancelled =>
      await fireCancelled queryId in
      await downloadAvailableResults queryId remoteQuery executionEndTime in
      emit (ShowAndLogInformationMessage "Variant analysis was cancelled")
  | WfInProgress =>
      emit (ShowAndLogExceptionWithTelemetry "Unexpected status: InProgress")
  end.

End Methods.

(** *** The words of the specification, for comparison with the code *)

(** The entries of a repository list: one line per repository, every
    line but the last followed by a comma. *)
Fixpoint repoEntries (repos : list string) : list string :=
  match repos with
  | [] => []
  | [repo] => ["    " +:+ dq +:+ repo +:+ dq]
  | repo :: rest => ("    " +:+ dq +:+ repo +:+ dq +:+ ",") :: repoEntries rest
  end.

(** The sum of the result counts of the successful analyses of an index. *)
Definition totalResultCount (resultIndex : RemoteQueryResultIndex.t) : Z :=
  fold_right Z.add 0
    (List.map SuccessIndexItem.resultCount (RemoteQueryResultIndex.successes resultIndex)).

(** An error message contains the word [cancelled]. *)
Definition containsCancelled (error : option string) : Prop :=
  exists e pre post, error = Some e /\ e = pre +:+ "cancelled" +:+ post.

(** The entries that a run appends to the log of [w]. *)
Definition emitted (w w' : World) : list Effect :=
  drop (length (log w)) (log w').

(** The query results handed to the auto-download command, and the
    lists of analyses handed to the analyses results manager. *)
Definition handedToAutoDownload (es : list Effect) : list RemoteQueryResult.t :=
  omap (fun e => match e with
                 | ExecuteAutoDownloadCommand queryResult => Some queryResult
                 | _ => None
                 end) es.

Definition handedToLoad (es : list Effect) : list (list AnalysisToDownload.t) :=
  omap (fun e => match e with
                 | LoadAnalysesResults analyses _ _ => Some analyses
                 | _ => None
                 end) es.

End RemoteQueriesManager.

(** ** The compare view *)

Module CompareView.

(** *** Data

    The types below are declared in modules that the view imports; each
    record lists the fields that the view, or the comparison of two
    result sets, reads. *)

(** An entry of [BqrsInfo["result-sets"]]. *)
Module BqrsResultSetSchema.
Record t : Type := mk {
  name : string;
  columns : list string
}.
End BqrsResultSetSchema.

Module BqrsInfo.
Record t : Type := mk {
  result_sets : list BqrsResultSetSchema.t
}.
End BqrsInfo.

Definition CellValue : Type := string.
Definition Row : Type := list CellValue.
Definition DecodedBqrsChunk : Type := list Row.

Module Column.
Record t : Type := mk {
  name : string
}.
End Column.

Module RawResultSet.
Record t : Type := mk {
  name : string;
  columns : list Column.t;
  rows : list Row
}.
End RawResultSet.

Module RawQueryCompareResult.
Record t : Type := mk {
  columns : list Column.t;
  from : list Row;
  to : list Row
}.
End RawQueryCompareResult.

(** The fields of a [CompletedLocalQueryInfo] that the view reads:
    [completedQuery.query.resultsPaths.resultsPath],
    [completedQuery.statusString], [startTime] and
    [initialInfo.databaseInfo.databaseUri]. *)
Module CompletedLocalQueryInfo.
Record t : Type := mk {
  resultsPath : string;
  statusString : string;
  startTime : string;
  databaseUri : string
}.
End CompletedLocalQueryInfo.

Module ComparePair.
Record t : Type := mk {
  from : CompletedLocalQueryInfo.t;
  fromSchemas : BqrsInfo.t;
  to : CompletedLocalQueryInfo.t;
  toSchemas : BqrsInfo.t;
  commonResultSetNames : list string
}.
End ComparePair.

(** What [findResultSetNames] resolves to. *)
Module ResultSetNames.
Record t : Type := mk {
  currentResultSetDisplayName : option string;
  fromResultSetName : option string;
  toResultSetName : option string
}.
End ResultSetNames.

Module QueryStats.
Record t : Type := mk {
  name : string;
  status : string;
  time : string
}.
End QueryStats.

Inductive ToCompareViewMessage : Type :=
| SetComparisonQueryInfo (fromQuery toQuery : QueryStats.t)
                         (databaseUri : string)
                         (commonResultSetNames : list string)
| SetComparisons (result : option RawQueryCompareResult.t)
                 (currentResultSetName : string)
                 (message : option string).

Inductive QueryKind : Type :=
| KindFrom
| KindTo.

Inductive FromCompareViewMessage : Type :=
| ViewLoaded
| ChangeCompare (newResultSetName : string)
| ViewSourceFile (databaseUri loc : string)
| OpenQuery (kind : QueryKind)
| Telemetry (action : string)
| UnhandledError (errorMessage : string).

(** The calls the view makes on the webview panel of its base class and
    on its other collaborators, in program order. *)
Inductive Effect : Type :=
| GetPanel
| PanelReveal
| WaitForPanelLoaded
| PostMessage (msg : ToCompareViewMessage)
| OnWebViewLoaded
| SendUIInteraction (name : string)
| JumpToLocation (databaseUri loc : string)
| ShowQueryResultsCallback (item : CompletedLocalQueryInfo.t)
| ShowAndLogExceptionWithTelemetry (message : string).

(** The mutable state of a view: its [comparePair] field, and the calls
    made so far. *)
Record View : Type := mkView {
  comparePair : option ComparePair.t;
  log : list Effect
}.

(** The collaborators of one view: the CodeQL CLI server, the label
    provider, the telemetry listener (which may be absent), the
    functions imported from [./result-set-names], [./resultsDiff] and
    [../common/bqrs-raw-results-mapper], and the outcomes of the two
    promises that [onMessage] awaits outside the view: the
    [showQueryResultsCallback] given to the constructor and
    [jumpToLocation]. *)
Record Env : Type := mkEnv {
  bqrsInfo : string -> result BqrsInfo.t;
  bqrsDecode : string -> string -> result DecodedBqrsChunk;
  bqrsToResultSet : BqrsResultSetSchema.t -> DecodedBqrsChunk -> RawResultSet.t;
  getShortLabel : CompletedLocalQueryInfo.t -> string;
  telemetryListener : bool;
  findCommonResultSetNames : BqrsInfo.t -> BqrsInfo.t -> result (list string);
  findResultSetNames :
    BqrsInfo.t -> BqrsInfo.t -> list string -> option string ->
    result ResultSetNames.t;
  resultsDiff : RawResultSet.t -> RawResultSet.t -> result RawQueryCompareResult.t;
  showQueryResultsCallback : CompletedLocalQueryInfo.t -> result unit;
  jumpToLocation : string -> string -> result unit
}.

Definition emit (e : Effect) : M View unit :=
  modify (fun v => mkView (comparePair v) (log v ++ [e])).

(** The entries that a run appends to the log of [v]. *)
Definition emitted (v v' : View) : list Effect :=
  drop (length (log v)) (log v').

Definition setComparePair (p : option ComparePair.t) : M View unit :=
  modify (fun v => mkView p (log v)).

Section Methods.
Context (this : Env).
Local Open Scope js_scope.

(** Modelled from the spec: [postMessage] of the base class
    [AbstractWebview] is not part of the sources at hand; it passes the
    message to the front-end view, which the log records.  The same
    holds of [getPanel], [panel.reveal] and [waitForPanelLoaded], which
    the methods below call by logging them. *)
Definition postMessage (msg : ToCompareViewMessage) : M View unit :=
  emit (PostMessage msg).

(** [telemetryListener?.sendUIInteraction(name)]. *)
Definition sendUIInteraction (name : string) : M View unit :=
  if telemetryListener this then emit (SendUIInteraction name) else ret tt.

Definition compareResults (fromResults toResults : RawResultSet.t)
  : result RawQueryCompareResult.t :=
  resultsDiff this fromResults toResults.

Definition getResultSet (bqrsInfo : BqrsInfo.t) (resultSetName : option string)
    (resultsPath : string) : result RawResultSet.t :=
  match resultSetName with
  | None => Throw "Schema undefined not found."
  | Some resultSetName =>
      match JS.Array_find
              (fun schema => String.eqb (BqrsResultSetSchema.name schema) resultSetName)
              (BqrsInfo.result_sets bqrsInfo) with
      | None => Throw ("Schema " +:+ resultSetName +:+ " not found.")
      | Some schema =>
          result_bind (bqrsDecode this resultsPath resultSetName)
            (fun chunk => Ok (bqrsToResultSet this schema chunk))
      end
  end.

Definition findResultSetsToCompare (pair : ComparePair.t)
    (selectedResultSetName : option string)
  : result (option string * RawResultSet.t * RawResultSet.t) :=
  result_bind
    (findResultSetNames this (ComparePair.fromSchemas pair)
       (ComparePair.toSchemas pair) (ComparePair.commonResultSetNames pair)
       selectedResultSetName)
    (fun names =>
  result_bind
    (getResultSet (ComparePair.fromSchemas pair)
       (ResultSetNames.fromResultSetName names)
       (CompletedLocalQueryInfo.resultsPath (ComparePair.from pair)))
    (fun fromResultSet =>
  result_bind
    (getResultSet (ComparePair.toSchemas pair)
       (ResultSetNames.toResultSetName names)
       (CompletedLocalQueryInfo.resultsPath (ComparePair.to pair)))
    (fun toResultSet =>
  Ok (ResultSetNames.currentResultSetDisplayName names,
      fromResultSet, toResultSet)))).

Definition showResultsInternal (selectedResultSetName : option string)
  : M View unit :=
  let* view := get in
  match comparePair view with
  | None => ret tt
  | Some thePair =>
      await emit GetPanel in
      await emit PanelReveal in
      await emit WaitForPanelLoaded in
      let* '(currentResultSetDisplayName, fromResultSet, toResultSet) :=
        lift (findResultSetsToCompare thePair selectedResultSetName) in
      match currentResultSetDisplayName with
      | Some displayName =>
          if JS.truthy_string displayName then
            let '(result, message) :=
              match compareResults fromResultSet toResultSet with
              | Ok r => (Some r, None)
              | Throw e => (None, Some (getErrorMessage e))
              end in
            postMessage (SetComparisons result displayName message)
          else ret tt
      | None => ret tt
      end
  end.

Definition showResults (from to : CompletedLocalQueryInfo.t)
    (selectedResultSetName : option string) : M View unit :=
  let* fromSchemas := lift (bqrsInfo this (CompletedLocalQueryInfo.resultsPath from)) in
  let* toSchemas := lift (bqrsInfo this (CompletedLocalQueryInfo.resultsPath to)) in
  let* commonResultSetNames :=
    lift (findCommonResultSetNames this fromSchemas toSchemas) in
  await setComparePair
    (Some {| ComparePair.from := from;
             ComparePair.fromSchemas := fromSchemas;
             ComparePair.to := to;
             ComparePair.toSchemas := toSchemas;
             ComparePair.commonResultSetNames := commonResultSetNames |}) in
  await emit GetPanel in
  await emit PanelReveal in
  await emit WaitForPanelLoaded in
  await postMessage
    (SetComparisonQueryInfo
       {| QueryStats.name := getShortLabel this from;
          QueryStats.status := CompletedLocalQueryInfo.statusString from;
          QueryStats.time := CompletedLocalQueryInfo.startTime from |}
       {| QueryStats.name := getShortLabel this to;
          QueryStats.status := CompletedLocalQueryInfo.statusString to;
          QueryStats.time := CompletedLocalQueryInfo.startTime to |}
       (CompletedLocalQueryInfo.databaseUri to)
       commonResultSetNames) in
  showResultsInternal selectedResultSetName.

Definition onPanelDispose : M View unit :=
  setComparePair None.

Definition changeTable (newResultSetName : string) : M View unit :=
  showResultsInternal (Some newResultSetName).

Definition openQuery (kind : QueryKind) : M View unit :=
  let* view := get in
  let toOpen :=
    match kind with
    | KindFrom => ComparePair.from <$> comparePair view
    | KindTo => ComparePair.to <$> comparePair view
    end in
  match toOpen with
  | Some item =>
      await emit (ShowQueryResultsCallback item) in
      lift (showQueryResultsCallback this item)
  | None => ret tt
  end.

Definition kindName (kind : QueryKind) : string :=
  match kind with
  | KindFrom => "from"
  | KindTo => "to"
  end.

Definition onMessage (msg : FromCompareViewMessage) : M View unit :=
  match msg with
  | ViewLoaded => emit OnWebViewLoaded
  | ChangeCompare newResultSetName =>
      await changeTable newResultSetName in
      sendUIInteraction "compare-view-change-table-to-compare"
  | ViewSourceFile databaseUri loc =>
      await emit (JumpToLocation databaseUri loc) in
      lift (jumpToLocation this databaseUri loc)
  | OpenQuery kind =>
      await openQuery kind in
      sendUIInteraction ("compare-view-open-" +:+ kindName kind +:+ "-query")
  | Telemetry action => sendUIInteraction action
  | UnhandledError errorMessage =>
      emit (ShowAndLogExceptionWithTelemetry
              ("Unhandled error in result comparison view: " +:+ errorMessage))
  end.

(** What [compareResults] contributes to the [setComparisons] message
    of [showResultsInternal]: the [result] and the [message]. *)
Definition comparison (fromResultSet toResultSet : RawResultSet.t)
  : option RawQueryCompareResult.t * option string :=
  match compareResults fromResultSet toResultSet with
  | Ok r => (Some r, None)
  | Throw e => (None, Some (getErrorMessage e))
  end.

End Methods.

(** *** The imported functions, from the specification *)

Definition resultSetNamesOf (schemas : BqrsInfo.t) : list string :=
  List.map BqrsResultSetSchema.name (BqrsInfo.result_sets schemas).

Definition occurs (x : string) (l : list string) : bool :=
  existsb (String.eqb x) l.

(** Modelled from the spec: [findCommonResultSetNames] of
    [./result-set-names] is not part of the sources at hand; it returns
    the result-set names common to the schemas of both queries. *)
Definition spec_findCommonResultSetNames (fromSchemas toSchemas : BqrsInfo.t)
  : result (list string) :=
  Ok (List.filter (fun name => occurs name (resultSetNamesOf toSchemas))
        (resultSetNamesOf fromSchemas)).

Definition columnNames (rs : RawResultSet.t) : list string :=
  List.map Column.name (RawResultSet.columns rs).

(** The cell of [row] under the first column named [c]. *)
Fixpoint cellOf (columns : list string) (row : Row) (c : string) : option CellValue :=
  match columns, row with
  | c' :: columns', v :: row' =>
      if String.eqb c' c then Some v else cellOf columns' row' c
  | _, _ => None
  end.

(** The cells of [row] under the columns [names], in that order; a cell
    that the row lacks is [undefined]. *)
Definition project (names : list string) (rs : RawResultSet.t) (row : Row) : Row :=
  List.map (fun c => default "undefined" (cellOf (columnNames rs) row c)) names.

Definition rowEqb (r1 r2 : Row) : bool :=
  bool_decide (r1 = r2).

(** The rows of [rows] that do not occur in [others]. *)
Definition rowsMissingFrom (others rows : list Row) : list Row :=
  List.filter (fun r => negb (existsb (rowEqb r) others)) rows.

Definition commonColumnNames (fromResults toResults : RawResultSet.t) : list string :=
  List.filter (fun c => occurs c (columnNames toResults)) (columnNames fromResults).

(** Modelled from the spec: [resultsDiff] of [./resultsDiff] is not part
    of the sources at hand; it diffs two result tables column by column,
    by the column names that both have: the rows of either table,
    restricted to those columns, that the other table lacks. *)
Definition spec_resultsDiff (fromResults toResults : RawResultSet.t)
  : result RawQueryCompareResult.t :=
  let common := commonColumnNames fromResults toResults in
  let fromRows := List.map (project common fromResults) (RawResultSet.rows fromResults) in
  let toRows := List.map (project common toResults) (RawResultSet.rows toResults) in
  Ok {| RawQueryCompareResult.columns := List.map Column.mk common;
        RawQueryCompareResult.from := rowsMissingFrom toRows fromRows;
        RawQueryCompareResult.to := rowsMissingFrom fromRows toRows |}.

(** A view whose [findCommonResultSetNames] and [resultsDiff] are the
    ones above; everything else is as given. *)
Definition spec_env (bqrsInfo : string -> result BqrsInfo.t)
    (bqrsDecode : string -> string -> result DecodedBqrsChunk)
    (bqrsToResultSet : BqrsResultSetSchema.t -> DecodedBqrsChunk -> RawResultSet.t)
    (getShortLabel : CompletedLocalQueryInfo.t -> string)
    (telemetryListener : bool)
    (findResultSetNames :
       BqrsInfo.t -> BqrsInfo.t -> list string -> option string ->
       result ResultSetNames.t)
    (showQueryResultsCallback : CompletedLocalQueryInfo.t -> result unit)
    (jumpToLocation : string -> string -> result unit) : Env :=
  {| bqrsInfo := bqrsInfo;
     bqrsDecode := bqrsDecode;
     bqrsToResultSet := bqrsToResultSet;
     getShortLabel := getShortLabel;
     telemetryListener := telemetryListener;
     findCommonResultSetNames := spec_findCommonResultSetNames;
     findResultSetNames := findResultSetNames;
     resultsDiff := spec_resultsDiff;
     showQueryResultsCallback := showQueryResultsCallback;
     jumpToLocation := jumpToLocation |}.

End CompareView.

(** ** Sample data *)

Module Examples.
Import RemoteQueriesManager.

Definition link : DownloadLink.t :=
  DownloadLink.mk "7" "/repos/octo/controller/actions/artifacts/7"
    "results.sarif" "q1".

Definition small : AnalysisSummary.t :=
  AnalysisSummary.mk "octo/one" "HEAD" 3 "/home/runner/work" 1024
    (Some 5) None link.

Definition large : AnalysisSummary.t :=
  AnalysisSummary.mk "octo/two" "abc123" 0 "/home/runner/work" 400000
    None (Some 1700000000) link.

Definition queryResult : RemoteQueryResult.t :=
  RemoteQueryResult.mk 1700000000000 [small; large]
    [AnalysisFailure.mk "octo/bad" "timed out"] "q1".

Definition resultIndex : RemoteQueryResultIndex.t :=
  RemoteQueryResultIndex.mk "/repos/octo/controller/actions/artifacts"
    [ SuccessIndexItem.mk 7 "octo/one" None 3 2048 (Some 1024) "/home/runner/work";
      SuccessIndexItem.mk 8 "octo/two" (Some "abc123") 4 512 None "/home/runner/work" ]
    [ FailureIndexItem.mk "octo/bad" "timed out" ].

Definition remoteQuery : RemoteQuery.t :=
  RemoteQuery.mk "Find bugs" (Repository.mk "octo" "controller") 42.

(** An environment whose workflow ends with [outcome] and whose result
    index is [index]. *)
Definition env (outcome : RemoteQueryWorkflowResult.t)
    (index : option RemoteQueryResultIndex.t) : Env :=
  {| storagePath := "/storage";
     join := String.concat "/";
     EOL := Json.nl;
     Date_now := 1700000000000;
     monitorQuery := fun _ => outcome;
     getRemoteQueryIndex := fun _ => index;
     getRepositoriesMetadata_api :=
       fun _ => {[ "octo/one" := RepositoryMetadata.mk 5 1700000000 ]};
     writeFile_result := fun _ _ => Ok tt |}.

Definition succeeded : Env :=
  env (RemoteQueryWorkflowResult.mk WfCompletedSuccessfully None) (Some resultIndex).

Definition cancelled : Env :=
  env (RemoteQueryWorkflowResult.mk WfCompletedUnsuccessfully
         (Some "The run was cancelled by the user"))
      (Some resultIndex).

Definition failed : Env :=
  env (RemoteQueryWorkflowResult.mk WfCompletedUnsuccessfully (Some "boom")) None.

(** As [succeeded], but the storage directory of the query is gone:
    every write is rejected. *)
Definition withoutDirectory : Env :=
  {| storagePath := "/storage";
     join := String.concat "/";
     EOL := Json.nl;
     Date_now := 1700000000000;
     monitorQuery :=
       fun _ => RemoteQueryWorkflowResult.mk WfCompletedSuccessfully None;
     getRemoteQueryIndex := fun _ => Some resultIndex;
     getRepositoriesMetadata_api :=
       fun _ => {[ "octo/one" := RepositoryMetadata.mk 5 1700000000 ]};
     writeFile_result :=
       fun path _ => Throw ("ENOENT: no such file or directory, open " +:+ path) |}.

Definition world : World := mkWorld ∅ "" [].

(** The world after the sample query result has been stored. *)
Definition stored : World :=
  snd (storeJsonFile succeeded "q1" "query-result.json"
         (Encode.remoteQueryResult queryResult) world).

Import CompareView.

Definition fromSchemas : BqrsInfo.t :=
  BqrsInfo.mk [ BqrsResultSetSchema.mk "#select" ["a"; "b"];
                BqrsResultSetSchema.mk "edges" ["x"; "y"] ].

Definition toSchemas : BqrsInfo.t :=
  BqrsInfo.mk [ BqrsResultSetSchema.mk "#select" ["b"; "c"];
                BqrsResultSetSchema.mk "nodes" ["n"] ].

Definition fromQuery : CompletedLocalQueryInfo.t :=
  CompletedLocalQueryInfo.mk "from.bqrs" "finished in 1s" "10:00" "file:/db".

Definition toQuery : CompletedLocalQueryInfo.t :=
  CompletedLocalQueryInfo.mk "to.bqrs" "finished in 2s" "10:05" "file:/db".

Definition cliInfo (resultsPath : string) : result BqrsInfo.t :=
  if String.eqb resultsPath "from.bqrs" then Ok fromSchemas else Ok toSchemas.

Definition cliDecode (resultsPath resultSetName : string) : result DecodedBqrsChunk :=
  if String.eqb resultsPath "from.bqrs"
  then Ok [["1"; "u"]; ["2"; "v"]]
  else Ok [["u"; "9"]; ["w"; "8"]].

Definition toResultSet (schema : BqrsResultSetSchema.t) (chunk : DecodedBqrsChunk)
  : RawResultSet.t :=
  RawResultSet.mk (BqrsResultSetSchema.name schema)
    (List.map Column.mk (BqrsResultSetSchema.columns schema)) chunk.

Definition label (item : CompletedLocalQueryInfo.t) : string :=
  CompletedLocalQueryInfo.resultsPath item.

(** A [findResultSetNames] for the sample views: the selected name, or
    else the first common name, for the display and on both sides. *)
Definition pickOneName (fromSchemas toSchemas : BqrsInfo.t)
    (commonResultSetNames : list string) (selectedResultSetName : option string)
  : result ResultSetNames.t :=
  let currentResultSetName :=
    if JS.truthy_opt JS.truthy_string selectedResultSetName
    then selectedResultSetName
    else List.head commonResultSetNames in
  Ok {| ResultSetNames.currentResultSetDisplayName := currentResultSetName;
        ResultSetNames.fromResultSetName := currentResultSetName;
        ResultSetNames.toResultSetName := currentResultSetName |}.

(** Collaborators that open whatever they are asked to open. *)
Definition opens (item : CompletedLocalQueryInfo.t) : result unit := Ok tt.

Definition jumps (databaseUri loc : string) : result unit := Ok tt.

(** A view that compares as the specification describes. *)
Definition viewEnv : CompareView.Env :=
  spec_env cliInfo cliDecode toResultSet label true pickOneName opens jumps.

(** A view whose comparison throws. *)
Definition throwingEnv : CompareView.Env :=
  {| bqrsInfo := cliInfo;
     bqrsDecode := cliDecode;
     bqrsToResultSet := toResultSet;
     getShortLabel := label;
     telemetryListener := false;
     findCommonResultSetNames := spec_findCommonResultSetNames;
     findResultSetNames := pickOneName;
     resultsDiff := fun _ _ => Throw "CodeQL Compare: Columns do not match.";
     showQueryResultsCallback := opens;
     jumpToLocation := jumps |}.

Definition thePair : ComparePair.t :=
  ComparePair.mk fromQuery fromSchemas toQuery toSchemas ["#select"].

Definition openView : View := mkView (Some thePair) [].

Definition closedView : View := mkView None [].

End Examples.

(** ** Further methods and observations *)

(** [try { m } catch (e) { h(e) }]: what [m] did before it threw stays
    done. *)
Definition try_catch {S A} (m : M S A) (h : string -> M S A) : M S A :=
  fun s =>
    match m s with
    | (Ok a, s') => (Ok a, s')
    | (Throw e, s') => h e s'
    end.

(** *** Opening the results of a remote query *)

Module ManagerView.
Import RemoteQueriesManager.

(** The calls of the manager on its [RemoteQueriesView].  The two
    arguments of [showResults] are what [JSON.parse] returned: the casts
    [as RemoteQuery] and [as RemoteQueryResult] check nothing. *)
Inductive ViewCall : Type :=
| ShowResults (query queryResult : Json.json).

(** The world of the manager together with the calls on its view. *)
Record Manager : Type := mkManager {
  world : World;
  viewCalls : list ViewCall
}.

(** A method that acts on the world only. *)
Definition onWorld {A} (m : M World A) : M Manager A :=
  fun s =>
    match m (world s) with
    | (r, w') => (r, mkManager w' (viewCalls s))
    end.

Section Methods.
Context (this : Env).

(** What [this.view.showResults] answers: the view is not part of the
    manager. *)
Context (view_showResults : Json.json -> Json.json -> result unit).
Local Open Scope js_scope.

Definition reportCouldNotOpen (e : string) : M Manager unit :=
  onWorld
    (emit (ShowAndLogExceptionWithTelemetry
             ("Could not open query results. " +:+ getErrorMessage e))).

Definition openResults (query queryResult : Json.json) : M Manager unit :=
  await modify (fun s =>
          mkManager (world s) (viewCalls s ++ [ShowResults query queryResult])) in
  lift (view_showResults query queryResult).

(** [void p.then(noop, h)]: the promise is followed to its end, where
    [h] takes its rejection; nothing of it reaches the caller. *)
Definition openRemoteQueryResults (queryId : string) : M Manager unit :=
  try_catch
    (let* remoteQuery := onWorld (retrieveJsonFile this queryId "query.json") in
     let* remoteQueryResult :=
       onWorld (retrieveJsonFile this queryId "query-result.json") in
     try_catch (openResults remoteQuery remoteQueryResult) reportCouldNotOpen)
    reportCouldNotOpen.

End Methods.

End ManagerView.

(** *** What a run shows to its observers *)

Module Observe.
Import RemoteQueriesManager.

(** The status updates among the entries of a log, in order: what the
    tree view of the query history receives. *)
Definition statusUpdates (es : list Effect) : list UpdatedQueryStatusEvent.t :=
  omap (fun e => match e with
                 | FireRemoteQueryStatusUpdate u => Some u
                 | _ => None
                 end) es.

(** The size that decides on the automatic download of a success item
    of the index: its SARIF size when it has one that is not zero, its
    BQRS size otherwise. *)
Definition effectiveSize (item : SuccessIndexItem.t) : Z :=
  match SuccessIndexItem.sarifFileSize item with
  | Some size => if decide (size = 0) then SuccessIndexItem.bqrsFileSize item else size
  | None => SuccessIndexItem.bqrsFileSize item
  end.

(** The file of the artifact that goes with that size. *)
Definition effectiveFile (item : SuccessIndexItem.t) : string :=
  match SuccessIndexItem.sarifFileSize item with
  | Some size => if decide (size = 0) then "results.bqrs" else "results.sarif"
  | None => "results.bqrs"
  end.

(** A string that [JSON.stringify] would quote unchanged: no quote, no
    backslash and no control character. *)
Fixpoint plain (s : string) : bool :=
  match s with
  | EmptyString => true
  | String c s' =>
      negb (Ascii.eqb c Json.quote) && negb (Ascii.eqb c Json.backslash)
      && negb (N_of_ascii c <? 32)%N && plain s'
  end.

(** The messages posted to the front end among the entries of the log
    of a compare view, in order. *)
Definition postedMessages (es : list CompareView.Effect)
  : list CompareView.ToCompareViewMessage :=
  omap (fun e => match e with
                 | CompareView.PostMessage msg => Some msg
                 | _ => None
                 end) es.

End Observe.

(** *** Further sample data *)

Module MoreExamples.
Import RemoteQueriesManager Examples.

(** The sample query as [query.json] holds it. *)
Definition queryJson : Json.json :=
  Json.JObj
    [ ("queryName", Json.JStr "Find bugs");
      ("controllerRepository",
       Json.JObj [("owner", Json.JStr "octo"); ("name", Json.JStr "controller")]);
      ("actionsWorkflowRunId", Json.JNum 42) ].

Definition resultJson : Json.json := Encode.remoteQueryResult queryResult.

(** A view that shows what it is given. *)
Definition acceptingView (query queryResult : Json.json) : result unit := Ok tt.

Definition manager : ManagerView.Manager := ManagerView.mkManager world [].

Import CompareView.

(** A CLI server that cannot read the BQRS file of the second query. *)
Definition halfBrokenCli (resultsPath : string) : result BqrsInfo.t :=
  if String.eqb resultsPath "from.bqrs" then Ok fromSchemas
  else Throw "Failed to read the BQRS file".

Definition brokenEnv : CompareView.Env :=
  spec_env halfBrokenCli cliDecode toResultSet label true pickOneName opens jumps.

(** A view whose [showQueryResultsCallback] rejects. *)
Definition cannotOpen (item : CompletedLocalQueryInfo.t) : result unit :=
  Throw "Could not open the query results".

Definition closedDoorEnv : CompareView.Env :=
  spec_env cliInfo cliDecode toResultSet label true pickOneName cannotOpen jumps.

End MoreExamples.

(* ================================================================== *)
(** * Part II: properties                                              *)
(* ================================================================== *)

(** ** Strings *)

Module StringFacts.

Lemma append_nil_r (s : string) : s +:+ "" = s.
Proof. induction s as [|c s IH]; simpl; [reflexivity | now rewrite IH]. Qed.

Lemma append_assoc (a b c : string) : (a +:+ b) +:+ c = a +:+ (b +:+ c).
Proof. induction a as [|x a IH]; simpl; [reflexivity | now rewrite IH]. Qed.

Lemma length_append (a b : string) :
  String.length (a +:+ b) = (String.length a + String.length b)%nat.
Proof. induction a as [|x a IH]; simpl; [reflexivity | now rewrite IH]. Qed.

Lemma startsWith_append (p rest : string) : JS.startsWith (p +:+ rest) p = true.
Proof.
  induction p as [|c p IH]; simpl; [reflexivity |].
  now rewrite Ascii.eqb_refl, IH.
Qed.

Lemma startsWith_split (s p : string) :
  JS.startsWith s p = true -> exists rest, s = p +:+ rest.
Proof.
  revert s. induction p as [|c p IH]; intros s H; simpl in *.
  - now exists s.
  - destruct s as [|a s]; [discriminate |].
    apply andb_prop in H as [Hc Hp].
    apply Ascii.eqb_eq in Hc. subst a.
    destruct (IH _ Hp) as [rest ->]. now exists rest.
Qed.

Lemma includes_head (s sub : string) :
  JS.startsWith s sub = true -> JS.includes s sub = true.
Proof. intros H. destruct s; simpl; now rewrite H. Qed.

(** [includes] decides whether [sub] occurs in [s]. *)
Lemma includes_spec (s sub : string) :
  JS.includes s sub = true <-> exists pre post, s = pre +:+ sub +:+ post.
Proof.
  split.
  - induction s as [|c s IH]; simpl; intros H.
    + apply orb_prop in H as [H | H]; [| discriminate].
      apply startsWith_split in H as [rest ->]. now exists "", rest.
    + apply orb_prop in H as [H | H].
      * apply startsWith_split in H as [rest ->]. now exists "", rest.
      * destruct (IH H) as (pre & post & ->). now exists (String c pre), post.
  - intros (pre & post & ->).
    induction pre as [|c pre IH]; simpl.
    + apply includes_head, startsWith_append.
    + rewrite IH. apply orb_true_r.
Qed.

End StringFacts.

(** ** JSON: the text of a value parses back to the value *)

Module JsonFacts.
Import Json StringFacts.

Lemma json_induction (P : json -> Prop)
  (Hnull : P JNull)
  (Hbool : forall b, P (JBool b))
  (Hnum : forall n, P (JNum n))
  (Hstr : forall s, P (JStr s))
  (Harr : forall items, Forall P items -> P (JArr items))
  (Hobj : forall members, Forall (fun kv => P (snd kv)) members -> P (JObj members)) :
  forall v, P v.
Proof.
  fix IH 1. intros [| b | n | s | items | members].
  - exact Hnull.
  - apply Hbool.
  - apply Hnum.
  - apply Hstr.
  - apply Harr. induction items as [|x xs IHxs]; constructor; [apply IH | exact IHxs].
  - apply Hobj. induction members as [|kv ms IHms]; constructor; [apply IH | exact IHms].
Qed.

Lemma well_formed_array (items : list json) :
  well_formed (JArr items) <-> Forall well_formed items.
Proof.
  simpl. induction items as [|x xs IH].
  - split; [constructor | trivial].
  - split.
    + intros [Hx Hxs]. constructor; [exact Hx | now apply IH].
    + intros H. inversion H; subst. split; [assumption | now apply IH].
Qed.

Lemma well_formed_object (members : list (string * json)) :
  well_formed (JObj members) <->
  NoDup (List.map fst members) /\ Forall (fun kv => well_formed (snd kv)) members.
Proof.
  simpl. apply and_iff_compat_l.
  induction members as [|kv ms IH].
  - split; [constructor | trivial].
  - split.
    + intros [Hx Hxs]. constructor; [exact Hx | now apply IH].
    + intros H. inversion H; subst. split; [assumption | now apply IH].
Qed.

(** *** White space *)

Lemma skip_ws_append (ws s : string) :
  all_ws ws = true -> skip_ws (ws +:+ s) = skip_ws s.
Proof.
  induction ws as [|c ws IH]; simpl; intros H; [reflexivity |].
  apply andb_prop in H as [Hc Hws]. rewrite Hc. now apply IH.
Qed.

Lemma all_ws_append (a b : string) :
  all_ws a = true -> all_ws b = true -> all_ws (a +:+ b) = true.
Proof.
  induction a as [|c a IH]; simpl; intros Ha Hb; [exact Hb |].
  apply andb_prop in Ha as [Hc Ha]. rewrite Hc. now apply IH.
Qed.

Lemma skip_ws_head (c : ascii) (s : string) :
  is_ws c = false -> skip_ws (String c s) = String c s.
Proof. intros H. simpl. now rewrite H. Qed.

Lemma parse_value_ws (fuel : nat) (ws s : string) :
  all_ws ws = true -> parse_value fuel (ws +:+ s) = parse_value fuel s.
Proof.
  intros H. destruct fuel as [|fuel]; [reflexivity |].
  simpl. now rewrite skip_ws_append.
Qed.

Lemma parse_elements_ws (fuel : nat) (ws s : string) :
  all_ws ws = true -> parse_elements fuel (ws +:+ s) = parse_elements fuel s.
Proof.
  intros H. destruct fuel as [|fuel]; [reflexivity |].
  simpl. now rewrite parse_value_ws.
Qed.

Lemma parse_members_ws (fuel : nat) (ws s : string) :
  all_ws ws = true -> parse_members fuel (ws +:+ s) = parse_members fuel s.
Proof.
  intros H. destruct fuel as [|fuel]; [reflexivity |].
  simpl. now rewrite skip_ws_append.
Qed.

(** *** Numbers *)

Lemma delimited_no_digit (rest : string) :
  delimited rest = true -> digit_head rest = false.
Proof.
  destruct rest as [|c rest]; simpl; [reflexivity |].
  intros H. apply orb_prop in H as [H | H]; apply Ascii.eqb_eq in H; subst c; reflexivity.
Qed.

Lemma delimited_integer_ends (rest : string) :
  delimited rest = true -> integer_ends rest = true.
Proof.
  destruct rest as [|c rest]; simpl; [reflexivity |].
  intros H. apply orb_prop in H as [H | H]; apply Ascii.eqb_eq in H; subst c; reflexivity.
Qed.

Lemma read_digits_uint (d : Decimal.uint) (rest : string) :
  digit_head rest = false ->
  read_digits (NilEmpty.string_of_uint d +:+ rest) = (d, rest).
Proof.
  intros H. induction d; simpl; try (rewrite IHd; reflexivity).
  destruct rest as [|c rest]; simpl in *; [reflexivity |].
  destruct (digit_of_char c); [discriminate | reflexivity].
Qed.

Lemma after_char_same (c : ascii) (s : string) : after_char c (String c s) = Some s.
Proof. simpl. now rewrite Ascii.eqb_refl. Qed.

Lemma uint_no_minus (d : Decimal.uint) (rest : string) :
  d <> Decimal.Nil ->
  after_char "-" (NilEmpty.string_of_uint d +:+ rest) = None.
Proof. destruct d; simpl; intros H; [congruence | reflexivity ..]. Qed.

Lemma to_int_nonnil (z : Z) :
  match Z.to_int z with
  | Decimal.Pos d | Decimal.Neg d => d <> Decimal.Nil
  end.
Proof.
  destruct z; simpl; [discriminate | apply DecimalPos.Unsigned.to_uint_nonnil ..].
Qed.

Lemma parse_number_toString (z : Z) (rest : string) :
  delimited rest = true ->
  parse_number (JS.Number_toString z +:+ rest) = Some (z, rest).
Proof.
  intros Hd. unfold JS.Number_toString, parse_number.
  pose proof (to_int_nonnil z) as Hnil.
  pose proof (DecimalZ.of_to z) as Hz.
  destruct (Z.to_int z) as [d | d]; simpl NilEmpty.string_of_int.
  - rewrite uint_no_minus by assumption.
    rewrite read_digits_uint by now apply delimited_no_digit.
    rewrite delimited_integer_ends by assumption.
    destruct d; [congruence | now rewrite Hz ..].
  - change (String "-" (NilEmpty.string_of_uint d) +:+ rest)
      with (String "-" (NilEmpty.string_of_uint d +:+ rest)).
    rewrite after_char_same.
    rewrite read_digits_uint by now apply delimited_no_digit.
    rewrite delimited_integer_ends by assumption.
    destruct d; [congruence | now rewrite Hz ..].
Qed.

(** *** String literals *)

Lemma parse_string_body_escape (s rest : string) :
  parse_string_body (escape s +:+ String quote rest) = Some (s, rest).
Proof.
  induction s as [|c s IH]; [reflexivity |].
  destruct c as [[] [] [] [] [] [] [] []];
    simpl; rewrite IH; reflexivity.
Qed.


(** *** Values *)

Lemma uint_head (d : Decimal.uint) (rest : string) :
  d <> Decimal.Nil -> value_head (NilEmpty.string_of_uint d +:+ rest) = true.
Proof. destruct d; simpl; intros H; [congruence | reflexivity ..]. Qed.

Lemma stringify_head (indent : string) (v : json) (rest : string) :
  value_head (stringify_at indent v +:+ rest) = true.
Proof.
  destruct v as [| [] | n | s | items | members]; simpl; try reflexivity.
  - unfold JS.Number_toString. pose proof (to_int_nonnil n) as Hn.
    destruct (Z.to_int n); simpl; [now apply uint_head | reflexivity].
  - destruct (List.map _ items); reflexivity.
  - destruct (List.map _ members); reflexivity.
Qed.

Lemma value_head_skip (s : string) : value_head s = true -> skip_ws s = s.
Proof.
  destruct s as [|c s]; simpl; [discriminate |].
  destruct (is_ws c); [discriminate | reflexivity].
Qed.

Lemma value_head_after (c : ascii) (s : string) :
  value_head s = true ->
  c = "]"%char \/ c = "}"%char \/ c = ","%char ->
  after_char c s = None.
Proof.
  destruct s as [|a s]; simpl; [reflexivity |].
  intros H Hc.
  destruct (is_ws a); [discriminate |].
  destruct (Ascii.eqb_spec a "]"); [discriminate |].
  destruct (Ascii.eqb_spec a "}"); [discriminate |].
  destruct (Ascii.eqb_spec a ","); [discriminate |].
  destruct (Ascii.eqb_spec a c); [| reflexivity].
  destruct Hc as [-> | [-> | ->]]; congruence.
Qed.

Lemma append_char (c : ascii) (s : string) : String c "" +:+ s = String c s.
Proof. reflexivity. Qed.

Lemma concat_single (sep x : string) : String.concat sep [x] = x.
Proof. reflexivity. Qed.

Lemma concat_cons (sep x y : string) (l : list string) :
  String.concat sep (x :: y :: l) = x +:+ sep +:+ String.concat sep (y :: l).
Proof. reflexivity. Qed.

Lemma parse_value_S (fuel : nat) (s : string) :
  parse_value (S fuel) s =
  match skip_ws s with
  | EmptyString => None
  | String c s' =>
      if Ascii.eqb c "n" then option_map (pair JNull) (expect "ull" s')
      else if Ascii.eqb c "t" then option_map (pair (JBool true)) (expect "rue" s')
      else if Ascii.eqb c "f" then option_map (pair (JBool false)) (expect "alse" s')
      else if Ascii.eqb c quote then
        match parse_string_body s' with
        | Some (str, rest) => Some (JStr str, rest)
        | None => None
        end
      else if Ascii.eqb c "[" then
        match after_char "]" (skip_ws s') with
        | Some rest => Some (JArr [], rest)
        | None =>
            match parse_elements fuel s' with
            | Some (items, rest) => Some (JArr items, rest)
            | None => None
            end
        end
      else if Ascii.eqb c "{" then
        match after_char "}" (skip_ws s') with
        | Some rest => Some (JObj [], rest)
        | None =>
            match parse_members fuel s' with
            | Some (ms, rest) => Some (object_of_members ms, rest)
            | None => None
            end
        end
      else
        match parse_number (String c s') with
        | Some (n, rest) => Some (JNum n, rest)
        | None => None
        end
  end.
Proof. reflexivity. Qed.

Lemma parse_elements_S (fuel : nat) (s : string) :
  parse_elements (S fuel) s =
  match parse_value fuel s with
  | Some (v, rest) =>
      match after_char "," (skip_ws rest) with
      | Some rest' =>
          match parse_elements fuel rest' with
          | Some (vs, rest'') => Some (v :: vs, rest'')
          | None => None
          end
      | None =>
          match after_char "]" (skip_ws rest) with
          | Some rest' => Some ([v], rest')
          | None => None
          end
      end
  | None => None
  end.
Proof. reflexivity. Qed.

Lemma parse_members_S (fuel : nat) (s : string) :
  parse_members (S fuel) s =
  match after_char quote (skip_ws s) with
  | Some s' =>
      match parse_string_body s' with
      | Some (k, rest) =>
          match after_char ":" (skip_ws rest) with
          | Some rest' =>
              match parse_value fuel rest' with
              | Some (v, rest'') =>
                  match after_char "," (skip_ws rest'') with
                  | Some r =>
                      match parse_members fuel r with
                      | Some (ms, r') => Some ((k, v) :: ms, r')
                      | None => None
                      end
                  | None =>
                      match after_char "}" (skip_ws rest'') with
                      | Some r => Some ([(k, v)], r)
                      | None => None
                      end
                  end
              | None => None
              end
          | None => None
          end
      | None => None
      end
  | None => None
  end.
Proof. reflexivity. Qed.

Lemma skip_ws_close (stepback : string) (c : ascii) (rest : string) :
  all_ws stepback = true -> is_ws c = false ->
  skip_ws (nl +:+ stepback +:+ String c rest) = String c rest.
Proof.
  intros Hs Hc.
  rewrite (skip_ws_append nl) by reflexivity.
  rewrite skip_ws_append by assumption.
  now apply skip_ws_head.
Qed.

Lemma parse_elements_items (items : list json) :
  Forall parses_back items -> Forall well_formed items -> items <> [] ->
  forall (fuel : nat) (indent stepback rest : string),
    all_ws indent = true -> all_ws stepback = true ->
    (list_sum (List.map (fun x => S (size x)) items) <= fuel)%nat ->
    parse_elements fuel
      (String.concat ("," +:+ nl +:+ indent) (List.map (stringify_at indent) items)
       +:+ nl +:+ stepback +:+ "]" +:+ rest)
    = Some (items, rest).
Proof.
  induction items as [|x xs IH]; intros HP Hwf Hne fuel indent stepback rest Hi Hs Hfuel;
    [congruence |].
  inversion HP as [|? ? Hx HPxs]; inversion Hwf as [|? ? Hwx Hwxs]; subst.
  destruct fuel as [|fuel]; [simpl in Hfuel; lia |].
  rewrite parse_elements_S.
  destruct xs as [|y ys].
  - simpl List.map. rewrite concat_single.
    simpl in Hfuel.
    rewrite (Hx Hwx) by (try assumption; try reflexivity; lia).
    change ("]" +:+ rest) with (String "]" rest).
    rewrite skip_ws_close by (assumption || reflexivity).
    reflexivity.
  - change (List.map (stringify_at indent) (x :: y :: ys))
      with (stringify_at indent x :: stringify_at indent y
            :: List.map (stringify_at indent) ys).
    rewrite concat_cons, !append_assoc.
    change (list_sum (List.map (fun x => S (size x)) (x :: y :: ys)))
      with (S (size x) + list_sum (List.map (fun x => S (size x)) (y :: ys)))%nat in Hfuel.
    rewrite (Hx Hwx) by (try assumption; try reflexivity; lia).
    change ("," +:+ nl +:+ indent +:+
            String.concat ("," +:+ nl +:+ indent)
              (stringify_at indent y :: List.map (stringify_at indent) ys)
            +:+ nl +:+ stepback +:+ "]" +:+ rest)
      with (String "," (nl +:+ indent +:+
            String.concat ("," +:+ nl +:+ indent)
              (List.map (stringify_at indent) (y :: ys))
            +:+ nl +:+ stepback +:+ "]" +:+ rest)).
    rewrite skip_ws_head by reflexivity.
    rewrite after_char_same.
    rewrite (parse_elements_ws fuel nl) by reflexivity.
    rewrite parse_elements_ws by assumption.
    rewrite IH by (try assumption; try discriminate; lia).
    reflexivity.
Qed.


Lemma quote_string_append (k rest : string) :
  quote_string k +:+ rest = String quote (escape k +:+ String quote rest).
Proof. unfold quote_string. simpl. now rewrite append_assoc. Qed.

Lemma parse_members_member (fuel : nat) (k text : string) :
  parse_members (S fuel) (quote_string k +:+ ": " +:+ text) =
  match parse_value fuel text with
  | Some (v, rest'') =>
      match after_char "," (skip_ws rest'') with
      | Some r =>
          match parse_members fuel r with
          | Some (ms, r') => Some ((k, v) :: ms, r')
          | None => None
          end
      | None =>
          match after_char "}" (skip_ws rest'') with
          | Some r => Some ([(k, v)], r)
          | None => None
          end
      end
  | None => None
  end.
Proof.
  rewrite parse_members_S, quote_string_append.
  rewrite skip_ws_head by reflexivity.
  rewrite after_char_same, parse_string_body_escape.
  change (": " +:+ text) with (String ":" (" " +:+ text)).
  rewrite skip_ws_head by reflexivity.
  rewrite after_char_same.
  rewrite parse_value_ws by reflexivity.
  reflexivity.
Qed.

Lemma parse_members_items (members : list (string * json)) :
  Forall (fun kv => parses_back (snd kv)) members ->
  Forall (fun kv => well_formed (snd kv)) members -> members <> [] ->
  forall (fuel : nat) (indent stepback rest : string),
    all_ws indent = true -> all_ws stepback = true ->
    (list_sum (List.map (fun kv => S (size (snd kv))) members) <= fuel)%nat ->
    parse_members fuel
      (String.concat ("," +:+ nl +:+ indent)
         (List.map (fun kv : string * json =>
                      let (k, x) := kv in
                      quote_string k +:+ ": " +:+ stringify_at indent x) members)
       +:+ nl +:+ stepback +:+ "}" +:+ rest)
    = Some (members, rest).
Proof.
  induction members as [|[k x] ms IH];
    intros HP Hwf Hne fuel indent stepback rest Hi Hs Hfuel; [congruence |].
  inversion HP as [|? ? Hx HPxs]; inversion Hwf as [|? ? Hwx Hwxs]; subst.
  simpl in Hx, Hwx.
  destruct fuel as [|fuel]; [simpl in Hfuel; lia |].
  destruct ms as [|[k' y] ys].
  - change (List.map _ [(k, x)])
      with [quote_string k +:+ ": " +:+ stringify_at indent x].
    rewrite concat_single, !append_assoc.
    simpl in Hfuel.
    rewrite parse_members_member.
    rewrite (Hx Hwx) by (try assumption; try reflexivity; lia).
    change ("}" +:+ rest) with (String "}" rest).
    rewrite skip_ws_close by (assumption || reflexivity).
    reflexivity.
  - set (pr := fun kv : string * json =>
                 let (k, x) := kv in
                 quote_string k +:+ ": " +:+ stringify_at indent x) in *.
    change (List.map pr ((k, x) :: (k', y) :: ys))
      with ((quote_string k +:+ ": " +:+ stringify_at indent x)
            :: List.map pr ((k', y) :: ys)).
    change (List.map pr ((k', y) :: ys)) with (pr (k', y) :: List.map pr ys) at 1.
    rewrite concat_cons, !append_assoc.
    change (pr (k', y) :: List.map pr ys) with (List.map pr ((k', y) :: ys)).
    change (list_sum (List.map (fun kv => S (size (snd kv))) ((k, x) :: (k', y) :: ys)))
      with (S (size x) +
            list_sum (List.map (fun kv => S (size (snd kv))) ((k', y) :: ys)))%nat in Hfuel.
    rewrite parse_members_member.
    rewrite (Hx Hwx) by (try assumption; try reflexivity; lia).
    change ("," +:+ nl +:+ indent +:+
            String.concat ("," +:+ nl +:+ indent) (List.map pr ((k', y) :: ys))
            +:+ nl +:+ stepback +:+ "}" +:+ rest)
      with (String "," (nl +:+ indent +:+
            String.concat ("," +:+ nl +:+ indent) (List.map pr ((k', y) :: ys))
            +:+ nl +:+ stepback +:+ "}" +:+ rest)).
    rewrite skip_ws_head by reflexivity.
    rewrite after_char_same.
    rewrite (parse_members_ws fuel nl) by reflexivity.
    rewrite parse_members_ws by assumption.
    subst pr.
    rewrite IH by (try assumption; try discriminate; lia).
    reflexivity.
Qed.

Lemma define_property_fresh (k : string) (v : json) (o : list (string * json)) :
  ~ In k (List.map fst o) -> define_property k v o = o ++ [(k, v)].
Proof.
  induction o as [|[k' v'] o IH]; simpl; intros H; [reflexivity |].
  destruct (String.eqb_spec k k') as [-> | Hne]; [tauto |].
  rewrite IH by tauto. reflexivity.
Qed.

Lemma fold_define_property (ms acc : list (string * json)) :
  NoDup (List.map fst (acc ++ ms)) ->
  fold_left (fun o kv => define_property (fst kv) (snd kv) o) ms acc = acc ++ ms.
Proof.
  revert acc. induction ms as [|[k v] ms IH]; intros acc H; simpl.
  - now rewrite app_nil_r.
  - rewrite define_property_fresh.
    + rewrite IH; rewrite <- app_assoc; [reflexivity | exact H].
    + rewrite List.map_app in H. simpl in H.
      intros Hin. apply list_elem_of_In in Hin.
      apply NoDup_app in H as (_ & Hdisj & _).
      apply (Hdisj k Hin). apply list_elem_of_here.
Qed.

Lemma object_of_members_distinct (ms : list (string * json)) :
  NoDup (List.map fst ms) -> object_of_members ms = JObj ms.
Proof.
  intros H. unfold object_of_members.
  now rewrite (fold_define_property ms []).
Qed.

Lemma parse_value_number (fuel : nat) (n : Z) (rest : string) :
  delimited rest = true ->
  parse_value (S fuel) (JS.Number_toString n +:+ rest) = Some (JNum n, rest).
Proof.
  intros Hd. pose proof (parse_number_toString n rest Hd) as Hp.
  rewrite parse_value_S.
  rewrite value_head_skip by apply (stringify_head "" (JNum n)).
  unfold JS.Number_toString in *.
  pose proof (to_int_nonnil n) as Hn.
  destruct (Z.to_int n) as [d | d].
  - destruct d; [congruence | ..];
      cbn [NilEmpty.string_of_int NilEmpty.string_of_uint String.append] in *;
      rewrite Hp; reflexivity.
  - cbn [NilEmpty.string_of_int String.append] in *.
    rewrite Hp. reflexivity.
Qed.

(** Every value parses back from its text, whatever the indentation. *)
Lemma parse_value_stringify_at (v : json) : parses_back v.
Proof.
  induction v as [| b | n | s | items IH | members IH] using json_induction;
    intros Hwf fuel indent rest Hi Hd Hsz;
    (destruct fuel as [|fuel]; [simpl in Hsz; lia |]).
  - reflexivity.
  - destruct b; reflexivity.
  - now apply parse_value_number.
  - simpl stringify_at. rewrite quote_string_append, parse_value_S.
    rewrite skip_ws_head by reflexivity.
    simpl. now rewrite parse_string_body_escape.
  - apply well_formed_array in Hwf.
    destruct items as [|x xs]; [reflexivity |].
    simpl in Hsz.
    cbn [stringify_at].
    change (List.map (stringify_at (indent +:+ gap)) (x :: xs))
      with (stringify_at (indent +:+ gap) x
            :: List.map (stringify_at (indent +:+ gap)) xs).
    cbv iota beta.
    change (stringify_at (indent +:+ gap) x
            :: List.map (stringify_at (indent +:+ gap)) xs)
      with (List.map (stringify_at (indent +:+ gap)) (x :: xs)).
    rewrite !append_assoc.
    rewrite parse_value_S, (append_char "[").
    rewrite skip_ws_head by reflexivity.
    cbv iota beta. simpl Ascii.eqb. cbv iota.
    assert (Hind : all_ws (indent +:+ gap) = true) by now apply all_ws_append.
    rewrite (skip_ws_append nl), (skip_ws_append indent), (skip_ws_append gap)
      by (assumption || reflexivity).
    assert (Hhead : value_head
              (String.concat ("," +:+ nl +:+ indent +:+ gap)
                 (List.map (stringify_at (indent +:+ gap)) (x :: xs))
               +:+ nl +:+ indent +:+ "]" +:+ rest) = true).
    { destruct xs as [|y ys].
      - simpl List.map. rewrite concat_single. apply stringify_head.
      - change (List.map (stringify_at (indent +:+ gap)) (x :: y :: ys))
          with (stringify_at (indent +:+ gap) x
                :: stringify_at (indent +:+ gap) y
                :: List.map (stringify_at (indent +:+ gap)) ys).
        rewrite concat_cons, append_assoc. apply stringify_head. }
    rewrite value_head_skip by assumption.
    rewrite value_head_after by (auto).
    rewrite (parse_elements_ws fuel nl), (parse_elements_ws fuel indent),
      (parse_elements_ws fuel gap) by (assumption || reflexivity).
    rewrite parse_elements_items by (try assumption; try discriminate; simpl; lia).
    reflexivity.
  - apply well_formed_object in Hwf as [Hnd Hwf].
    destruct members as [|[k x] ms]; [reflexivity |].
    simpl in Hsz.
    cbn [stringify_at].
    set (pr := fun kv : string * json =>
                 let (k, x) := kv in
                 quote_string k +:+ ": " +:+ stringify_at (indent +:+ gap) x) in *.
    change (List.map pr ((k, x) :: ms)) with (pr (k, x) :: List.map pr ms).
    cbv iota beta.
    change (pr (k, x) :: List.map pr ms) with (List.map pr ((k, x) :: ms)).
    rewrite !append_assoc.
    rewrite parse_value_S, (append_char "{").
    rewrite skip_ws_head by reflexivity.
    cbv iota beta. simpl Ascii.eqb. cbv iota.
    rewrite (skip_ws_append nl), (skip_ws_append indent), (skip_ws_append gap)
      by (assumption || reflexivity).
    assert (Hhead : value_head
              (String.concat ("," +:+ nl +:+ indent +:+ gap)
                 (List.map pr ((k, x) :: ms))
               +:+ nl +:+ indent +:+ "}" +:+ rest) = true).
    { destruct ms as [|kv ys].
      - change (List.map pr [(k, x)]) with [pr (k, x)].
        rewrite concat_single. subst pr. cbv beta iota.
        rewrite quote_string_append. reflexivity.
      - change (List.map pr ((k, x) :: kv :: ys))
          with (pr (k, x) :: pr kv :: List.map pr ys).
        rewrite concat_cons. subst pr. cbv beta iota.
        rewrite !append_assoc, quote_string_append. reflexivity. }
    rewrite value_head_skip by assumption.
    rewrite value_head_after by (auto).
    rewrite (parse_members_ws fuel nl), (parse_members_ws fuel indent),
      (parse_members_ws fuel gap) by (assumption || reflexivity).
    subst pr.
    rewrite parse_members_items
      by (try assumption; try discriminate; try (now apply all_ws_append); simpl; lia).
    now rewrite object_of_members_distinct.
Qed.

(** *** The text of a value is fuel enough to parse it *)

Lemma sizes_le_concat {A} (f : A -> string) (sz : A -> nat) (sep : string)
    (items : list A) :
  (1 <= String.length sep)%nat ->
  Forall (fun x => (sz x <= String.length (f x))%nat) items ->
  (list_sum (List.map (fun x => S (sz x)) items)
   <= S (String.length (String.concat sep (List.map f items))))%nat.
Proof.
  intros Hsep H. induction H as [|x xs Hx Hxs IH]; [simpl; lia |].
  destruct xs as [|y ys].
  - simpl. lia.
  - change (List.map f (x :: y :: ys)) with (f x :: f y :: List.map f ys).
    rewrite concat_cons, !length_append.
    change (f y :: List.map f ys) with (List.map f (y :: ys)).
    change (list_sum (List.map (fun x => S (sz x)) (x :: y :: ys)))
      with (S (sz x) + list_sum (List.map (fun x => S (sz x)) (y :: ys)))%nat.
    lia.
Qed.

Lemma number_length (n : Z) : (1 <= String.length (JS.Number_toString n))%nat.
Proof.
  unfold JS.Number_toString. pose proof (to_int_nonnil n) as Hn.
  destruct (Z.to_int n) as [d | d]; simpl; [| lia].
  destruct d; simpl; [congruence | lia ..].
Qed.

Lemma size_le_length (v : json) :
  forall indent : string, (size v <= String.length (stringify_at indent v))%nat.
Proof.
  induction v as [| b | n | s | items IH | members IH] using json_induction;
    intros indent.
  - simpl. lia.
  - destruct b; simpl; lia.
  - apply number_length.
  - simpl. lia.
  - destruct items as [|x xs]; [simpl; lia |].
    cbn [stringify_at size].
    change (List.map (stringify_at (indent +:+ gap)) (x :: xs))
      with (stringify_at (indent +:+ gap) x
            :: List.map (stringify_at (indent +:+ gap)) xs).
    cbv iota beta.
    change (stringify_at (indent +:+ gap) x
            :: List.map (stringify_at (indent +:+ gap)) xs)
      with (List.map (stringify_at (indent +:+ gap)) (x :: xs)).
    rewrite !length_append.
    pose proof (sizes_le_concat (stringify_at (indent +:+ gap)) size
                  ("," +:+ nl +:+ indent +:+ gap) (x :: xs)) as Hc.
    rewrite !length_append in Hc.
    assert (Hall : Forall (fun x => (size x <= String.length
                     (stringify_at (indent +:+ gap) x))%nat) (x :: xs)).
    { eapply Forall_impl; [exact IH |]. intros a Ha. apply Ha. }
    specialize (Hc ltac:(simpl; lia) Hall).
    simpl String.length in *. lia.
  - destruct members as [|[k x] ms]; [simpl; lia |].
    cbn [stringify_at size].
    set (pr := fun kv : string * json =>
                 let (k, x) := kv in
                 quote_string k +:+ ": " +:+ stringify_at (indent +:+ gap) x) in *.
    change (List.map pr ((k, x) :: ms)) with (pr (k, x) :: List.map pr ms).
    cbv iota beta.
    change (pr (k, x) :: List.map pr ms) with (List.map pr ((k, x) :: ms)).
    rewrite !length_append.
    pose proof (sizes_le_concat pr (fun kv => size (snd kv))
                  ("," +:+ nl +:+ indent +:+ gap) ((k, x) :: ms)) as Hc.
    rewrite !length_append in Hc.
    assert (Hall : Forall (fun kv => (size (snd kv) <= String.length (pr kv))%nat)
                     ((k, x) :: ms)).
    { eapply Forall_impl; [exact IH |]. intros [k' a] Ha. subst pr. simpl.
      rewrite !length_append. specialize (Ha (indent +:+ gap)). simpl in Ha.
      cbn [String.length]. lia. }
    specialize (Hc ltac:(simpl; lia) Hall).
    simpl String.length in *. lia.
Qed.

(** [JSON.parse(JSON.stringify(v, null, 2))] is [v]. *)
Lemma parse_stringify (v : json) : well_formed v -> parse (stringify v) = Ok v.
Proof.
  intros Hwf. unfold parse, stringify.
  pose proof (parse_value_stringify_at v Hwf
                (S (String.length (stringify_at "" v))) "" "") as H.
  rewrite append_nil_r in H.
  rewrite H; [reflexivity | reflexivity | reflexivity |].
  pose proof (size_le_length v ""). lia.
Qed.

End JsonFacts.

(** ** The stored form of a query result *)

Module CodecFacts.
Import Json.

Lemma decode_all {A} (enc : A -> json) (dec : json -> option A) (l : list A) :
  (forall x, dec (enc x) = Some x) ->
  Decode.all dec (List.map enc l) = Some l.
Proof.
  intros H. induction l as [|x l IH]; simpl; [reflexivity |].
  now rewrite H, IH.
Qed.

Lemma decode_downloadLink (l : DownloadLink.t) :
  Decode.downloadLink (Encode.downloadLink l) = Some l.
Proof. now destruct l. Qed.

Lemma decode_analysisSummary (a : AnalysisSummary.t) :
  Decode.analysisSummary (Encode.analysisSummary a) = Some a.
Proof.
  destruct a as [nwo sha count prefix size [stars|] [updated|] [i u p q]];
    reflexivity.
Qed.

Lemma decode_analysisFailure (f : AnalysisFailure.t) :
  Decode.analysisFailure (Encode.analysisFailure f) = Some f.
Proof. now destruct f. Qed.

(** The cast of a stored query result gives the query result back. *)
Lemma decode_remoteQueryResult (r : RemoteQueryResult.t) :
  Decode.remoteQueryResult (Encode.remoteQueryResult r) = Some r.
Proof.
  destruct r as [t ss fs q].
  unfold Decode.remoteQueryResult, Encode.remoteQueryResult, Decode.array.
  simpl.
  rewrite (decode_all Encode.analysisSummary Decode.analysisSummary ss
             decode_analysisSummary).
  rewrite (decode_all Encode.analysisFailure Decode.analysisFailure fs
             decode_analysisFailure).
  reflexivity.
Qed.

Lemma well_formed_analysisSummary (a : AnalysisSummary.t) :
  well_formed (Encode.analysisSummary a).
Proof.
  destruct a as [nwo sha count prefix size [stars|] [updated|] [i u p q]];
    simpl; repeat split; compute_done.
Qed.

Lemma well_formed_analysisFailure (f : AnalysisFailure.t) :
  well_formed (Encode.analysisFailure f).
Proof.
  destruct f; simpl.
  repeat split; compute_done.
Qed.

(** An encoded query result is a JavaScript value. *)
Lemma well_formed_remoteQueryResult (r : RemoteQueryResult.t) :
  well_formed (Encode.remoteQueryResult r).
Proof.
  destruct r as [t ss fs q].
  apply JsonFacts.well_formed_object. split.
  - compute_done.
  - repeat constructor; simpl.
    + apply JsonFacts.well_formed_array, Forall_forall.
      intros x Hx. apply list_elem_of_In, in_map_iff in Hx as (a & <- & _).
      apply well_formed_analysisSummary.
    + apply JsonFacts.well_formed_array, Forall_forall.
      intros x Hx. apply list_elem_of_In, in_map_iff in Hx as (a & <- & _).
      apply well_formed_analysisFailure.
Qed.

End CodecFacts.

(** ** The remote queries manager *)

Module ManagerFacts.
Import RemoteQueriesManager.

(** The callback-style [filter] of the code is the filter of the
    eligible summaries. *)
Lemma filter_smallEnough (l : list AnalysisSummary.t) :
  List.filter smallEnough l
  = filter (fun a => AnalysisSummary.fileSizeInBytes a < 300 * 1024) l.
Proof.
  induction l as [|a l IH]; [reflexivity |].
  simpl. unfold smallEnough at 1, autoDownloadMaxSize.
  destruct (Z.ltb_spec (AnalysisSummary.fileSizeInBytes a) (300 * 1024)) as [Hlt | Hge].
  - rewrite filter_cons_True by exact Hlt. now rewrite IH.
  - rewrite filter_cons_False by lia. exact IH.
Qed.

Lemma Forall2_map_r {A B} (R : A -> B -> Prop) (f : A -> B) (l : list A) :
  (forall a, R a (f a)) -> Forall2 R l (List.map f l).
Proof. intros H. induction l; simpl; constructor; auto. Qed.

(** C1. [autoDownloadRemoteQueryResults] hands to the analyses results
    manager the download descriptors of exactly the first 100 (at most)
    of the summaries whose [fileSizeInBytes] is below [300 * 1024], in
    their original order; each descriptor keeps the [nwo],
    [databaseSha], [resultCount], [sourceLocationPrefix] and
    [downloadLink] of its summary, and its [fileSize] is the decimal
    numeral of [fileSizeInBytes]. *)
Theorem C1_autoDownload_selects_small_results
    (queryResult : RemoteQueryResult.t) (token : CancellationToken) (w : World) :
  let selected :=
    take 100
      (filter (fun a => AnalysisSummary.fileSizeInBytes a < 300 * 1024)
         (RemoteQueryResult.analysisSummaries queryResult)) in
  exists analyses,
    autoDownloadRemoteQueryResults queryResult token w
    = (Ok tt,
       mkWorld (files w) (clipboard w)
         (log w ++ [LoadAnalysesResults analyses token
                      (RemoteQueryResult.queryId queryResult)]))
    /\ (length analyses <= 100)%nat
    /\ Forall2
         (fun a d =>
            AnalysisToDownload.nwo d = AnalysisSummary.nwo a
            /\ AnalysisToDownload.databaseSha d = AnalysisSummary.databaseSha a
            /\ AnalysisToDownload.resultCount d = AnalysisSummary.resultCount a
            /\ AnalysisToDownload.sourceLocationPrefix d
               = AnalysisSummary.sourceLocationPrefix a
            /\ AnalysisToDownload.downloadLink d = AnalysisSummary.downloadLink a
            /\ AnalysisToDownload.fileSize d
               = NilEmpty.string_of_int (Z.to_int (AnalysisSummary.fileSizeInBytes a))
            /\ NilEmpty.int_of_string (AnalysisToDownload.fileSize d)
               = Some (Z.to_int (AnalysisSummary.fileSizeInBytes a)))
         selected analyses.
Proof.
  intros selected. exists (analysesToDownload queryResult).
  split; [reflexivity |]. split.
  - unfold analysesToDownload, JS.slice_0, autoDownloadMaxCount.
    rewrite length_map, length_firstn. lia.
  - unfold analysesToDownload, JS.slice_0, autoDownloadMaxCount.
    rewrite filter_smallEnough. fold selected.
    apply Forall2_map_r. intros a. repeat split.
    simpl. apply NilEmpty.isi.
Qed.

(** C8. The summary that [mapQueryResult] makes of a success item of
    the index: [databaseSha] is the item's [sha] when that is present
    and not empty, and [HEAD] otherwise; [fileSizeInBytes] is the
    item's [sarifFileSize] when that is present and not zero, and its
    [bqrsFileSize] otherwise; [innerFilePath] is [results.sarif] in the
    first of these two cases and [results.bqrs] in the second; [urlPath]
    is the [artifactsUrlPath] of the index, a slash and the item's
    [artifactId]. *)
Theorem C8_mapQueryResult_summary_fields
    (executionEndTime : Z) (resultIndex : RemoteQueryResultIndex.t)
    (queryId : string) (metadata : RepositoriesMetadata) :
  Forall2
    (fun item summary =>
       AnalysisSummary.databaseSha summary
       = match SuccessIndexItem.sha item with
         | Some sha => if decide (sha = "") then "HEAD" else sha
         | None => "HEAD"
         end
       /\ AnalysisSummary.fileSizeInBytes summary
          = match SuccessIndexItem.sarifFileSize item with
            | Some size =>
                if decide (size = 0) then SuccessIndexItem.bqrsFileSize item else size
            | None => SuccessIndexItem.bqrsFileSize item
            end
       /\ DownloadLink.innerFilePath (AnalysisSummary.downloadLink summary)
          = match SuccessIndexItem.sarifFileSize item with
            | Some size => if decide (size = 0) then "results.bqrs" else "results.sarif"
            | None => "results.bqrs"
            end
       /\ DownloadLink.urlPath (AnalysisSummary.downloadLink summary)
          = RemoteQueryResultIndex.artifactsUrlPath resultIndex +:+ "/"
            +:+ NilEmpty.string_of_int (Z.to_int (SuccessIndexItem.artifactId item)))
    (RemoteQueryResultIndex.successes resultIndex)
    (RemoteQueryResult.analysisSummaries
       (mapQueryResult executionEndTime resultIndex queryId metadata)).
Proof.
  unfold mapQueryResult. simpl.
  apply Forall2_map_r. intros item. simpl. repeat split.
  - destruct (SuccessIndexItem.sha item) as [[|c sha]|]; reflexivity.
  - destruct (SuccessIndexItem.sarifFileSize item) as [size|]; [| reflexivity].
    unfold JS.truthy_number. destruct (Z.eqb_spec size 0) as [-> | Hne]; simpl.
    + reflexivity.
    + destruct (decide (size = 0)); [contradiction | reflexivity].
  - destruct (SuccessIndexItem.sarifFileSize item) as [size|]; [| reflexivity].
    simpl. unfold JS.truthy_number.
    destruct (Z.eqb_spec size 0) as [-> | Hne]; simpl.
    + reflexivity.
    + destruct (decide (size = 0)); [contradiction | reflexivity].
Qed.


(** *** Files *)

Lemma emitted_app (w : World) (fs : gmap string string) (c : string)
    (new : list Effect) :
  emitted w (mkWorld fs c (log w ++ new)) = new.
Proof. unfold emitted. simpl. apply drop_app_length. Qed.

(** Reading a file that holds the text of a value gives the value. *)
Lemma retrieveJsonFile_holds (this : Env) (queryId fileName : string)
    (obj : Json.json) (w : World) :
  Json.well_formed obj ->
  files w !! join this [storagePath this; queryId; fileName]
  = Some (Json.stringify obj) ->
  retrieveJsonFile this queryId fileName w = (Ok obj, w).
Proof.
  intros Hwf Hfile.
  unfold retrieveJsonFile, bind, readFile, lift.
  rewrite Hfile. now rewrite JsonFacts.parse_stringify.
Qed.

Lemma storeJsonFile_run (this : Env) (queryId fileName : string)
    (obj : Json.json) (w : World) :
  let path := join this [storagePath this; queryId; fileName] in
  storeJsonFile this queryId fileName obj w
  = match writeFile_result this path (Json.stringify obj) with
    | Ok _ =>
        (Ok tt,
         mkWorld (<[path := Json.stringify obj]> (files w)) (clipboard w) (log w))
    | Throw e => (Throw e, w)
    end.
Proof. reflexivity. Qed.

(** C2. When [storeJsonFile] has stored a JavaScript value, that is,
    when it returned, reading the same file back with [retrieveJsonFile]
    returns that value; so does any later read, as long as the path
    still holds what was stored.  A store that throws, because the file
    system rejects the write, has written nothing. *)
Theorem C2_store_then_retrieve (this : Env) (queryId fileName : string)
    (obj : Json.json) (w : World) :
  Json.well_formed obj ->
  let run := storeJsonFile this queryId fileName obj w in
  let path := join this [storagePath this; queryId; fileName] in
  (fst run = Ok tt ->
   retrieveJsonFile this queryId fileName (snd run) = (Ok obj, snd run)
   /\ forall w'',
        files w'' !! path = files (snd run) !! path ->
        retrieveJsonFile this queryId fileName w'' = (Ok obj, w''))
  /\ (forall e, fst run = Throw e -> snd run = w).
Proof.
  intros Hwf run path. subst run. rewrite storeJsonFile_run. cbv zeta. fold path.
  destruct (writeFile_result this path (Json.stringify obj)) as [[] | e'].
  - split; [| discriminate]. intros _.
    assert (Hfile :
      files (mkWorld (<[path := Json.stringify obj]> (files w)) (clipboard w) (log w))
      !! path = Some (Json.stringify obj)).
    { simpl. apply lookup_insert_eq. }
    cbn [snd]. split.
    + now apply retrieveJsonFile_holds.
    + intros w'' Hsame. apply retrieveJsonFile_holds; [assumption |].
      fold path. now rewrite Hsame.
  - split; [discriminate | reflexivity].
Qed.

(** *** Downloading the available results *)

Lemma fold_left_resultCount (l : list AnalysisSummary.t) (acc : Z) :
  fold_left (fun acc cur => acc + AnalysisSummary.resultCount cur) l acc
  = acc + fold_right Z.add 0 (List.map AnalysisSummary.resultCount l).
Proof.
  revert acc. induction l as [|a l IH]; intros acc; simpl; [lia |].
  rewrite IH. lia.
Qed.

Lemma sum_mapQueryResult (t : Z) (resultIndex : RemoteQueryResultIndex.t)
    (queryId : string) (metadata : RepositoriesMetadata) :
  sumAnalysisSummariesResults
    (RemoteQueryResult.analysisSummaries (mapQueryResult t resultIndex queryId metadata))
  = totalResultCount resultIndex.
Proof.
  unfold sumAnalysisSummariesResults, totalResultCount, mapQueryResult. simpl.
  rewrite fold_left_resultCount, List.map_map. simpl. reflexivity.
Qed.

Lemma length_mapQueryResult (t : Z) (resultIndex : RemoteQueryResultIndex.t)
    (queryId : string) (metadata : RepositoriesMetadata) :
  length (RemoteQueryResult.analysisSummaries
            (mapQueryResult t resultIndex queryId metadata))
  = length (RemoteQueryResultIndex.successes resultIndex).
Proof. unfold mapQueryResult. simpl. apply length_map. Qed.

Lemma getRemoteQueryResult_holds (this : Env) (queryId : string)
    (queryResult : RemoteQueryResult.t) (w : World) :
  files w !! join this [storagePath this; queryId; "query-result.json"]
  = Some (Json.stringify (Encode.remoteQueryResult queryResult)) ->
  getRemoteQueryResult this queryId w = (Ok queryResult, w).
Proof.
  intros Hfile. unfold getRemoteQueryResult, bind.
  rewrite (retrieveJsonFile_holds this queryId "query-result.json"
             (Encode.remoteQueryResult queryResult) w
             (CodecFacts.well_formed_remoteQueryResult queryResult) Hfile).
  now rewrite CodecFacts.decode_remoteQueryResult.
Qed.

Lemma downloadAvailableResults_available (this : Env) (queryId : string)
    (remoteQuery : RemoteQuery.t) (executionEndTime : Z) (w : World)
    (resultIndex : RemoteQueryResultIndex.t) :
  getRemoteQueryIndex this remoteQuery = Some resultIndex ->
  let nwos :=
    List.map SuccessIndexItem.nwo (RemoteQueryResultIndex.successes resultIndex) in
  let queryResult :=
    mapQueryResult executionEndTime resultIndex queryId
      (getRepositoriesMetadata_api this nwos) in
  let path := join this [storagePath this; queryId; "query-result.json"] in
  let text := Json.stringify (Encode.remoteQueryResult queryResult) in
  let fired :=
    [ GetRemoteQueryIndex remoteQuery;
      GetRepositoriesMetadata nwos;
      FireRemoteQueryStatusUpdate
        {| UpdatedQueryStatusEvent.queryId := queryId;
           UpdatedQueryStatusEvent.status := Completed;
           UpdatedQueryStatusEvent.failureReason := None;
           UpdatedQueryStatusEvent.repositoryCount :=
             Some (Z.of_nat
                     (length (RemoteQueryResultIndex.successes resultIndex)));
           UpdatedQueryStatusEvent.resultCount :=
             Some (totalResultCount resultIndex) |} ] in
  exists message,
    downloadAvailableResults this queryId remoteQuery executionEndTime w
    = match writeFile_result this path text with
      | Ok _ =>
          (Ok tt,
           mkWorld (<[path := text]> (files w)) (clipboard w)
             (log w ++ fired ++
              [ ExecuteAutoDownloadCommand queryResult;
                ShowInformationMessageWithAction message "View" ]))
      | Throw e => (Throw e, mkWorld (files w) (clipboard w) (log w ++ fired))
      end.
Proof.
  intros Hindex nwos queryResult path text fired.
  unfold downloadAvailableResults. rewrite Hindex.
  cbv [bind emit modify getRepositoriesMetadata ret askToOpenResults
       storeJsonFile writeFile fst snd files clipboard log].
  fold nwos. fold queryResult. fold path. fold text.
  destruct (writeFile_result this path text) as [[] | e].
  - rewrite <- !app_assoc. cbn [app].
    subst fired queryResult. rewrite !sum_mapQueryResult, !length_mapQueryResult.
    eexists. reflexivity.
  - rewrite <- !app_assoc. cbn [app].
    subst fired queryResult. rewrite !sum_mapQueryResult, !length_mapQueryResult.
    exists "". reflexivity.
Qed.

Lemma downloadAvailableResults_unavailable (this : Env) (queryId : string)
    (remoteQuery : RemoteQuery.t) (executionEndTime : Z) (w : World) :
  getRemoteQueryIndex this remoteQuery = None ->
  exists message,
    downloadAvailableResults this queryId remoteQuery executionEndTime w
    = (Ok tt,
       mkWorld (files w) (clipboard w)
         (log w ++
          [ GetRemoteQueryIndex remoteQuery;
            ShowAndLogExceptionWithTelemetry message;
            FireRemoteQueryStatusUpdate
              {| UpdatedQueryStatusEvent.queryId := queryId;
                 UpdatedQueryStatusEvent.status := Failed;
                 UpdatedQueryStatusEvent.failureReason := None;
                 UpdatedQueryStatusEvent.repositoryCount := None;
                 UpdatedQueryStatusEvent.resultCount := None |} ])).
Proof.
  intros Hindex. unfold downloadAvailableResults. rewrite Hindex.
  cbv [bind emit modify fst snd files clipboard log].
  rewrite <- !app_assoc. cbn [app].
  eexists. reflexivity.
Qed.

(** C4. [downloadAvailableResults]: (a) when the result index is
    available, it fires one status update, with status [Completed], the
    number of successful analyses of the index as [repositoryCount] and
    the sum of their result counts as [resultCount]; it then stores the
    mapped query result in [query-result.json] below the storage
    directory of the query: when the file system accepts the write, the
    file holds the result, from where it can be read back, and the
    automatic download is started; when the file system rejects the
    write, the update has been fired all the same, the exception is
    passed on and nothing else happens; (b) when no result index is
    available, it fires one status update, with status [Failed] and no
    failure reason, and leaves the files as they were. *)
Theorem C4_downloadAvailableResults (this : Env) (queryId : string)
    (remoteQuery : RemoteQuery.t) (executionEndTime : Z) (w : World) :
  let run := downloadAvailableResults this queryId remoteQuery executionEndTime w in
  (forall resultIndex,
     getRemoteQueryIndex this remoteQuery = Some resultIndex ->
     let nwos :=
       List.map SuccessIndexItem.nwo (RemoteQueryResultIndex.successes resultIndex) in
     let queryResult :=
       mapQueryResult executionEndTime resultIndex queryId
         (getRepositoriesMetadata_api this nwos) in
     let path := join this [storagePath this; queryId; "query-result.json"] in
     let text := Json.stringify (Encode.remoteQueryResult queryResult) in
     let completed :=
       FireRemoteQueryStatusUpdate
         {| UpdatedQueryStatusEvent.queryId := queryId;
            UpdatedQueryStatusEvent.status := Completed;
            UpdatedQueryStatusEvent.failureReason := None;
            UpdatedQueryStatusEvent.repositoryCount :=
              Some (Z.of_nat
                      (length (RemoteQueryResultIndex.successes resultIndex)));
            UpdatedQueryStatusEvent.resultCount :=
              Some (totalResultCount resultIndex) |} in
     (writeFile_result this path text = Ok tt ->
      exists message,
        fst run = Ok tt
        /\ emitted w (snd run)
           = [ GetRemoteQueryIndex remoteQuery;
               GetRepositoriesMetadata nwos;
               completed;
               ExecuteAutoDownloadCommand queryResult;
               ShowInformationMessageWithAction message "View" ]
        /\ files (snd run) = <[path := text]> (files w)
        /\ getRemoteQueryResult this queryId (snd run) = (Ok queryResult, snd run))
     /\ (forall e,
           writeFile_result this path text = Throw e ->
           fst run = Throw e
           /\ emitted w (snd run)
              = [ GetRemoteQueryIndex remoteQuery;
                  GetRepositoriesMetadata nwos;
                  completed ]
           /\ files (snd run) = files w))
  /\ (getRemoteQueryIndex this remoteQuery = None ->
      exists message,
        fst run = Ok tt
        /\ emitted w (snd run)
           = [ GetRemoteQueryIndex remoteQuery;
               ShowAndLogExceptionWithTelemetry message;
               FireRemoteQueryStatusUpdate
                 {| UpdatedQueryStatusEvent.queryId := queryId;
                    UpdatedQueryStatusEvent.status := Failed;
                    UpdatedQueryStatusEvent.failureReason := None;
                    UpdatedQueryStatusEvent.repositoryCount := None;
                    UpdatedQueryStatusEvent.resultCount := None |} ]
        /\ files (snd run) = files w).
Proof.
  intros run. subst run. split.
  - intros resultIndex Hindex nwos queryResult path text completed.
    destruct (downloadAvailableResults_available this queryId remoteQuery
                executionEndTime w resultIndex Hindex) as [message Hrun].
    cbv zeta in Hrun. fold nwos queryResult path text completed in Hrun.
    rewrite Hrun. split.
    + intros Haccepted. rewrite Haccepted. exists message. cbn [fst snd files].
      split; [reflexivity |]. split; [apply emitted_app |]. split; [reflexivity |].
      apply getRemoteQueryResult_holds. simpl. apply lookup_insert_eq.
    + intros e Hrejected. rewrite Hrejected. cbn [fst snd files].
      split; [reflexivity |]. split; [apply emitted_app | reflexivity].
  - intros Hindex.
    destruct (downloadAvailableResults_unavailable this queryId remoteQuery
                executionEndTime w Hindex) as [message Hrun].
    exists message. rewrite Hrun. cbn [fst snd files].
    split; [reflexivity |]. split; [apply emitted_app | reflexivity].
Qed.


(** *** Monitoring *)

Lemma errorIncludesCancelled_spec (error : option string) :
  errorIncludesCancelled error = true <-> containsCancelled error.
Proof.
  unfold errorIncludesCancelled, containsCancelled. destruct error as [e|].
  - rewrite StringFacts.includes_spec. split.
    + intros (pre & post & ->). now exists (pre +:+ "cancelled" +:+ post), pre, post.
    + intros (e' & pre & post & [= <-] & ->). now exists pre, post.
  - split; [discriminate |]. now intros (e & pre & post & [=] & _).
Qed.

Lemma downloadAvailableResults_starts (this : Env) (queryId : string)
    (remoteQuery : RemoteQuery.t) (t : Z) (w : World) :
  exists r fs c rest,
    downloadAvailableResults this queryId remoteQuery t w
    = (r, mkWorld fs c (log w ++ GetRemoteQueryIndex remoteQuery :: rest)).
Proof.
  destruct (getRemoteQueryIndex this remoteQuery) as [resultIndex|] eqn:Hindex.
  - destruct (downloadAvailableResults_available this queryId remoteQuery t w
                resultIndex Hindex) as [message ->].
    cbv zeta. destruct (writeFile_result this _ _); do 4 eexists; reflexivity.
  - destruct (downloadAvailableResults_unavailable this queryId remoteQuery t w
                Hindex) as [message ->].
    do 4 eexists. reflexivity.
Qed.

(** C5. [monitorRemoteQuery], once the workflow has ended: when the
    status is [Cancelled], or [CompletedUnsuccessfully] with an error
    that contains [cancelled], it fires a status update with status
    [Failed] and failure reason [Cancelled] and goes on to download the
    available results; when the status is [CompletedUnsuccessfully] and
    the error does not contain [cancelled], it fires a status update with
    status [Failed] and the workflow error as failure reason, reports the
    error, and does not ask for the result index. *)
Theorem C5_monitorRemoteQuery_failures (this : Env) (queryId : string)
    (remoteQuery : RemoteQuery.t) (token : CancellationToken) (w : World) :
  let result := monitorQuery this remoteQuery in
  let status := RemoteQueryWorkflowResult.status result in
  let error := RemoteQueryWorkflowResult.error result in
  let failed reason :=
    FireRemoteQueryStatusUpdate
      {| UpdatedQueryStatusEvent.queryId := queryId;
         UpdatedQueryStatusEvent.status := Failed;
         UpdatedQueryStatusEvent.failureReason := reason;
         UpdatedQueryStatusEvent.repositoryCount := None;
         UpdatedQueryStatusEvent.resultCount := None |} in
  (status = WfCancelled
   \/ (status = WfCompletedUnsuccessfully /\ containsCancelled error) ->
   monitorRemoteQuery this queryId remoteQuery token w
   = bind (downloadAvailableResults this queryId remoteQuery (Date_now this))
       (fun _ => emit (ShowAndLogInformationMessage "Variant analysis was cancelled"))
       (mkWorld (files w) (clipboard w)
          (log w ++ [MonitorQuery remoteQuery; failed (Some "Cancelled")]))
   /\ exists rest,
        emitted w (snd (monitorRemoteQuery this queryId remoteQuery token w))
        = [MonitorQuery remoteQuery; failed (Some "Cancelled");
           GetRemoteQueryIndex remoteQuery] ++ rest)
  /\ (status = WfCompletedUnsuccessfully /\ ~ containsCancelled error ->
      exists message,
        monitorRemoteQuery this queryId remoteQuery token w
        = (Ok tt,
           mkWorld (files w) (clipboard w)
             (log w ++ [MonitorQuery remoteQuery; failed error;
                        ShowAndLogErrorMessage message]))).
Proof.
  intros result status error failed. split.
  - intros Hcancelled.
    assert (Hrun :
      monitorRemoteQuery this queryId remoteQuery token w
      = bind (downloadAvailableResults this queryId remoteQuery (Date_now this))
          (fun _ => emit (ShowAndLogInformationMessage "Variant analysis was cancelled"))
          (mkWorld (files w) (clipboard w)
             (log w ++ [MonitorQuery remoteQuery; failed (Some "Cancelled")]))).
    { unfold monitorRemoteQuery. fold result. fold status. fold error.
      destruct Hcancelled as [-> | [-> Herr]].
      - cbn [bind emit fireCancelled modify fst snd files clipboard log].
        now rewrite <- app_assoc.
      - apply errorIncludesCancelled_spec in Herr. rewrite Herr.
        cbn [bind emit fireCancelled modify fst snd files clipboard log].
        now rewrite <- app_assoc. }
    split; [exact Hrun |].
    rewrite Hrun. unfold bind at 1.
    destruct (downloadAvailableResults_starts this queryId remoteQuery (Date_now this)
                (mkWorld (files w) (clipboard w)
                   (log w ++ [MonitorQuery remoteQuery; failed (Some "Cancelled")])))
      as ([[] | e] & fs & c & rest & ->).
    + cbn [emit modify fst snd files clipboard log].
      eexists. rewrite <- !app_assoc. rewrite emitted_app. reflexivity.
    + cbn [snd files clipboard log].
      eexists. rewrite <- !app_assoc. rewrite emitted_app. reflexivity.
  - intros [Hstatus Herr].
    unfold monitorRemoteQuery. fold result. fold status. fold error.
    rewrite Hstatus.
    destruct (errorIncludesCancelled error) eqn:E.
    + apply errorIncludesCancelled_spec in E. contradiction.
    + eexists. cbv [bind emit modify fst snd files clipboard log].
      rewrite <- !app_assoc. reflexivity.
Qed.

(** *** Determinism of the data transformations *)

(** C7. The data transformations depend on their inputs only.  Take
    two runs of [downloadAvailableResults] for one query id and one
    execution end time, in any two worlds and with any two environments
    that answer with the same result index and repository metadata.
    Both fire the same status update, whatever the file systems do; and
    when both file systems accept the write, both write the same text,
    the one of [mapQueryResult] at the execution end time, the index,
    the query id and the metadata, and both hand that same query result
    to the auto-download command.  Two runs of
    [autoDownloadRemoteQueryResults] on query results with the same
    analysis summaries, in any two worlds, hand the same list of download
    descriptors to the analyses results manager. *)
Theorem C7_transformations_deterministic :
  (forall (this1 this2 : Env) (w1 w2 : World) (remoteQuery1 remoteQuery2 : RemoteQuery.t)
          (queryId : string) (executionEndTime : Z)
          (resultIndex : RemoteQueryResultIndex.t) (metadata : RepositoriesMetadata),
     let nwos :=
       List.map SuccessIndexItem.nwo (RemoteQueryResultIndex.successes resultIndex) in
     getRemoteQueryIndex this1 remoteQuery1 = Some resultIndex ->
     getRemoteQueryIndex this2 remoteQuery2 = Some resultIndex ->
     getRepositoriesMetadata_api this1 nwos = metadata ->
     getRepositoriesMetadata_api this2 nwos = metadata ->
     let queryResult := mapQueryResult executionEndTime resultIndex queryId metadata in
     let text := Json.stringify (Encode.remoteQueryResult queryResult) in
     let path1 := join this1 [storagePath this1; queryId; "query-result.json"] in
     let path2 := join this2 [storagePath this2; queryId; "query-result.json"] in
     let run1 :=
       downloadAvailableResults this1 queryId remoteQuery1 executionEndTime w1 in
     let run2 :=
       downloadAvailableResults this2 queryId remoteQuery2 executionEndTime w2 in
     Observe.statusUpdates (emitted w1 (snd run1))
     = Observe.statusUpdates (emitted w2 (snd run2))
     /\ (writeFile_result this1 path1 text = Ok tt ->
         writeFile_result this2 path2 text = Ok tt ->
         files (snd run1) !! path1 = Some text
         /\ files (snd run2) !! path2 = Some text
         /\ handedToAutoDownload (emitted w1 (snd run1)) = [queryResult]
         /\ handedToAutoDownload (emitted w2 (snd run2)) = [queryResult]))
  /\ (forall (queryResult1 queryResult2 : RemoteQueryResult.t)
             (token1 token2 : CancellationToken) (w1 w2 : World),
        RemoteQueryResult.analysisSummaries queryResult1
        = RemoteQueryResult.analysisSummaries queryResult2 ->
        handedToLoad
          (emitted w1 (snd (autoDownloadRemoteQueryResults queryResult1 token1 w1)))
        = handedToLoad
            (emitted w2 (snd (autoDownloadRemoteQueryResults queryResult2 token2 w2)))).
Proof.
  split.
  - intros this1 this2 w1 w2 rq1 rq2 queryId t resultIndex metadata nwos
      Hindex1 Hindex2 Hmeta1 Hmeta2 queryResult text path1 path2 run1 run2.
    destruct (downloadAvailableResults_available this1 queryId rq1 t w1
                resultIndex Hindex1) as [message1 Hrun1].
    destruct (downloadAvailableResults_available this2 queryId rq2 t w2
                resultIndex Hindex2) as [message2 Hrun2].
    cbv zeta in Hrun1, Hrun2. fold nwos in Hrun1, Hrun2.
    rewrite Hmeta1 in Hrun1. rewrite Hmeta2 in Hrun2.
    fold queryResult text path1 in Hrun1. fold queryResult text path2 in Hrun2.
    subst run1 run2. rewrite Hrun1, Hrun2. split.
    + destruct (writeFile_result this1 path1 text),
               (writeFile_result this2 path2 text);
        cbn [snd]; rewrite !emitted_app; reflexivity.
    + intros -> ->. cbn [snd files]. rewrite !emitted_app.
      split; [apply lookup_insert_eq |]. split; [apply lookup_insert_eq |].
      split; reflexivity.
  - intros qr1 qr2 token1 token2 w1 w2 Hsame.
    unfold autoDownloadRemoteQueryResults, emit, modify. simpl.
    rewrite !emitted_app. simpl.
    unfold analysesToDownload. now rewrite Hsame.
Qed.


(** *** The repository list on the clipboard *)

Lemma filter_positive (l : list AnalysisSummary.t) :
  List.filter (fun a => 0 <? AnalysisSummary.resultCount a) l
  = filter (fun a => 0 < AnalysisSummary.resultCount a) l.
Proof.
  induction l as [|a l IH]; [reflexivity |].
  simpl. destruct (Z.ltb_spec 0 (AnalysisSummary.resultCount a)) as [Hlt | Hge].
  - rewrite filter_cons_True by exact Hlt. now rewrite IH.
  - rewrite filter_cons_False by lia. exact IH.
Qed.

Lemma repoEntries_code (repos : list string) :
  repos <> [] ->
  List.map (fun repo => "    " +:+ dq +:+ repo +:+ dq +:+ ",") (JS.slice_0_minus1 repos)
  ++ ["    " +:+ dq +:+ List.last repos "undefined" +:+ dq]
  = repoEntries repos.
Proof.
  unfold JS.slice_0_minus1.
  induction repos as [|r rs IH]; intros Hne; [congruence |].
  destruct rs as [|r' rs]; [reflexivity |].
  change (removelast (r :: r' :: rs)) with (r :: removelast (r' :: rs)).
  change (List.last (r :: r' :: rs) "undefined") with (List.last (r' :: rs) "undefined").
  change (repoEntries (r :: r' :: rs))
    with (("    " +:+ dq +:+ r +:+ dq +:+ ",") :: repoEntries (r' :: rs)).
  rewrite <- IH by discriminate. reflexivity.
Qed.

Lemma repoListText_entries (repos : list string) :
  repos <> [] ->
  repoListText repos
  = [dq +:+ "new-repo-list" +:+ dq +:+ ": ["] ++ repoEntries repos ++ ["]"].
Proof.
  intros Hne. unfold repoListText. rewrite <- (repoEntries_code repos Hne).
  now rewrite <- !app_assoc.
Qed.

(** C9. [copyRemoteQueryRepoListToClipboard], for a stored query
    result: when some analysis summary has a positive [resultCount], it
    writes to the clipboard the [new-repo-list] block that lists the
    [nwo] of exactly the summaries with a positive [resultCount], in
    their order, every entry but the last followed by a comma; when no
    summary has a positive [resultCount], it leaves the clipboard, and
    everything else, as it was.  So it writes if and only if some summary
    has a positive [resultCount]. *)
Theorem C9_copy_repo_list_to_clipboard (this : Env) (queryId : string)
    (queryResult : RemoteQueryResult.t) (w : World) :
  getRemoteQueryResult this queryId w = (Ok queryResult, w) ->
  let summaries := RemoteQueryResult.analysisSummaries queryResult in
  let positive := exists a, a ∈ summaries /\ 0 < AnalysisSummary.resultCount a in
  let repos :=
    List.map AnalysisSummary.nwo
      (filter (fun a => 0 < AnalysisSummary.resultCount a) summaries) in
  let text :=
    JS.Array_join
      ([dq +:+ "new-repo-list" +:+ dq +:+ ": ["] ++ repoEntries repos ++ ["]"])
      (EOL this) in
  let run := copyRemoteQueryRepoListToClipboard this queryId w in
  (positive ->
   run = (Ok tt, mkWorld (files w) text (log w ++ [ClipboardWriteText text])))
  /\ (~ positive -> run = (Ok tt, w))
  /\ ((exists written, In (ClipboardWriteText written) (emitted w (snd run)))
      <-> positive).
Proof.
  intros Hstored summaries positive repos text run.
  assert (Hrun : run =
    if decide (repos = []) then (Ok tt, w)
    else (Ok tt, mkWorld (files w) text (log w ++ [ClipboardWriteText text]))).
  { subst run. unfold copyRemoteQueryRepoListToClipboard, bind.
    rewrite Hstored. rewrite filter_positive. fold summaries. fold repos.
    destruct (decide (repos = [])) as [Hnil | Hne].
    - rewrite Hnil. reflexivity.
    - destruct repos as [|r rs] eqn:E; [congruence |].
      cbn [length Nat.ltb Nat.leb]. rewrite repoListText_entries by discriminate.
      reflexivity. }
  assert (Hpos : positive <-> repos <> []).
  { subst positive repos. split.
    - intros (a & Ha & Hlt) Hnil.
      apply List.map_eq_nil in Hnil.
      apply (filter_nil_not_elem_of _ _ a Hnil Hlt Ha).
    - intros Hne.
      destruct (filter (fun a => 0 < AnalysisSummary.resultCount a) summaries)
        as [|a l] eqn:E; [contradiction |].
      assert (Ha : a ∈ filter (fun a => 0 < AnalysisSummary.resultCount a) summaries)
        by (rewrite E; apply list_elem_of_here).
      apply list_elem_of_filter in Ha as [Hlt Ha]. now exists a. }
  rewrite Hrun. split; [| split].
  - intros H. apply Hpos in H. now destruct (decide (repos = [])).
  - intros H. destruct (decide (repos = [])) as [| Hne]; [reflexivity |].
    apply Hpos in Hne. contradiction.
  - destruct (decide (repos = [])) as [Hnil | Hne]; cbn [snd].
    + split.
      * intros [written Hin]. unfold emitted in Hin.
        rewrite drop_all in Hin. destruct Hin.
      * intros H. apply Hpos in H. contradiction.
    + rewrite emitted_app. split.
      * intros _. now apply Hpos.
      * intros _. exists text. now left.
Qed.

End ManagerFacts.

(** ** The compare view *)

Module CompareViewFacts.
Import CompareView.

Lemma view_emitted_app (v : View) (p : option ComparePair.t) (new : list Effect) :
  emitted v (mkView p (log v ++ new)) = new.
Proof. unfold emitted. simpl. apply drop_app_length. Qed.

(** One run of [showResultsInternal] on a view with a compare pair. *)
Lemma showResultsInternal_run (this : Env) (selected : option string)
    (v : View) (thePair : ComparePair.t) :
  comparePair v = Some thePair ->
  let opened := log v ++ [GetPanel; PanelReveal; WaitForPanelLoaded] in
  showResultsInternal this selected v =
  match findResultSetsToCompare this thePair selected with
  | Throw e => (Throw e, mkView (Some thePair) opened)
  | Ok (displayName, fromResultSet, toResultSet) =>
      match displayName with
      | Some name =>
          if JS.truthy_string name then
            (Ok tt,
             mkView (Some thePair)
               (opened ++
                [PostMessage
                   (SetComparisons
                      (fst (comparison this fromResultSet toResultSet)) name
                      (snd (comparison this fromResultSet toResultSet)))]))
          else (Ok tt, mkView (Some thePair) opened)
      | None => (Ok tt, mkView (Some thePair) opened)
      end
  end.
Proof.
  intros Hpair opened. subst opened.
  destruct v as [p entries]. cbn [comparePair log] in *. subst p.
  cbv [showResultsInternal bind get emit modify lift comparePair log].
  rewrite <- !app_assoc. cbn [app].
  destruct (findResultSetsToCompare this thePair selected)
    as [[[displayName fromResultSet] toResultSet] | e]; [| reflexivity].
  destruct displayName as [name|]; [| reflexivity].
  destruct (JS.truthy_string name); [| reflexivity].
  unfold comparison, postMessage, emit, modify.
  destruct (compareResults this fromResultSet toResultSet);
    cbn [fst snd comparePair log]; rewrite <- !app_assoc; reflexivity.
Qed.

(** C6. In [showResultsInternal], once the result sets to compare
    have been found under a display name, a [setComparisons] message is
    posted and the method returns: with the comparison when
    [compareResults] returns one, and with the message of the exception
    and no result when [compareResults] throws. *)
Theorem C6_setComparisons_posted_on_failure (this : Env)
    (selected : option string) (v : View) (thePair : ComparePair.t)
    (name : string) (fromResultSet toResultSet : RawResultSet.t) :
  comparePair v = Some thePair ->
  findResultSetsToCompare this thePair selected
  = Ok (Some name, fromResultSet, toResultSet) ->
  JS.truthy_string name = true ->
  let posted msg :=
    showResultsInternal this selected v
    = (Ok tt,
       mkView (Some thePair)
         (log v ++ [GetPanel; PanelReveal; WaitForPanelLoaded; PostMessage msg])) in
  (forall r, compareResults this fromResultSet toResultSet = Ok r ->
             posted (SetComparisons (Some r) name None))
  /\ (forall e, compareResults this fromResultSet toResultSet = Throw e ->
                posted (SetComparisons None name (Some (getErrorMessage e)))).
Proof.
  intros Hpair Hfound Hname posted. subst posted.
  pose proof (showResultsInternal_run this selected v thePair Hpair) as Hrun.
  cbv zeta in Hrun. rewrite Hfound, Hname in Hrun.
  rewrite <- app_assoc in Hrun. cbn [app] in Hrun.
  unfold comparison in Hrun.
  split; intros x Hx; rewrite Hx in Hrun; exact Hrun.
Qed.

(** C10. Without a compare pair [showResultsInternal] returns at once
    and changes nothing.  Disposing of the panel clears the compare pair;
    a [changeCompare] message that arrives afterwards leaves the compare
    pair cleared and posts nothing to the front end: all it adds to the
    log is the telemetry event, when there is a telemetry listener. *)
Theorem C10_no_compare_pair_no_effect (this : Env) (v : View) :
  (forall selected,
     comparePair v = None -> showResultsInternal this selected v = (Ok tt, v))
  /\ onPanelDispose v = (Ok tt, mkView None (log v))
  /\ (forall newResultSetName,
        onMessage this (ChangeCompare newResultSetName) (snd (onPanelDispose v))
        = (Ok tt,
           mkView None
             (log v ++
              if telemetryListener this
              then [SendUIInteraction "compare-view-change-table-to-compare"]
              else []))).
Proof.
  split; [| split].
  - intros selected Hnone.
    unfold showResultsInternal, bind, get. now rewrite Hnone.
  - reflexivity.
  - intros name.
    cbv [onMessage changeTable showResultsInternal bind get onPanelDispose
         setComparePair modify snd comparePair ret sendUIInteraction].
    destruct (telemetryListener this).
    + reflexivity.
    + cbv [ret]. now rewrite app_nil_r.
Qed.


(** *** Comparison by common names *)



Lemma showResultsInternal_keeps_pair (this : Env) (selected : option string)
    (v : View) (thePair : ComparePair.t) :
  comparePair v = Some thePair ->
  comparePair (snd (showResultsInternal this selected v)) = Some thePair.
Proof.
  intros Hpair. rewrite (showResultsInternal_run this selected v thePair Hpair).
  cbv zeta.
  destruct (findResultSetsToCompare this thePair selected)
    as [[[[name|] fromResultSet] toResultSet] | e]; try reflexivity.
  destruct (JS.truthy_string name); reflexivity.
Qed.






End CompareViewFacts.

(** ** The properties on the sample data *)

Module Samples.
Import RemoteQueriesManager Examples.

Example stringify_small_array :
  Json.stringify (Json.JArr [Json.JNum 1; Json.JStr "a"; Json.JArr []])
  = "[" +:+ Json.nl +:+ "  1," +:+ Json.nl +:+ "  " +:+ dq +:+ "a" +:+ dq +:+ ","
    +:+ Json.nl +:+ "  []" +:+ Json.nl +:+ "]".
Proof. reflexivity. Qed.

Example parse_rejects_trailing_comma :
  Json.parse "[1,]" = Throw "Unexpected token in JSON".
Proof. reflexivity. Qed.

Example only_small_is_downloaded :
  List.map AnalysisToDownload.nwo (analysesToDownload queryResult) = ["octo/one"].
Proof. reflexivity. Qed.

(** The sample query result survives being stored and read back. *)
Lemma C2_sample_round_trip :
  Json.well_formed (Encode.remoteQueryResult queryResult)
  /\ fst (storeJsonFile succeeded "q1" "query-result.json"
            (Encode.remoteQueryResult queryResult) world) = Ok tt
  /\ retrieveJsonFile succeeded "q1" "query-result.json" stored
     = (Ok (Encode.remoteQueryResult queryResult), stored).
Proof.
  assert (Hwf : Json.well_formed (Encode.remoteQueryResult queryResult))
    by (simpl; repeat split; compute_done).
  split; [exact Hwf |]. split; [reflexivity |].
  exact (proj1 (proj1 (ManagerFacts.C2_store_then_retrieve succeeded "q1"
                         "query-result.json" (Encode.remoteQueryResult queryResult)
                         world Hwf) eq_refl)).
Defined.

(** With the sample index at hand the status becomes [Completed], for 2
    repositories and 7 results, and the result is stored; where the
    directory of the query is gone the status becomes [Completed] all the
    same and the store throws; without an index the status becomes
    [Failed] and no file is written. *)
Lemma C4_sample_download :
  (exists message,
     fst (downloadAvailableResults succeeded "q1" remoteQuery 1700000000000 world)
     = Ok tt
     /\ emitted world
          (snd (downloadAvailableResults succeeded "q1" remoteQuery 1700000000000 world))
        = [ GetRemoteQueryIndex remoteQuery;
            GetRepositoriesMetadata ["octo/one"; "octo/two"];
            FireRemoteQueryStatusUpdate
              (UpdatedQueryStatusEvent.mk "q1" Completed None (Some 2) (Some 7));
            ExecuteAutoDownloadCommand
              (mapQueryResult 1700000000000 resultIndex "q1"
                 (getRepositoriesMetadata_api succeeded ["octo/one"; "octo/two"]));
            ShowInformationMessageWithAction message "View" ])
  /\ (fst (downloadAvailableResults withoutDirectory "q1" remoteQuery 1700000000000
             world)
      = Throw "ENOENT: no such file or directory, open /storage/q1/query-result.json"
      /\ emitted world
           (snd (downloadAvailableResults withoutDirectory "q1" remoteQuery
                   1700000000000 world))
         = [ GetRemoteQueryIndex remoteQuery;
             GetRepositoriesMetadata ["octo/one"; "octo/two"];
             FireRemoteQueryStatusUpdate
               (UpdatedQueryStatusEvent.mk "q1" Completed None (Some 2) (Some 7)) ])
  /\ (exists message,
        fst (downloadAvailableResults failed "q1" remoteQuery 1700000000000 world)
        = Ok tt
        /\ emitted world
             (snd (downloadAvailableResults failed "q1" remoteQuery 1700000000000 world))
           = [ GetRemoteQueryIndex remoteQuery;
               ShowAndLogExceptionWithTelemetry message;
               FireRemoteQueryStatusUpdate
                 (UpdatedQueryStatusEvent.mk "q1" Failed None None None) ]
        /\ files (snd (downloadAvailableResults failed "q1" remoteQuery 1700000000000
                         world))
           = files world).
Proof.
  split; [| split].
  - destruct (proj1 (proj1 (ManagerFacts.C4_downloadAvailableResults succeeded "q1"
                              remoteQuery 1700000000000 world) resultIndex eq_refl)
                eq_refl)
      as (message & Hrun & Hlog & _).
    exists message. split; [exact Hrun | exact Hlog].
  - destruct (proj2 (proj1 (ManagerFacts.C4_downloadAvailableResults withoutDirectory
                              "q1" remoteQuery 1700000000000 world) resultIndex eq_refl)
                _ eq_refl)
      as (Hrun & Hlog & _).
    split; [exact Hrun | exact Hlog].
  - exact (proj2 (ManagerFacts.C4_downloadAvailableResults failed "q1" remoteQuery
                    1700000000000 world) eq_refl).
Defined.

Lemma sample_error_is_cancellation :
  containsCancelled (Some "The run was cancelled by the user").
Proof. exists "The run was cancelled by the user", "The run was ", " by the user". now split. Qed.

Lemma boom_is_no_cancellation : ~ containsCancelled (Some "boom").
Proof.
  intros H. apply ManagerFacts.errorIncludesCancelled_spec in H. discriminate H.
Qed.

(** A workflow cancelled on the server is reported as [Cancelled] and
    its results are asked for; a workflow that failed with [boom] is
    reported with that error and nothing more happens. *)
Lemma C5_sample_failures :
  (exists rest,
     emitted world (snd (monitorRemoteQuery cancelled "q1" remoteQuery (Token false) world))
     = [ MonitorQuery remoteQuery;
         FireRemoteQueryStatusUpdate
           (UpdatedQueryStatusEvent.mk "q1" Failed (Some "Cancelled") None None);
         GetRemoteQueryIndex remoteQuery ] ++ rest)
  /\ (exists message,
        monitorRemoteQuery failed "q1" remoteQuery (Token false) world
        = (Ok tt,
           mkWorld ∅ ""
             [ MonitorQuery remoteQuery;
               FireRemoteQueryStatusUpdate
                 (UpdatedQueryStatusEvent.mk "q1" Failed (Some "boom") None None);
               ShowAndLogErrorMessage message ])).
Proof.
  split.
  - exact (proj2 (proj1 (ManagerFacts.C5_monitorRemoteQuery_failures cancelled "q1"
                           remoteQuery (Token false) world)
                    (or_intror (conj eq_refl sample_error_is_cancellation)))).
  - exact (proj2 (ManagerFacts.C5_monitorRemoteQuery_failures failed "q1" remoteQuery
                    (Token false) world)
             (conj eq_refl boom_is_no_cancellation)).
Defined.

(** Two managers in different worlds fire the same status update, even
    where the directory of the query is gone for one of them; where both
    can write, one after a workflow that succeeded and one after a
    workflow that was cancelled, they hand the same query result and the
    same downloads on. *)
Lemma C7_sample_two_runs :
  Observe.statusUpdates
    (emitted world
       (snd (downloadAvailableResults succeeded "q1" remoteQuery 5 world)))
  = Observe.statusUpdates
      (emitted stored
         (snd (downloadAvailableResults withoutDirectory "q1" remoteQuery 5 stored)))
  /\ handedToAutoDownload
       (emitted world
          (snd (downloadAvailableResults succeeded "q1" remoteQuery 5 world)))
     = handedToAutoDownload
         (emitted stored
            (snd (downloadAvailableResults cancelled "q1" remoteQuery 5 stored)))
  /\ handedToLoad
       (emitted world (snd (autoDownloadRemoteQueryResults queryResult (Token false) world)))
     = handedToLoad
         (emitted stored
            (snd (autoDownloadRemoteQueryResults
                    (RemoteQueryResult.mk 0 [small; large] [] "q2") (Token true) stored))).
Proof.
  split; [| split].
  - exact (proj1 (proj1 ManagerFacts.C7_transformations_deterministic
                    succeeded withoutDirectory world stored remoteQuery remoteQuery
                    "q1" 5 resultIndex
                    (getRepositoriesMetadata_api succeeded ["octo/one"; "octo/two"])
                    eq_refl eq_refl eq_refl eq_refl)).
  - destruct (proj2 (proj1 ManagerFacts.C7_transformations_deterministic
                       succeeded cancelled world stored remoteQuery remoteQuery
                       "q1" 5 resultIndex
                       (getRepositoriesMetadata_api succeeded ["octo/one"; "octo/two"])
                       eq_refl eq_refl eq_refl eq_refl) eq_refl eq_refl)
      as (_ & _ & H1 & H2).
    now rewrite H1, H2.
  - exact (proj2 ManagerFacts.C7_transformations_deterministic
             queryResult (RemoteQueryResult.mk 0 [small; large] [] "q2")
             (Token false) (Token true) world stored eq_refl).
Defined.

(** The stored sample has one repository with results: its name goes to
    the clipboard. *)
Lemma C9_sample_clipboard :
  getRemoteQueryResult succeeded "q1" stored = (Ok queryResult, stored)
  /\ clipboard (snd (copyRemoteQueryRepoListToClipboard succeeded "q1" stored))
     = dq +:+ "new-repo-list" +:+ dq +:+ ": [" +:+ Json.nl
       +:+ "    " +:+ dq +:+ "octo/one" +:+ dq +:+ Json.nl +:+ "]".
Proof.
  assert (Hstored : getRemoteQueryResult succeeded "q1" stored = (Ok queryResult, stored))
    by (vm_compute; reflexivity).
  split; [exact Hstored |].
  rewrite (proj1 (ManagerFacts.C9_copy_repo_list_to_clipboard succeeded "q1" queryResult
                    stored Hstored)).
  - reflexivity.
  - exists small. split; [apply list_elem_of_here | reflexivity].
Defined.

Import CompareView.


(** A comparison that throws is reported to the front end. *)
Lemma C6_sample_thrown_comparison :
  showResultsInternal throwingEnv (Some "#select") openView
  = (Ok tt,
     mkView (Some thePair)
       [ GetPanel; PanelReveal; WaitForPanelLoaded;
         PostMessage
           (SetComparisons None "#select"
              (Some "CodeQL Compare: Columns do not match.")) ]).
Proof.
  exact (proj2 (CompareViewFacts.C6_setComparisons_posted_on_failure throwingEnv
                  (Some "#select") openView thePair "#select"
                  (toResultSet (BqrsResultSetSchema.mk "#select" ["a"; "b"])
                     [["1"; "u"]; ["2"; "v"]])
                  (toResultSet (BqrsResultSetSchema.mk "#select" ["b"; "c"])
                     [["u"; "9"]; ["w"; "8"]])
                  eq_refl eq_refl eq_refl)
           "CodeQL Compare: Columns do not match." eq_refl).
Defined.

(** A view without compare pair ignores a request to show results. *)
Lemma C10_sample_closed_view :
  showResultsInternal viewEnv (Some "#select") closedView = (Ok tt, closedView)
  /\ onMessage viewEnv (ChangeCompare "#select") (snd (onPanelDispose openView))
     = (Ok tt, mkView None [SendUIInteraction "compare-view-change-table-to-compare"]).
Proof.
  split.
  - exact (proj1 (CompareViewFacts.C10_no_compare_pair_no_effect viewEnv closedView)
             (Some "#select") eq_refl).
  - exact (proj2 (proj2 (CompareViewFacts.C10_no_compare_pair_no_effect viewEnv openView))
             "#select").
Defined.

End Samples.

(** ** Further properties of the remote queries manager *)

Module ManagerMore.
Import RemoteQueriesManager ManagerView Observe.

(** *** Files *)

Lemma retrieveJsonFile_world (this : Env) (queryId fileName : string) (w : World) :
  snd (retrieveJsonFile this queryId fileName w) = w.
Proof.
  unfold retrieveJsonFile, bind, readFile, lift.
  destruct (files w !! join this [storagePath this; queryId; fileName]); reflexivity.
Qed.

Lemma retrieveJsonFile_missing (this : Env) (queryId fileName : string) (w : World) :
  files w !! join this [storagePath this; queryId; fileName] = None ->
  retrieveJsonFile this queryId fileName w
  = (Throw ("ENOENT: no such file or directory, open "
            +:+ join this [storagePath this; queryId; fileName]), w).
Proof.
  intros Hnone. unfold retrieveJsonFile, bind, readFile. now rewrite Hnone.
Qed.

Lemma parse_blank (text : string) :
  Json.all_ws text = true -> Json.parse text = Throw "Unexpected token in JSON".
Proof.
  intros Hws. unfold Json.parse.
  assert (Hskip : Json.skip_ws text = "").
  { rewrite <- (StringFacts.append_nil_r text).
    now rewrite JsonFacts.skip_ws_append. }
  rewrite JsonFacts.parse_value_S, Hskip. reflexivity.
Qed.

(** X1. [retrieveJsonFile] only reads: it leaves the world as it
    was, whatever it returns.  It throws when the file does not exist,
    and when the file is empty or holds white space only. *)
Theorem retrieveJsonFile_reads_only (this : Env) (queryId fileName : string)
    (w : World) :
  let path := join this [storagePath this; queryId; fileName] in
  let run := retrieveJsonFile this queryId fileName w in
  snd run = w
  /\ (files w !! path = None -> exists e, fst run = Throw e)
  /\ (forall text,
        files w !! path = Some text -> Json.all_ws text = true ->
        exists e, fst run = Throw e).
Proof.
  intros path run. subst run. split; [apply retrieveJsonFile_world |]. split.
  - intros Hnone. subst path. rewrite retrieveJsonFile_missing by exact Hnone.
    eexists. reflexivity.
  - intros text Hsome Hws. unfold retrieveJsonFile, bind, readFile, lift. fold path.
    rewrite Hsome. cbn [fst]. rewrite parse_blank by exact Hws.
    eexists. reflexivity.
Qed.

(** X2. Of two values stored under the same query id and file name the
    second one wins: when the second store returns, its value is what is
    read back, and the world is what it would be had the first never been
    stored, whether the first store returned or threw. *)
Theorem storeJsonFile_last_write_wins (this : Env) (queryId fileName : string)
    (first second : Json.json) (w : World) :
  Json.well_formed second ->
  let w1 := snd (storeJsonFile this queryId fileName first w) in
  let w2 := snd (storeJsonFile this queryId fileName second w1) in
  fst (storeJsonFile this queryId fileName second w1) = Ok tt ->
  retrieveJsonFile this queryId fileName w2 = (Ok second, w2)
  /\ w2 = snd (storeJsonFile this queryId fileName second w).
Proof.
  intros Hwf w1 w2 Hstored. subst w2.
  rewrite ManagerFacts.storeJsonFile_run in Hstored |- *. cbv zeta in *.
  rewrite (ManagerFacts.storeJsonFile_run this queryId fileName second w). cbv zeta.
  destruct (writeFile_result this (join this [storagePath this; queryId; fileName])
              (Json.stringify second)) as [[] | e]; [| discriminate].
  cbn [snd]. split.
  - apply ManagerFacts.retrieveJsonFile_holds; [exact Hwf |].
    simpl. apply lookup_insert_eq.
  - subst w1. rewrite ManagerFacts.storeJsonFile_run. cbv zeta.
    destruct (writeFile_result this (join this [storagePath this; queryId; fileName])
                (Json.stringify first)) as [[] | e]; [| reflexivity].
    cbn [snd files clipboard log]. now rewrite insert_insert_eq.
Qed.

(** X3. Storing a value in one file leaves every file at another path as
    it reads: [retrieveJsonFile] returns there what it returned before. *)
Theorem storeJsonFile_leaves_other_files (this : Env)
    (queryId fileName otherId otherName : string) (obj : Json.json) (w : World) :
  join this [storagePath this; queryId; fileName]
  <> join this [storagePath this; otherId; otherName] ->
  fst (retrieveJsonFile this otherId otherName
         (snd (storeJsonFile this queryId fileName obj w)))
  = fst (retrieveJsonFile this otherId otherName w).
Proof.
  intros Hne.
  rewrite ManagerFacts.storeJsonFile_run. cbv zeta.
  destruct (writeFile_result this (join this [storagePath this; queryId; fileName])
              (Json.stringify obj)) as [[] | e]; [| reflexivity].
  unfold retrieveJsonFile, bind, readFile, lift.
  cbn [snd files]. rewrite lookup_insert_ne by exact Hne.
  destruct (files w !! join this [storagePath this; otherId; otherName]) as [text|];
    [| reflexivity].
  cbn [fst]. now destruct (Json.parse text).
Qed.

(** *** Opening the results *)

Lemma openRemoteQueryResults_run (this : Env)
    (view_showResults : Json.json -> Json.json -> result unit)
    (queryId : string) (s : Manager) :
  let w := world s in
  let reported e :=
    mkWorld (files w) (clipboard w)
      (log w ++ [ShowAndLogExceptionWithTelemetry
                   ("Could not open query results. " +:+ e)]) in
  openRemoteQueryResults this view_showResults queryId s =
  match fst (retrieveJsonFile this queryId "query.json" w) with
  | Throw e => (Ok tt, mkManager (reported e) (viewCalls s))
  | Ok remoteQuery =>
      match fst (retrieveJsonFile this queryId "query-result.json" w) with
      | Throw e => (Ok tt, mkManager (reported e) (viewCalls s))
      | Ok remoteQueryResult =>
          (Ok tt,
           mkManager
             match view_showResults remoteQuery remoteQueryResult with
             | Ok _ => w
             | Throw e => reported e
             end
             (viewCalls s ++ [ShowResults remoteQuery remoteQueryResult]))
      end
  end.
Proof.
  intros w reported. subst reported.
  unfold openRemoteQueryResults, try_catch at 1, bind at 1, onWorld at 1. fold w.
  pose proof (retrieveJsonFile_world this queryId "query.json" w) as H1.
  destruct (retrieveJsonFile this queryId "query.json" w) as [[remoteQuery | e] w1].
  2:{ cbn [snd fst] in *. subst w1.
      unfold reportCouldNotOpen, onWorld, emit, modify, getErrorMessage.
      cbn [world viewCalls]. reflexivity. }
  cbn [snd fst] in *. subst w1.
  unfold bind at 1, onWorld at 1. cbn [world viewCalls].
  pose proof (retrieveJsonFile_world this queryId "query-result.json" w) as H2.
  destruct (retrieveJsonFile this queryId "query-result.json" w)
    as [[remoteQueryResult | e] w2]; cbn [snd fst] in *; subst w2.
  - unfold try_catch, openResults, bind, modify, lift. cbn [world viewCalls].
    destruct (view_showResults remoteQuery remoteQueryResult) as [[] | e].
    + destruct w; reflexivity.
    + unfold reportCouldNotOpen, onWorld, emit, modify, getErrorMessage.
      cbn [world viewCalls]. reflexivity.
  - unfold reportCouldNotOpen, onWorld, emit, modify, getErrorMessage.
    cbn [world viewCalls]. reflexivity.
Qed.

(** X4. [openRemoteQueryResults] never throws and never changes a file
    or the clipboard.  The view is called, once and with the two parsed
    values, exactly when both [query.json] and [query-result.json] of the
    query are read and parsed.  One exception is reported when a read
    fails (the message of the first failure) or when the view rejects;
    nothing is reported otherwise. *)
Theorem openRemoteQueryResults_never_throws (this : Env)
    (view_showResults : Json.json -> Json.json -> result unit)
    (queryId : string) (s : Manager) :
  let w := world s in
  let s' := snd (openRemoteQueryResults this view_showResults queryId s) in
  let reported e :=
    log (world s')
    = log w ++ [ShowAndLogExceptionWithTelemetry
                  ("Could not open query results. " +:+ e)] in
  fst (openRemoteQueryResults this view_showResults queryId s) = Ok tt
  /\ files (world s') = files w
  /\ clipboard (world s') = clipboard w
  /\ match fst (retrieveJsonFile this queryId "query.json" w),
           fst (retrieveJsonFile this queryId "query-result.json" w) with
     | Ok remoteQuery, Ok remoteQueryResult =>
         viewCalls s' = viewCalls s ++ [ShowResults remoteQuery remoteQueryResult]
         /\ match view_showResults remoteQuery remoteQueryResult with
            | Ok _ => log (world s') = log w
            | Throw e => reported e
            end
     | Throw e, _ => viewCalls s' = viewCalls s /\ reported e
     | Ok _, Throw e => viewCalls s' = viewCalls s /\ reported e
     end.
Proof.
  intros w s' reported. subst s' reported.
  rewrite (openRemoteQueryResults_run this view_showResults queryId s).
  cbv zeta. fold w.
  destruct (fst (retrieveJsonFile this queryId "query.json" w)) as [remoteQuery | e];
    [| now cbn].
  destruct (fst (retrieveJsonFile this queryId "query-result.json" w))
    as [remoteQueryResult | e]; [| now cbn].
  destruct (view_showResults remoteQuery remoteQueryResult); now cbn.
Qed.

Lemma storeJsonFile_stored (this : Env) (queryId fileName : string)
    (obj : Json.json) (w : World) :
  fst (storeJsonFile this queryId fileName obj w) = Ok tt ->
  files (snd (storeJsonFile this queryId fileName obj w))
  = <[join this [storagePath this; queryId; fileName] := Json.stringify obj]> (files w).
Proof.
  rewrite ManagerFacts.storeJsonFile_run. cbv zeta.
  destruct (writeFile_result this _ _); [reflexivity | discriminate].
Qed.

(** X5. After a query and its result have been stored, in either
    order and each store having returned, [openRemoteQueryResults] calls
    the view with exactly these two values, provided [path.join] keeps
    the two file names apart. *)
Theorem openRemoteQueryResults_after_store (this : Env)
    (view_showResults : Json.json -> Json.json -> result unit)
    (queryId : string) (query queryResult : Json.json) (s : Manager) :
  Json.well_formed query -> Json.well_formed queryResult ->
  join this [storagePath this; queryId; "query.json"]
  <> join this [storagePath this; queryId; "query-result.json"] ->
  let storeQuery := storeJsonFile this queryId "query.json" query in
  let storeResult := storeJsonFile this queryId "query-result.json" queryResult in
  forall w',
    (fst (storeQuery (world s)) = Ok tt
     /\ fst (storeResult (snd (storeQuery (world s)))) = Ok tt
     /\ w' = snd (storeResult (snd (storeQuery (world s)))))
    \/ (fst (storeResult (world s)) = Ok tt
        /\ fst (storeQuery (snd (storeResult (world s)))) = Ok tt
        /\ w' = snd (storeQuery (snd (storeResult (world s))))) ->
    let s' :=
      snd (openRemoteQueryResults this view_showResults queryId
             (mkManager w' (viewCalls s))) in
    viewCalls s' = viewCalls s ++ [ShowResults query queryResult]
    /\ files (world s') = files w'.
Proof.
  intros Hq Hr Hne storeQuery storeResult w' Hw' s'. subst s'.
  rewrite (openRemoteQueryResults_run this view_showResults queryId
             (mkManager w' (viewCalls s))).
  cbv zeta. cbn [world viewCalls].
  assert (H1 : files w' !! join this [storagePath this; queryId; "query.json"]
               = Some (Json.stringify query)).
  { destruct Hw' as [(Hfirst & Hsecond & ->) | (Hfirst & Hsecond & ->)];
      subst storeQuery storeResult;
      rewrite (storeJsonFile_stored _ _ _ _ _ Hsecond).
    - rewrite lookup_insert_ne by (intros H; apply Hne; now symmetry).
      rewrite (storeJsonFile_stored _ _ _ _ _ Hfirst).
      apply lookup_insert_eq.
    - apply lookup_insert_eq. }
  assert (H2 : files w' !! join this [storagePath this; queryId; "query-result.json"]
               = Some (Json.stringify queryResult)).
  { destruct Hw' as [(Hfirst & Hsecond & ->) | (Hfirst & Hsecond & ->)];
      subst storeQuery storeResult;
      rewrite (storeJsonFile_stored _ _ _ _ _ Hsecond).
    - apply lookup_insert_eq.
    - rewrite lookup_insert_ne by exact Hne.
      rewrite (storeJsonFile_stored _ _ _ _ _ Hfirst).
      apply lookup_insert_eq. }
  rewrite (ManagerFacts.retrieveJsonFile_holds this queryId "query.json" query w' Hq H1).
  rewrite (ManagerFacts.retrieveJsonFile_holds this queryId "query-result.json"
             queryResult w' Hr H2).
  cbn [fst snd viewCalls world].
  split; [reflexivity |].
  destruct (view_showResults query queryResult); reflexivity.
Qed.


(** *** Monitoring, outcome by outcome *)

Lemma monitorRemoteQuery_cancelled_run (this : Env) (queryId : string)
    (remoteQuery : RemoteQuery.t) (token : CancellationToken) (w : World) :
  let result := monitorQuery this remoteQuery in
  RemoteQueryWorkflowResult.status result = WfCancelled
  \/ (RemoteQueryWorkflowResult.status result = WfCompletedUnsuccessfully
      /\ containsCancelled (RemoteQueryWorkflowResult.error result)) ->
  monitorRemoteQuery this queryId remoteQuery token w
  = bind (downloadAvailableResults this queryId remoteQuery (Date_now this))
      (fun _ => emit (ShowAndLogInformationMessage "Variant analysis was cancelled"))
      (mkWorld (files w) (clipboard w)
         (log w ++
          [ MonitorQuery remoteQuery;
            FireRemoteQueryStatusUpdate
              (UpdatedQueryStatusEvent.mk queryId Failed (Some "Cancelled") None None) ])).
Proof.
  intros result Hcancelled. unfold monitorRemoteQuery. fold result.
  destruct Hcancelled as [-> | [-> Herr]].
  - cbn [bind emit fireCancelled modify fst snd files clipboard log].
    now rewrite <- app_assoc.
  - apply ManagerFacts.errorIncludesCancelled_spec in Herr. rewrite Herr.
    cbn [bind emit fireCancelled modify fst snd files clipboard log].
    now rewrite <- app_assoc.
Qed.

Lemma monitorRemoteQuery_succeeded_run (this : Env) (queryId : string)
    (remoteQuery : RemoteQuery.t) (token : CancellationToken) (w : World) :
  RemoteQueryWorkflowResult.status (monitorQuery this remoteQuery)
  = WfCompletedSuccessfully ->
  monitorRemoteQuery this queryId remoteQuery token w
  = downloadAvailableResults this queryId remoteQuery (Date_now this)
      (mkWorld (files w) (clipboard w) (log w ++ [MonitorQuery remoteQuery])).
Proof. intros Hs. unfold monitorRemoteQuery. rewrite Hs. reflexivity. Qed.

(** X6. A cancelled workflow fires two status updates.  The first is
    [Failed] with reason [Cancelled].  The second comes from the download
    of the available results: [Completed], with the counts of the index,
    when a result index is available, so that the query ends as
    completed; [Failed] without a failure reason when there is none. *)
Theorem monitorRemoteQuery_cancelled_updates (this : Env) (queryId : string)
    (remoteQuery : RemoteQuery.t) (token : CancellationToken) (w : World) :
  let result := monitorQuery this remoteQuery in
  RemoteQueryWorkflowResult.status result = WfCancelled
  \/ (RemoteQueryWorkflowResult.status result = WfCompletedUnsuccessfully
      /\ containsCancelled (RemoteQueryWorkflowResult.error result)) ->
  List.map
    (fun u => (UpdatedQueryStatusEvent.status u,
               UpdatedQueryStatusEvent.failureReason u,
               UpdatedQueryStatusEvent.repositoryCount u))
    (statusUpdates
       (emitted w (snd (monitorRemoteQuery this queryId remoteQuery token w))))
  = [ (Failed, Some "Cancelled", None);
      match getRemoteQueryIndex this remoteQuery with
      | Some resultIndex =>
          (Completed, None,
           Some (Z.of_nat (length (RemoteQueryResultIndex.successes resultIndex))))
      | None => (Failed, None, None)
      end ].
Proof.
  intros result Hcancelled.
  rewrite (monitorRemoteQuery_cancelled_run this queryId remoteQuery token w Hcancelled).
  unfold bind.
  destruct (getRemoteQueryIndex this remoteQuery) as [resultIndex|] eqn:Hindex.
  - destruct (ManagerFacts.downloadAvailableResults_available this queryId remoteQuery
                (Date_now this)
                (mkWorld (files w) (clipboard w)
                   (log w ++
                    [ MonitorQuery remoteQuery;
                      FireRemoteQueryStatusUpdate
                        (UpdatedQueryStatusEvent.mk queryId Failed (Some "Cancelled")
                           None None) ]))
                resultIndex Hindex) as [message ->].
    cbv zeta. destruct (writeFile_result this _ _);
      cbn [emit modify snd files clipboard log];
      rewrite <- !app_assoc, ManagerFacts.emitted_app; reflexivity.
  - destruct (ManagerFacts.downloadAvailableResults_unavailable this queryId remoteQuery
                (Date_now this)
                (mkWorld (files w) (clipboard w)
                   (log w ++
                    [ MonitorQuery remoteQuery;
                      FireRemoteQueryStatusUpdate
                        (UpdatedQueryStatusEvent.mk queryId Failed (Some "Cancelled")
                           None None) ]))
                Hindex) as [message ->].
    cbn [emit modify snd files clipboard log].
    rewrite <- !app_assoc, ManagerFacts.emitted_app. reflexivity.
Qed.

(** X7. A workflow that completed successfully fires exactly one status
    update, never with a failure reason: [Completed] when a result index
    is available, [Failed] when there is none.  A workflow reported as
    still in progress fires no status update and writes no file: all that
    happens is the report of the unexpected status. *)
Theorem monitorRemoteQuery_succeeded_or_in_progress (this : Env) (queryId : string)
    (remoteQuery : RemoteQuery.t) (token : CancellationToken) (w : World) :
  let status := RemoteQueryWorkflowResult.status (monitorQuery this remoteQuery) in
  let run := monitorRemoteQuery this queryId remoteQuery token w in
  (status = WfCompletedSuccessfully ->
   exists update,
     statusUpdates (emitted w (snd run)) = [update]
     /\ UpdatedQueryStatusEvent.failureReason update = None
     /\ UpdatedQueryStatusEvent.status update
        = match getRemoteQueryIndex this remoteQuery with
          | Some _ => Completed
          | None => Failed
          end)
  /\ (status = WfInProgress ->
      run = (Ok tt,
             mkWorld (files w) (clipboard w)
               (log w ++
                [ MonitorQuery remoteQuery;
                  ShowAndLogExceptionWithTelemetry "Unexpected status: InProgress" ]))
      /\ statusUpdates (emitted w (snd run)) = []).
Proof.
  intros status run. subst status run. split.
  - intros Hs.
    rewrite (monitorRemoteQuery_succeeded_run this queryId remoteQuery token w Hs).
    destruct (getRemoteQueryIndex this remoteQuery) as [resultIndex|] eqn:Hindex.
    + destruct (ManagerFacts.downloadAvailableResults_available this queryId remoteQuery
                  (Date_now this)
                  (mkWorld (files w) (clipboard w) (log w ++ [MonitorQuery remoteQuery]))
                  resultIndex Hindex) as [message ->].
      cbv zeta. destruct (writeFile_result this _ _);
        cbn [snd files clipboard log];
        rewrite <- !app_assoc, ManagerFacts.emitted_app;
        (eexists; split; [reflexivity |]; split; reflexivity).
    + destruct (ManagerFacts.downloadAvailableResults_unavailable this queryId remoteQuery
                  (Date_now this)
                  (mkWorld (files w) (clipboard w) (log w ++ [MonitorQuery remoteQuery]))
                  Hindex) as [message ->].
      cbn [snd files clipboard log].
      rewrite <- !app_assoc, ManagerFacts.emitted_app.
      eexists. split; [reflexivity |]. split; reflexivity.
  - intros Hs. unfold monitorRemoteQuery. rewrite Hs.
    cbv [bind emit modify fst snd files clipboard log].
    rewrite <- !app_assoc. split; [reflexivity |].
    cbn [snd]. now rewrite ManagerFacts.emitted_app.
Qed.




(** *** From the index to the downloads *)

Lemma Number_toString_inj (a b : Z) :
  JS.Number_toString a = JS.Number_toString b -> a = b.
Proof.
  unfold JS.Number_toString. intros H.
  assert (Hint : Z.to_int a = Z.to_int b).
  { apply (f_equal NilEmpty.int_of_string) in H.
    rewrite !NilEmpty.isi in H. now injection H. }
  rewrite <- (DecimalZ.of_to a), <- (DecimalZ.of_to b). now rewrite Hint.
Qed.

Lemma urlPath_inj (resultIndex : RemoteQueryResultIndex.t) (queryId : string)
    (metadata : RepositoriesMetadata) (x y : SuccessIndexItem.t) :
  DownloadLink.urlPath (AnalysisSummary.downloadLink (mapSuccess resultIndex queryId metadata x))
  = DownloadLink.urlPath (AnalysisSummary.downloadLink (mapSuccess resultIndex queryId metadata y)) ->
  SuccessIndexItem.artifactId x = SuccessIndexItem.artifactId y.
Proof.
  cbn [mapSuccess AnalysisSummary.downloadLink DownloadLink.urlPath].
  intros H. apply String.app_inj in H. apply String.app_inj in H.
  now apply Number_toString_inj.
Qed.

(** X9. Success items with different artifact ids get different download
    links: when the artifact ids of the index are pairwise distinct, so
    are the [urlPath]s, and the [id]s, of the summaries that
    [mapQueryResult] makes, and so are the [urlPath]s of the analyses
    that are handed on for automatic download. *)
Theorem mapQueryResult_distinct_links (executionEndTime : Z)
    (resultIndex : RemoteQueryResultIndex.t) (queryId : string)
    (metadata : RepositoriesMetadata) :
  NoDup (List.map SuccessIndexItem.artifactId
           (RemoteQueryResultIndex.successes resultIndex)) ->
  let queryResult := mapQueryResult executionEndTime resultIndex queryId metadata in
  let url (a : AnalysisSummary.t) := DownloadLink.urlPath (AnalysisSummary.downloadLink a) in
  NoDup (List.map url (RemoteQueryResult.analysisSummaries queryResult))
  /\ NoDup (List.map (fun a => DownloadLink.id (AnalysisSummary.downloadLink a))
              (RemoteQueryResult.analysisSummaries queryResult))
  /\ NoDup (List.map
              (fun d => DownloadLink.urlPath (AnalysisToDownload.downloadLink d))
              (analysesToDownload queryResult)).
Proof.
  intros Hids queryResult url.
  assert (Hurl : NoDup (List.map url (RemoteQueryResult.analysisSummaries queryResult))).
  { subst queryResult url. unfold mapQueryResult.
    cbn [RemoteQueryResult.analysisSummaries]. rewrite List.map_map.
    induction (RemoteQueryResultIndex.successes resultIndex) as [|x l IH];
      [constructor |].
    cbn [List.map] in *. apply NoDup_cons in Hids as [Hx Hl].
    apply NoDup_cons. split; [| now apply IH].
    intros Hin. apply Hx.
    apply list_elem_of_In, in_map_iff in Hin as (y & Heq & Hy).
    apply list_elem_of_In, in_map_iff. exists y. split; [| exact Hy].
    symmetry. now apply (urlPath_inj resultIndex queryId metadata x y). }
  split; [exact Hurl |]. split.
  - subst queryResult. unfold mapQueryResult.
    cbn [RemoteQueryResult.analysisSummaries]. rewrite List.map_map.
    cbn [mapSuccess AnalysisSummary.downloadLink DownloadLink.id].
    clear Hurl. induction (RemoteQueryResultIndex.successes resultIndex) as [|x l IH];
      [constructor |].
    cbn [List.map] in *. apply NoDup_cons in Hids as [Hx Hl].
    apply NoDup_cons. split; [| now apply IH].
    intros Hin. apply Hx.
    apply list_elem_of_In, in_map_iff in Hin as (y & Heq & Hy).
    apply list_elem_of_In, in_map_iff. exists y. split; [| exact Hy].
    symmetry. now apply Number_toString_inj.
  - unfold analysesToDownload, JS.slice_0. rewrite List.map_map.
    cbn [toDownload AnalysisToDownload.downloadLink]. fold url.
    eapply sublist_NoDup; [exact Hurl |].
    apply (fmap_sublist url).
    etransitivity; [apply sublist_take |].
    rewrite ManagerFacts.filter_smallEnough. apply sublist_filter.
Qed.


Lemma filter_map_commute {A B} (f : A -> B) (p : B -> bool) (l : list A) :
  List.filter p (List.map f l) = List.map f (List.filter (fun x => p (f x)) l).
Proof.
  induction l as [|x l IH]; [reflexivity |].
  simpl. destruct (p (f x)); simpl; now rewrite IH.
Qed.

Lemma filter_effectiveSize (resultIndex : RemoteQueryResultIndex.t) (queryId : string)
    (metadata : RepositoriesMetadata) (l : list SuccessIndexItem.t) :
  List.filter (fun item => smallEnough (mapSuccess resultIndex queryId metadata item)) l
  = filter (fun item => effectiveSize item < 300 * 1024) l.
Proof.
  assert (Hsize : forall item,
    AnalysisSummary.fileSizeInBytes (mapSuccess resultIndex queryId metadata item)
    = effectiveSize item).
  { intros item. unfold effectiveSize. cbn [mapSuccess AnalysisSummary.fileSizeInBytes].
    destruct (SuccessIndexItem.sarifFileSize item) as [size|]; [| reflexivity].
    unfold JS.truthy_number. destruct (Z.eqb_spec size 0) as [-> | Hne]; simpl.
    - reflexivity.
    - destruct (decide (size = 0)); [contradiction | reflexivity]. }
  induction l as [|item l IH]; [reflexivity |].
  simpl. unfold smallEnough at 1, autoDownloadMaxSize. rewrite Hsize.
  destruct (Z.ltb_spec (effectiveSize item) (300 * 1024)) as [Hlt | Hge].
  - rewrite filter_cons_True by exact Hlt. now rewrite IH.
  - rewrite filter_cons_False by lia. exact IH.
Qed.

(** X10. From the index to the downloads: the analyses handed on for
    automatic download after [mapQueryResult] are those of the first 100
    (at most) success items of the index whose effective size is below
    [300 * 1024], in the order of the index.  An item with a SARIF size
    that is not zero is judged by that size, whatever its BQRS size, and
    is then fetched as [results.sarif]; any other item is judged by its
    BQRS size and fetched as [results.bqrs]. *)
Theorem analysesToDownload_of_index (executionEndTime : Z)
    (resultIndex : RemoteQueryResultIndex.t) (queryId : string)
    (metadata : RepositoriesMetadata) :
  let selected :=
    take 100
      (filter (fun item => effectiveSize item < 300 * 1024)
         (RemoteQueryResultIndex.successes resultIndex)) in
  Forall2
    (fun item d =>
       AnalysisToDownload.nwo d = SuccessIndexItem.nwo item
       /\ AnalysisToDownload.fileSize d = JS.Number_toString (effectiveSize item)
       /\ DownloadLink.innerFilePath (AnalysisToDownload.downloadLink d)
          = effectiveFile item
       /\ DownloadLink.queryId (AnalysisToDownload.downloadLink d) = queryId)
    selected
    (analysesToDownload
       (mapQueryResult executionEndTime resultIndex queryId metadata)).
Proof.
  intros selected. unfold analysesToDownload, JS.slice_0, autoDownloadMaxCount, mapQueryResult.
  cbn [RemoteQueryResult.analysisSummaries].
  rewrite filter_map_commute, filter_effectiveSize, List.firstn_map, List.map_map.
  fold selected. apply ManagerFacts.Forall2_map_r.
  intros item. split; [reflexivity |]. split; [| split; [| reflexivity]].
  - cbn [toDownload AnalysisToDownload.fileSize mapSuccess AnalysisSummary.fileSizeInBytes].
    f_equal. unfold effectiveSize.
    destruct (SuccessIndexItem.sarifFileSize item) as [size|]; [| reflexivity].
    unfold JS.truthy_number. destruct (Z.eqb_spec size 0) as [-> | Hne]; simpl.
    + reflexivity.
    + destruct (decide (size = 0)); [contradiction | reflexivity].
  - cbn [toDownload AnalysisToDownload.downloadLink mapSuccess AnalysisSummary.downloadLink
         DownloadLink.innerFilePath].
    unfold effectiveFile.
    destruct (SuccessIndexItem.sarifFileSize item) as [size|]; cbn [JS.truthy_opt];
      [| reflexivity].
    unfold JS.truthy_number. destruct (Z.eqb_spec size 0) as [-> | Hne]; simpl.
    + reflexivity.
    + destruct (decide (size = 0)); [contradiction | reflexivity].
Qed.


(** *** The repository list, once more *)

Lemma getRemoteQueryResult_world (this : Env) (queryId : string) (w : World) :
  snd (getRemoteQueryResult this queryId w) = w.
Proof.
  unfold getRemoteQueryResult, bind.
  pose proof (retrieveJsonFile_world this queryId "query-result.json" w) as H.
  destruct (retrieveJsonFile this queryId "query-result.json" w) as [[v | e] w'];
    cbn [snd] in *; subst w'; [| reflexivity].
  destruct (Decode.remoteQueryResult v); reflexivity.
Qed.

Lemma copy_run (this : Env) (queryId : string) (queryResult : RemoteQueryResult.t)
    (w : World) :
  getRemoteQueryResult this queryId w = (Ok queryResult, w) ->
  let repos :=
    List.map AnalysisSummary.nwo
      (filter (fun a => 0 < AnalysisSummary.resultCount a)
         (RemoteQueryResult.analysisSummaries queryResult)) in
  let text :=
    JS.Array_join
      ([dq +:+ "new-repo-list" +:+ dq +:+ ": ["] ++ repoEntries repos ++ ["]"])
      (EOL this) in
  copyRemoteQueryRepoListToClipboard this queryId w
  = if decide (repos = []) then (Ok tt, w)
    else (Ok tt, mkWorld (files w) text (log w ++ [ClipboardWriteText text])).
Proof.
  intros Hstored repos text.
  unfold copyRemoteQueryRepoListToClipboard, bind.
  rewrite Hstored, ManagerFacts.filter_positive. fold repos.
  destruct (decide (repos = [])) as [Hnil | Hne].
  - rewrite Hnil. reflexivity.
  - destruct repos as [|r rs] eqn:E; [congruence |].
    cbn [length Nat.ltb Nat.leb].
    rewrite ManagerFacts.repoListText_entries by discriminate.
    reflexivity.
Qed.

(** X11. [copyRemoteQueryRepoListToClipboard] never changes a file.
    When it throws it has changed nothing at all, the clipboard included;
    and it does throw, whatever the clipboard holds, when
    [query-result.json] of the query does not exist. *)
Theorem copyRemoteQueryRepoListToClipboard_failure (this : Env) (queryId : string)
    (w : World) :
  let run := copyRemoteQueryRepoListToClipboard this queryId w in
  let path := join this [storagePath this; queryId; "query-result.json"] in
  files (snd run) = files w
  /\ (forall e, fst run = Throw e -> snd run = w)
  /\ (files w !! path = None -> exists e, run = (Throw e, w)).
Proof.
  intros run path. subst run.
  unfold copyRemoteQueryRepoListToClipboard, bind.
  pose proof (getRemoteQueryResult_world this queryId w) as Hw.
  destruct (getRemoteQueryResult this queryId w) as [[queryResult | e] w'] eqn:Hget;
    cbn [snd] in Hw; subst w'.
  - cbv beta iota. split; [| split].
    + match goal with |- context [Nat.ltb ?a ?b] => destruct (Nat.ltb a b) end;
        reflexivity.
    + intros e.
      match goal with |- context [Nat.ltb ?a ?b] => destruct (Nat.ltb a b) end;
        cbn; intros He; [discriminate | reflexivity].
    + intros Hnone. exfalso.
      subst path. unfold getRemoteQueryResult, bind in Hget.
      rewrite (retrieveJsonFile_missing _ _ _ _ Hnone) in Hget. discriminate.
  - split; [reflexivity |]. split; [reflexivity |].
    intros _. eexists. reflexivity.
Qed.

Lemma repos_mapSuccess (resultIndex : RemoteQueryResultIndex.t) (queryId : string)
    (metadata : RepositoriesMetadata) (l : list SuccessIndexItem.t) :
  List.map AnalysisSummary.nwo
    (filter (fun a => 0 < AnalysisSummary.resultCount a)
       (List.map (mapSuccess resultIndex queryId metadata) l))
  = List.map SuccessIndexItem.nwo
      (filter (fun item => 0 < SuccessIndexItem.resultCount item) l).
Proof.
  induction l as [|item l IH]; [reflexivity |].
  cbn [List.map].
  destruct (decide (0 < SuccessIndexItem.resultCount item)) as [Hpos | Hneg].
  - rewrite (filter_cons_True _ (mapSuccess resultIndex queryId metadata item))
      by exact Hpos.
    rewrite (filter_cons_True _ item) by exact Hpos.
    cbn [List.map]. rewrite IH. reflexivity.
  - rewrite (filter_cons_False _ (mapSuccess resultIndex queryId metadata item))
      by exact Hneg.
    rewrite (filter_cons_False _ item) by exact Hneg.
    exact IH.
Qed.

(** X12. Through the disk: after [downloadAvailableResults] has found
    a result index and has returned, the mapped result being stored,
    [copyRemoteQueryRepoListToClipboard] for the same query lists the
    repositories of the index with a positive result count, in the order
    of the index; if there is none, it changes nothing. *)
Theorem copy_after_download (this : Env) (queryId : string)
    (remoteQuery : RemoteQuery.t) (executionEndTime : Z) (w : World)
    (resultIndex : RemoteQueryResultIndex.t) :
  getRemoteQueryIndex this remoteQuery = Some resultIndex ->
  fst (downloadAvailableResults this queryId remoteQuery executionEndTime w) = Ok tt ->
  let w1 :=
    snd (downloadAvailableResults this queryId remoteQuery executionEndTime w) in
  let repos :=
    List.map SuccessIndexItem.nwo
      (filter (fun item => 0 < SuccessIndexItem.resultCount item)
         (RemoteQueryResultIndex.successes resultIndex)) in
  let text :=
    JS.Array_join
      ([dq +:+ "new-repo-list" +:+ dq +:+ ": ["] ++ repoEntries repos ++ ["]"])
      (EOL this) in
  copyRemoteQueryRepoListToClipboard this queryId w1
  = if decide (repos = []) then (Ok tt, w1)
    else (Ok tt, mkWorld (files w1) text (log w1 ++ [ClipboardWriteText text])).
Proof.
  intros Hindex Hreturned w1 repos text.
  destruct (ManagerFacts.downloadAvailableResults_available this queryId remoteQuery
              executionEndTime w resultIndex Hindex) as [message Hrun].
  cbv zeta in Hrun.
  set (queryResult :=
         mapQueryResult executionEndTime resultIndex queryId
           (getRepositoriesMetadata_api this
              (List.map SuccessIndexItem.nwo
                 (RemoteQueryResultIndex.successes resultIndex)))) in *.
  assert (Hstored : getRemoteQueryResult this queryId w1 = (Ok queryResult, w1)).
  { apply ManagerFacts.getRemoteQueryResult_holds.
    subst w1. rewrite Hrun in Hreturned |- *.
    destruct (writeFile_result this _ _); [| discriminate].
    cbn [snd files]. apply lookup_insert_eq. }
  rewrite (copy_run this queryId queryResult w1 Hstored). cbv zeta.
  assert (Hrepos :
    List.map AnalysisSummary.nwo
      (filter (fun a => 0 < AnalysisSummary.resultCount a)
         (RemoteQueryResult.analysisSummaries queryResult)) = repos).
  { subst queryResult repos. unfold mapQueryResult.
    cbn [RemoteQueryResult.analysisSummaries]. apply repos_mapSuccess. }
  rewrite Hrepos. reflexivity.
Qed.

End ManagerMore.

(** ** Further properties of the compare view *)

Module CompareViewMore.
Import CompareView Observe.

(** *** Result sets by name *)

Lemma find_first_named (name : string) (before : list BqrsResultSetSchema.t)
    (schema : BqrsResultSetSchema.t) (after : list BqrsResultSetSchema.t) :
  BqrsResultSetSchema.name schema = name ->
  ~ In name (List.map BqrsResultSetSchema.name before) ->
  JS.Array_find (fun s => String.eqb (BqrsResultSetSchema.name s) name)
    (before ++ schema :: after) = Some schema.
Proof.
  intros Hname Hbefore. unfold JS.Array_find.
  induction before as [|b before IH]; cbn [app find].
  - rewrite Hname, String.eqb_refl. reflexivity.
  - destruct (String.eqb_spec (BqrsResultSetSchema.name b) name) as [Heq | Hne].
    + exfalso. apply Hbefore. left. exact Heq.
    + apply IH. intros Hin. apply Hbefore. right. exact Hin.
Qed.

Lemma find_not_named (name : string) (l : list BqrsResultSetSchema.t) :
  ~ In name (List.map BqrsResultSetSchema.name l) ->
  JS.Array_find (fun s => String.eqb (BqrsResultSetSchema.name s) name) l = None.
Proof.
  intros Hnot. unfold JS.Array_find.
  destruct (find _ l) as [schema|] eqn:Hfind; [| reflexivity].
  exfalso. apply find_some in Hfind as [Hin Heq].
  apply String.eqb_eq in Heq. apply Hnot. rewrite <- Heq. now apply in_map.
Qed.

Lemma getResultSet_missing (this : Env) (schemas : BqrsInfo.t) (name resultsPath : string) :
  ~ In name (resultSetNamesOf schemas) ->
  getResultSet this schemas (Some name) resultsPath
  = Throw ("Schema " +:+ name +:+ " not found.").
Proof.
  intros Hnot. unfold getResultSet.
  now rewrite (find_not_named name (BqrsInfo.result_sets schemas) Hnot).
Qed.

(** X13. [getResultSet] by name.  A name that no schema of the BQRS
    file bears makes it throw [Schema <name> not found.], whatever the
    CLI server would decode.  Otherwise the result set is decoded under
    that name and mapped with the first schema that bears it: a later
    schema of the same name is never used, and an exception of the
    decoder is passed on. *)
Theorem getResultSet_first_schema (this : Env) (schemas : BqrsInfo.t)
    (name resultsPath : string) :
  (~ In name (resultSetNamesOf schemas) ->
   getResultSet this schemas (Some name) resultsPath
   = Throw ("Schema " +:+ name +:+ " not found."))
  /\ (forall before schema after,
        BqrsInfo.result_sets schemas = before ++ schema :: after ->
        BqrsResultSetSchema.name schema = name ->
        ~ In name (List.map BqrsResultSetSchema.name before) ->
        getResultSet this schemas (Some name) resultsPath
        = match bqrsDecode this resultsPath name with
          | Ok chunk => Ok (bqrsToResultSet this schema chunk)
          | Throw e => Throw e
          end).
Proof.
  split.
  - apply getResultSet_missing.
  - intros before schema after Hsets Hname Hbefore.
    unfold getResultSet. rewrite Hsets.
    rewrite (find_first_named name before schema after Hname Hbefore).
    destruct (bqrsDecode this resultsPath name); reflexivity.
Qed.

(** *** Showing a comparison *)

Lemma showResults_run (this : Env) (from to : CompletedLocalQueryInfo.t)
    (selected : option string) (v : View) :
  showResults this from to selected v =
  match bqrsInfo this (CompletedLocalQueryInfo.resultsPath from) with
  | Throw e => (Throw e, v)
  | Ok fromSchemas =>
      match bqrsInfo this (CompletedLocalQueryInfo.resultsPath to) with
      | Throw e => (Throw e, v)
      | Ok toSchemas =>
          match findCommonResultSetNames this fromSchemas toSchemas with
          | Throw e => (Throw e, v)
          | Ok common =>
              showResultsInternal this selected
                (mkView (Some (ComparePair.mk from fromSchemas to toSchemas common))
                   (log v ++
                    [ GetPanel; PanelReveal; WaitForPanelLoaded;
                      PostMessage
                        (SetComparisonQueryInfo
                           (QueryStats.mk (getShortLabel this from)
                              (CompletedLocalQueryInfo.statusString from)
                              (CompletedLocalQueryInfo.startTime from))
                           (QueryStats.mk (getShortLabel this to)
                              (CompletedLocalQueryInfo.statusString to)
                              (CompletedLocalQueryInfo.startTime to))
                           (CompletedLocalQueryInfo.databaseUri to)
                           common) ]))
          end
      end
  end.
Proof.
  unfold showResults, bind at 1, lift at 1.
  destruct (bqrsInfo this (CompletedLocalQueryInfo.resultsPath from))
    as [fromSchemas | e]; [| reflexivity].
  unfold bind at 1, lift at 1.
  destruct (bqrsInfo this (CompletedLocalQueryInfo.resultsPath to))
    as [toSchemas | e]; [| reflexivity].
  unfold bind at 1, lift at 1.
  destruct (findCommonResultSetNames this fromSchemas toSchemas)
    as [common | e]; [| reflexivity].
  cbv [bind setComparePair emit modify postMessage comparePair log].
  rewrite <- !app_assoc. reflexivity.
Qed.


(** X14. [showResults] changes nothing when it fails early: when the
    CLI server cannot read the BQRS info of either query, or the common
    result-set names cannot be found, the exception is passed on, the
    compare pair of an earlier comparison stays in place and the panel is
    not touched. *)
Theorem showResults_failure_keeps_view (this : Env)
    (from to : CompletedLocalQueryInfo.t) (selected : option string) (v : View)
    (e : string) :
  bqrsInfo this (CompletedLocalQueryInfo.resultsPath from) = Throw e
  \/ (exists fromSchemas,
        bqrsInfo this (CompletedLocalQueryInfo.resultsPath from) = Ok fromSchemas
        /\ (bqrsInfo this (CompletedLocalQueryInfo.resultsPath to) = Throw e
            \/ exists toSchemas,
                 bqrsInfo this (CompletedLocalQueryInfo.resultsPath to) = Ok toSchemas
                 /\ findCommonResultSetNames this fromSchemas toSchemas = Throw e)) ->
  showResults this from to selected v = (Throw e, v).
Proof.
  intros H. rewrite showResults_run.
  destruct H as [-> | (fromSchemas & -> & [-> | (toSchemas & -> & ->)])];
    reflexivity.
Qed.

(** X15. [showResults] once the schemas are read.  The new compare
    pair is stored, and stays stored even when the result sets cannot be
    loaded afterwards.  The front end first receives the query info with
    the common result-set names, and then at most one comparison: one
    when the result sets to compare are found under a display name that
    is not empty, none otherwise.  The call throws exactly when the
    result sets cannot be found or loaded; a failing comparison does not
    make it throw. *)
Theorem showResults_messages (this : Env)
    (from to : CompletedLocalQueryInfo.t) (selected : option string) (v : View)
    (fromSchemas toSchemas : BqrsInfo.t) (common : list string) :
  bqrsInfo this (CompletedLocalQueryInfo.resultsPath from) = Ok fromSchemas ->
  bqrsInfo this (CompletedLocalQueryInfo.resultsPath to) = Ok toSchemas ->
  findCommonResultSetNames this fromSchemas toSchemas = Ok common ->
  let thePair := ComparePair.mk from fromSchemas to toSchemas common in
  let run := showResults this from to selected v in
  let info :=
    SetComparisonQueryInfo
      (QueryStats.mk (getShortLabel this from)
         (CompletedLocalQueryInfo.statusString from)
         (CompletedLocalQueryInfo.startTime from))
      (QueryStats.mk (getShortLabel this to)
         (CompletedLocalQueryInfo.statusString to)
         (CompletedLocalQueryInfo.startTime to))
      (CompletedLocalQueryInfo.databaseUri to)
      common in
  comparePair (snd run) = Some thePair
  /\ match findResultSetsToCompare this thePair selected with
     | Throw e =>
         fst run = Throw e /\ postedMessages (emitted v (snd run)) = [info]
     | Ok (displayName, fromResultSet, toResultSet) =>
         fst run = Ok tt
         /\ postedMessages (emitted v (snd run))
            = info ::
              match displayName with
              | Some name =>
                  if JS.truthy_string name
                  then [ SetComparisons
                           (fst (comparison this fromResultSet toResultSet)) name
                           (snd (comparison this fromResultSet toResultSet)) ]
                  else []
              | None => []
              end
     end.
Proof.
  intros Hfrom Hto Hcommon thePair run info. subst run.
  rewrite showResults_run, Hfrom, Hto, Hcommon. fold thePair info.
  rewrite (CompareViewFacts.showResultsInternal_run this selected
             (mkView (Some thePair)
                (log v ++ [GetPanel; PanelReveal; WaitForPanelLoaded; PostMessage info]))
             thePair eq_refl).
  cbv zeta. cbn [log].
  destruct (findResultSetsToCompare this thePair selected)
    as [[[displayName fromResultSet] toResultSet] | e].
  - destruct displayName as [name|]; [destruct (JS.truthy_string name) |];
      cbn [fst snd comparePair]; (split; [reflexivity |]); (split; [reflexivity |]);
      rewrite <- ?app_assoc, CompareViewFacts.view_emitted_app; reflexivity.
  - cbn [fst snd comparePair]. split; [reflexivity |]. split; [reflexivity |].
    rewrite <- ?app_assoc, CompareViewFacts.view_emitted_app. reflexivity.
Qed.

(** *** Messages from the webview *)

Lemma showResultsInternal_extends (this : Env) (selected : option string) (v : View) :
  comparePair (snd (showResultsInternal this selected v)) = comparePair v
  /\ exists new, log (snd (showResultsInternal this selected v)) = log v ++ new.
Proof.
  destruct (comparePair v) as [thePair|] eqn:Hpair.
  - split; [now apply CompareViewFacts.showResultsInternal_keeps_pair |].
    rewrite (CompareViewFacts.showResultsInternal_run this selected v thePair Hpair).
    cbv zeta.
    destruct (findResultSetsToCompare this thePair selected)
      as [[[[name|] fromResultSet] toResultSet] | e];
      [destruct (JS.truthy_string name) | |]; cbn [snd log];
      rewrite <- ?app_assoc; eexists; reflexivity.
  - unfold showResultsInternal, bind, get. rewrite Hpair. cbn [snd].
    split; [exact Hpair |]. exists []. now rewrite app_nil_r.
Qed.

Lemma sendUIInteraction_run (this : Env) (name : string) (v : View) :
  sendUIInteraction this name v
  = (Ok tt,
     mkView (comparePair v)
       (log v ++ if telemetryListener this then [SendUIInteraction name] else [])).
Proof.
  unfold sendUIInteraction. destruct (telemetryListener this).
  - reflexivity.
  - unfold ret. rewrite app_nil_r. now destruct v.
Qed.

(** The query that an [openQuery] message asks for, if the view
    compares a pair. *)
Lemma openQuery_run (this : Env) (kind : QueryKind) (v : View) :
  openQuery this kind v
  = match comparePair v with
    | Some thePair =>
        let item :=
          match kind with
          | KindFrom => ComparePair.from thePair
          | KindTo => ComparePair.to thePair
          end in
        (showQueryResultsCallback this item,
         mkView (comparePair v) (log v ++ [ShowQueryResultsCallback item]))
    | None => (Ok tt, mkView (comparePair v) (log v))
    end.
Proof.
  unfold openQuery, bind, get.
  destruct (comparePair v) as [thePair|] eqn:Hpair.
  - destruct kind; cbn [fmap option_fmap option_map]; unfold emit, modify, lift;
      rewrite Hpair; cbn [fst snd];
      match goal with
      | |- context [showQueryResultsCallback this ?item] =>
          destruct (showQueryResultsCallback this item) as [[] | e]
      end; reflexivity.
  - destruct kind; cbn [fmap option_fmap option_map]; unfold ret;
      destruct v; cbn in *; now subst.
Qed.

(** X16. No message from the webview changes the compare pair, and
    none removes an entry of the log.  Only [changeCompare] posts to the
    front end.  The messages [viewLoaded], [telemetry] and
    [unhandledError] never make [onMessage] throw; [openQuery] makes it
    throw exactly when the view compares a pair and the callback that
    shows the query rejects, and [viewSourceFile] exactly when
    [jumpToLocation] rejects: the exception is passed on. *)
Theorem onMessage_keeps_pair (this : Env) (msg : FromCompareViewMessage) (v : View) :
  let run := onMessage this msg v in
  comparePair (snd run) = comparePair v
  /\ (exists new, log (snd run) = log v ++ new)
  /\ ((forall name, msg <> ChangeCompare name) ->
      postedMessages (emitted v (snd run)) = []
      /\ fst run
         = match msg with
           | OpenQuery kind =>
               match comparePair v with
               | Some thePair =>
                   showQueryResultsCallback this
                     match kind with
                     | KindFrom => ComparePair.from thePair
                     | KindTo => ComparePair.to thePair
                     end
               | None => Ok tt
               end
           | ViewSourceFile databaseUri loc => jumpToLocation this databaseUri loc
           | _ => Ok tt
           end).
Proof.
  intros run. subst run.
  destruct msg as [| name | databaseUri loc | kind | action | errorMessage].
  - cbn. split; [reflexivity |]. split; [eexists; reflexivity |].
    intros _. split; [| reflexivity].
    now rewrite CompareViewFacts.view_emitted_app.
  - unfold onMessage, changeTable, bind.
    destruct (showResultsInternal_extends this (Some name) v) as [Hpair [new Hlog]].
    destruct (showResultsInternal this (Some name) v) as [[[] | e] v1];
      cbn [fst snd] in *.
    + rewrite sendUIInteraction_run. cbn [snd comparePair log].
      split; [exact Hpair |]. split.
      * rewrite Hlog, <- app_assoc. eexists; reflexivity.
      * intros Hne. now destruct (Hne name).
    + split; [exact Hpair |]. split; [now exists new |].
      intros Hne. now destruct (Hne name).
  - unfold onMessage, bind, emit, modify, lift. cbn [fst snd comparePair log].
    destruct (jumpToLocation this databaseUri loc) as [[] | e];
      cbn [fst snd comparePair log];
      (split; [reflexivity |]); (split; [eexists; reflexivity |]);
      intros _; (split; [| reflexivity]);
      now rewrite CompareViewFacts.view_emitted_app.
  - unfold onMessage, bind. rewrite openQuery_run.
    destruct (comparePair v) as [thePair|] eqn:Hpair; cbv zeta.
    + destruct (showQueryResultsCallback this _) as [[] | e].
      * rewrite sendUIInteraction_run. cbn [fst snd comparePair log].
        rewrite <- app_assoc.
        split; [first [exact Hpair | reflexivity] |]. split; [eexists; reflexivity |].
        intros _. split; [| reflexivity].
        rewrite CompareViewFacts.view_emitted_app.
        destruct (telemetryListener this); reflexivity.
      * cbn [fst snd comparePair log].
        split; [first [exact Hpair | reflexivity] |]. split; [eexists; reflexivity |].
        intros _. split; [| reflexivity].
        now rewrite CompareViewFacts.view_emitted_app.
    + rewrite sendUIInteraction_run. cbn [fst snd comparePair log].
      split; [first [exact Hpair | reflexivity] |]. split; [eexists; reflexivity |].
      intros _. split; [| reflexivity].
      rewrite CompareViewFacts.view_emitted_app.
      destruct (telemetryListener this); reflexivity.
  - unfold onMessage. rewrite sendUIInteraction_run. cbn [fst snd comparePair log].
    split; [reflexivity |]. split; [eexists; reflexivity |].
    intros _. split; [| reflexivity].
    rewrite CompareViewFacts.view_emitted_app.
    destruct (telemetryListener this); reflexivity.
  - cbn. split; [reflexivity |]. split; [eexists; reflexivity |].
    intros _. split; [| reflexivity].
    now rewrite CompareViewFacts.view_emitted_app.
Qed.

(** X17. After [showResults] has read the schemas of two queries, an
    [openQuery] message calls the callback with exactly the query that
    was passed as [from] for the kind [from], and the one passed as [to]
    for the kind [to], even when the result sets could not be loaded.
    When the callback returns, [onMessage] returns and the telemetry
    event, if any, comes last; when the callback rejects, [onMessage]
    throws its exception and no telemetry event is sent.  Once the panel
    has been disposed of, the same message opens nothing. *)
Theorem openQuery_after_showResults (this : Env)
    (from to : CompletedLocalQueryInfo.t) (selected : option string) (v : View)
    (fromSchemas toSchemas : BqrsInfo.t) (common : list string) (kind : QueryKind) :
  bqrsInfo this (CompletedLocalQueryInfo.resultsPath from) = Ok fromSchemas ->
  bqrsInfo this (CompletedLocalQueryInfo.resultsPath to) = Ok toSchemas ->
  findCommonResultSetNames this fromSchemas toSchemas = Ok common ->
  let shown := snd (showResults this from to selected v) in
  let item := match kind with KindFrom => from | KindTo => to end in
  let telemetry :=
    if telemetryListener this
    then [SendUIInteraction ("compare-view-open-" +:+ kindName kind +:+ "-query")]
    else [] in
  onMessage this (OpenQuery kind) shown
  = match showQueryResultsCallback this item with
    | Ok _ =>
        (Ok tt,
         mkView (comparePair shown)
           (log shown ++ ShowQueryResultsCallback item :: telemetry))
    | Throw e =>
        (Throw e,
         mkView (comparePair shown) (log shown ++ [ShowQueryResultsCallback item]))
    end
  /\ onMessage this (OpenQuery kind) (snd (onPanelDispose shown))
     = (Ok tt, mkView None (log shown ++ telemetry)).
Proof.
  intros Hfrom Hto Hcommon shown item telemetry.
  assert (Hpair : comparePair shown
                  = Some (ComparePair.mk from fromSchemas to toSchemas common)).
  { subst shown. rewrite showResults_run, Hfrom, Hto, Hcommon.
    now apply CompareViewFacts.showResultsInternal_keeps_pair. }
  split.
  - unfold onMessage, bind. rewrite openQuery_run, Hpair. cbv zeta.
    assert (Hitem :
      match kind with
      | KindFrom => ComparePair.from (ComparePair.mk from fromSchemas to toSchemas common)
      | KindTo => ComparePair.to (ComparePair.mk from fromSchemas to toSchemas common)
      end = item) by (destruct kind; reflexivity).
    rewrite Hitem.
    destruct (showQueryResultsCallback this item) as [[] | e]; [| reflexivity].
    rewrite sendUIInteraction_run. cbn [fst snd comparePair log].
    now rewrite <- app_assoc.
  - unfold onMessage, bind. rewrite openQuery_run.
    cbn [fst snd comparePair log onPanelDispose setComparePair modify].
    rewrite sendUIInteraction_run. reflexivity.
Qed.

(** X18. A [changeCompare] message for a result set that the [from]
    query, or else the [to] query, does not have: the panel is revealed,
    then [onMessage] throws [Schema <name> not found.]; nothing is posted
    to the front end, no telemetry event is sent and the compare pair
    stays. *)
Theorem changeCompare_unknown_result_set (this : Env) (v : View)
    (thePair : ComparePair.t) (selected : string) (names : ResultSetNames.t)
    (fromName toName : string) :
  comparePair v = Some thePair ->
  findResultSetNames this (ComparePair.fromSchemas thePair)
    (ComparePair.toSchemas thePair) (ComparePair.commonResultSetNames thePair)
    (Some selected) = Ok names ->
  ResultSetNames.fromResultSetName names = Some fromName ->
  ResultSetNames.toResultSetName names = Some toName ->
  let revealed :=
    mkView (Some thePair) (log v ++ [GetPanel; PanelReveal; WaitForPanelLoaded]) in
  (~ In fromName (resultSetNamesOf (ComparePair.fromSchemas thePair)) ->
   onMessage this (ChangeCompare selected) v
   = (Throw ("Schema " +:+ fromName +:+ " not found."), revealed))
  /\ (forall fromResultSet,
        getResultSet this (ComparePair.fromSchemas thePair) (Some fromName)
          (CompletedLocalQueryInfo.resultsPath (ComparePair.from thePair))
        = Ok fromResultSet ->
        ~ In toName (resultSetNamesOf (ComparePair.toSchemas thePair)) ->
        onMessage this (ChangeCompare selected) v
        = (Throw ("Schema " +:+ toName +:+ " not found."), revealed)).
Proof.
  intros Hpair Hnames Hfrom Hto revealed. subst revealed.
  split.
  - intros Hnot. unfold onMessage, changeTable, bind.
    rewrite (CompareViewFacts.showResultsInternal_run this (Some selected) v thePair Hpair).
    cbv zeta. unfold findResultSetsToCompare.
    rewrite Hnames. cbn [result_bind]. rewrite Hfrom.
    rewrite (getResultSet_missing this _ fromName _ Hnot). reflexivity.
  - intros fromResultSet Hget Hnot. unfold onMessage, changeTable, bind.
    rewrite (CompareViewFacts.showResultsInternal_run this (Some selected) v thePair Hpair).
    cbv zeta. unfold findResultSetsToCompare.
    rewrite Hnames. cbn [result_bind]. rewrite Hfrom, Hget. cbn [result_bind].
    rewrite Hto, (getResultSet_missing this _ toName _ Hnot). reflexivity.
Qed.

End CompareViewMore.

(** ** The copied repository list as JSON *)

Module RepoListFacts.
Import RemoteQueriesManager Observe.
Import Json.

Lemma escape_char_plain (c : ascii) :
  Ascii.eqb c quote = false -> Ascii.eqb c backslash = false ->
  (N_of_ascii c <? 32)%N = false ->
  escape_char c = String c EmptyString.
Proof.
  intros Hq Hb Hn. unfold escape_char. rewrite Hq, Hb, Hn.
  apply N.ltb_ge in Hn.
  repeat match goal with
         | |- context [(N_of_ascii c =? ?k)%N] =>
             destruct (N.eqb_spec (N_of_ascii c) k) as [Heq | _]; [lia |]
         end.
  reflexivity.
Qed.

Lemma escape_plain (s : string) : plain s = true -> escape s = s.
Proof.
  induction s as [|c s IH]; [reflexivity |].
  cbn [plain escape]. intros H.
  apply andb_prop in H as [H Hs]. apply andb_prop in H as [H Hn].
  apply andb_prop in H as [Hq Hb].
  apply negb_true_iff in Hq, Hb, Hn.
  rewrite (escape_char_plain c Hq Hb Hn), (IH Hs). reflexivity.
Qed.

Lemma parse_string_body_plain (s rest : string) :
  plain s = true -> parse_string_body (s +:+ String quote rest) = Some (s, rest).
Proof.
  intros H. rewrite <- (escape_plain s H) at 1. apply JsonFacts.parse_string_body_escape.
Qed.

(** One entry of the list: four spaces, the name in quotes, then [tail]. *)
Lemma entry_last_text (r tail : string) :
  ("    " +:+ dq +:+ r +:+ dq) +:+ tail
  = "    " +:+ String quote (r +:+ String quote tail).
Proof.
  unfold dq. rewrite !StringFacts.append_assoc. reflexivity.
Qed.

Lemma entry_comma_text (r tail : string) :
  ("    " +:+ dq +:+ r +:+ dq +:+ ",") +:+ tail
  = "    " +:+ String quote (r +:+ String quote (String "," tail)).
Proof.
  unfold dq. rewrite !StringFacts.append_assoc. reflexivity.
Qed.

Lemma parse_value_entry (fuel : nat) (eol r tail : string) :
  all_ws eol = true -> plain r = true ->
  parse_value (S fuel) (eol +:+ "    " +:+ String quote (r +:+ String quote tail))
  = Some (JStr r, tail).
Proof.
  intros Heol Hr.
  rewrite (JsonFacts.parse_value_ws (S fuel) eol _ Heol).
  rewrite (JsonFacts.parse_value_ws (S fuel) "    " _ eq_refl).
  rewrite JsonFacts.parse_value_S. cbn [skip_ws].
  change (is_ws quote) with false. cbv iota.
  change (Ascii.eqb quote "n") with false.
  change (Ascii.eqb quote "t") with false.
  change (Ascii.eqb quote "f") with false.
  change (Ascii.eqb quote quote) with true. cbv iota.
  now rewrite (parse_string_body_plain r tail Hr).
Qed.

Lemma concat_cons_ne (sep x : string) (l : list string) :
  l <> [] -> String.concat sep (x :: l) = x +:+ sep +:+ String.concat sep l.
Proof. destruct l; [congruence | reflexivity]. Qed.

Lemma parse_elements_entries (eol : string) (repos : list string) :
  all_ws eol = true -> Forall (fun r => plain r = true) repos -> repos <> [] ->
  forall (fuel : nat) (rest : string),
    (length repos < fuel)%nat ->
    parse_elements fuel
      (eol +:+ String.concat eol (repoEntries repos ++ ["]"]) +:+ rest)
    = Some (List.map JStr repos, rest).
Proof.
  intros Heol Hplain Hne.
  induction repos as [|r rs IH]; [congruence |].
  intros fuel rest Hfuel.
  apply Forall_cons in Hplain as [Hr Hrs].
  destruct fuel as [|[|fuel]]; [cbn in Hfuel; lia | cbn in Hfuel; lia |].
  rewrite JsonFacts.parse_elements_S.
  destruct rs as [|r' rs].
  - cbn [repoEntries app].
    rewrite JsonFacts.concat_cons, JsonFacts.concat_single.
    rewrite StringFacts.append_assoc, entry_last_text.
    rewrite (parse_value_entry fuel eol r _ Heol Hr).
    rewrite StringFacts.append_assoc.
    rewrite (JsonFacts.skip_ws_append eol _ Heol).
    reflexivity.
  - change (repoEntries (r :: r' :: rs))
      with (("    " +:+ dq +:+ r +:+ dq +:+ ",") :: repoEntries (r' :: rs)).
    cbn [app].
    rewrite concat_cons_ne by (destruct (repoEntries (r' :: rs)); discriminate).
    rewrite StringFacts.append_assoc, entry_comma_text.
    rewrite (parse_value_entry fuel eol r _ Heol Hr).
    cbn [skip_ws]. change (is_ws ",") with false. cbv iota.
    rewrite JsonFacts.after_char_same.
    rewrite StringFacts.append_assoc.
    rewrite (IH Hrs ltac:(discriminate) (S fuel) rest ltac:(cbn in *; lia)).
    reflexivity.
Qed.


Lemma entries_length (eol : string) (repos : list string) :
  (length repos
   <= String.length (String.concat eol (repoEntries repos ++ ["]"])))%nat.
Proof.
  induction repos as [|r rs IH]; [cbn; lia |].
  destruct rs as [|r' rs].
  - cbn [repoEntries app]. rewrite concat_cons_ne by discriminate.
    rewrite !StringFacts.length_append. cbn. lia.
  - change (repoEntries (r :: r' :: rs))
      with (("    " +:+ dq +:+ r +:+ dq +:+ ",") :: repoEntries (r' :: rs)).
    cbn [app].
    rewrite concat_cons_ne by (destruct (repoEntries (r' :: rs)); discriminate).
    rewrite !StringFacts.length_append. cbn [length] in *. cbn [String.length]. lia.
Qed.

Lemma entries_head (eol : string) (repos : list string) (rest : string) :
  repos <> [] ->
  exists tl,
    String.concat eol (repoEntries repos ++ ["]"]) +:+ rest
    = "    " +:+ String quote tl.
Proof.
  intros Hne. destruct repos as [|r [|r' rs]]; [congruence | |].
  - cbn [repoEntries app]. rewrite concat_cons_ne by discriminate.
    rewrite StringFacts.append_assoc, entry_last_text. eexists. reflexivity.
  - change (repoEntries (r :: r' :: rs))
      with (("    " +:+ dq +:+ r +:+ dq +:+ ",") :: repoEntries (r' :: rs)).
    cbn [app].
    rewrite concat_cons_ne by (destruct (repoEntries (r' :: rs)); discriminate).
    rewrite StringFacts.append_assoc, entry_comma_text. eexists. reflexivity.
Qed.

Lemma repo_list_block_parses (eol : string) (repos : list string) :
  all_ws eol = true -> Forall (fun r => plain r = true) repos -> repos <> [] ->
  parse ("{" +:+ JS.Array_join (repoListText repos) eol +:+ "}")
  = Ok (JObj [("new-repo-list", JArr (List.map JStr repos))]).
Proof.
  intros Heol Hplain Hne.
  rewrite (ManagerFacts.repoListText_entries repos Hne).
  unfold JS.Array_join. cbn [app].
  rewrite concat_cons_ne by (destruct (repoEntries repos); discriminate).
  set (entries := String.concat eol (repoEntries repos ++ ["]"])).
  set (tail := eol +:+ entries +:+ "}").
  assert (Htext :
    "{" +:+ ((dq +:+ "new-repo-list" +:+ dq +:+ ": [") +:+ eol +:+ entries) +:+ "}"
    = String "{" (String quote
        ("new-repo-list" +:+ String quote (String ":" (String " " (String "[" tail)))))).
  { subst tail. unfold dq. rewrite !StringFacts.append_assoc. reflexivity. }
  rewrite Htext. unfold parse.
  assert (Hfuel : exists fuel,
    String.length
      (String "{" (String quote
        ("new-repo-list" +:+ String quote (String ":" (String " " (String "[" tail))))))
    = S (S (S fuel)) /\ (length repos < fuel)%nat).
  { pose proof (entries_length eol repos) as Hlen. fold entries in Hlen.
    eexists. split; [cbn [String.append String.length]; reflexivity |].
    subst tail. rewrite !StringFacts.length_append. lia. }
  destruct Hfuel as (fuel & -> & Hfuel).
  rewrite JsonFacts.parse_value_S.
  cbn [skip_ws]. change (is_ws "{") with false. cbv iota.
  change (Ascii.eqb "{" "n") with false.
  change (Ascii.eqb "{" "t") with false.
  change (Ascii.eqb "{" "f") with false.
  change (Ascii.eqb "{" quote) with false.
  change (Ascii.eqb "{" "[") with false.
  change (Ascii.eqb "{" "{") with true. cbv iota.
  cbn [skip_ws]. change (is_ws quote) with false. cbv iota.
  change (after_char "}" (String quote ?s)) with (@None string).
  rewrite JsonFacts.parse_members_S.
  cbn [skip_ws]. change (is_ws quote) with false. cbv iota.
  rewrite JsonFacts.after_char_same.
  rewrite (parse_string_body_plain "new-repo-list" _ eq_refl).
  cbn [skip_ws]. change (is_ws ":") with false. cbv iota.
  rewrite JsonFacts.after_char_same.
  rewrite JsonFacts.parse_value_S.
  cbn [skip_ws]. change (is_ws " ") with true. cbv iota.
  cbn [skip_ws]. change (is_ws "[") with false. cbv iota.
  change (Ascii.eqb "[" "n") with false.
  change (Ascii.eqb "[" "t") with false.
  change (Ascii.eqb "[" "f") with false.
  change (Ascii.eqb "[" quote) with false.
  change (Ascii.eqb "[" "[") with true. cbv iota.
  assert (Hopen : after_char "]" (skip_ws tail) = None).
  { subst tail.
    destruct (entries_head eol repos "}" Hne) as [tl Hhead]. fold entries in Hhead.
    rewrite (JsonFacts.skip_ws_append eol _ Heol), Hhead. reflexivity. }
  rewrite Hopen. subst tail entries.
  rewrite (parse_elements_entries eol repos Heol Hplain Hne (S fuel) "}"
             ltac:(lia)).
  cbn [skip_ws]. change (is_ws "}") with false. cbv iota.
  reflexivity.
Qed.


(** X19. The text that [copyRemoteQueryRepoListToClipboard] writes is
    made to be pasted into a JSON object.  When no repository name holds
    a quote, a backslash or a control character, and the end of line of
    the platform is white space, the clipboard between braces parses, as
    JSON, to an object with the one property [new-repo-list]: the array
    of the names of the repositories with a positive result count, in
    their order.  The names are written as they are, without escaping. *)
Theorem copied_repo_list_is_json (this : Env) (queryId : string)
    (queryResult : RemoteQueryResult.t) (w : World) :
  getRemoteQueryResult this queryId w = (Ok queryResult, w) ->
  let repos :=
    List.map AnalysisSummary.nwo
      (filter (fun a => 0 < AnalysisSummary.resultCount a)
         (RemoteQueryResult.analysisSummaries queryResult)) in
  repos <> [] ->
  Forall (fun r => plain r = true) repos ->
  all_ws (EOL this) = true ->
  parse ("{" +:+ clipboard (snd (copyRemoteQueryRepoListToClipboard this queryId w))
         +:+ "}")
  = Ok (JObj [("new-repo-list", JArr (List.map JStr repos))]).
Proof.
  intros Hstored repos Hne Hplain Heol.
  rewrite (ManagerMore.copy_run this queryId queryResult w Hstored).
  cbv zeta. fold repos.
  destruct (decide (repos = [])) as [Hnil | _]; [contradiction |].
  cbn [snd clipboard].
  rewrite <- (ManagerFacts.repoListText_entries repos Hne).
  apply repo_list_block_parses; assumption.
Qed.

End RepoListFacts.

(** ** Further sample runs *)

Module MoreSamples.
Import RemoteQueriesManager ManagerView Observe Examples MoreExamples.

(** Nothing has been stored in the sample world: reading throws. *)
Lemma X1_sample_missing_file :
  exists e, fst (retrieveJsonFile succeeded "q1" "query-result.json" world) = Throw e.
Proof.
  apply (proj1 (proj2 (ManagerMore.retrieveJsonFile_reads_only succeeded "q1"
                         "query-result.json" world))).
  apply lookup_empty.
Defined.

Lemma resultJson_well_formed : Json.well_formed resultJson.
Proof. simpl; repeat split; compute_done. Qed.

Lemma queryJson_well_formed : Json.well_formed queryJson.
Proof. simpl; repeat split; compute_done. Qed.

Lemma sample_paths_differ :
  join succeeded [storagePath succeeded; "q1"; "query.json"]
  <> join succeeded [storagePath succeeded; "q1"; "query-result.json"].
Proof. vm_compute. discriminate. Qed.

(** The query stored by mistake as the result is replaced by the result. *)
Lemma X2_sample_overwrite :
  Json.well_formed resultJson
  /\ snd (storeJsonFile succeeded "q1" "query-result.json" resultJson
            (snd (storeJsonFile succeeded "q1" "query-result.json" queryJson world)))
     = stored.
Proof.
  split; [exact resultJson_well_formed |].
  exact (proj2 (ManagerMore.storeJsonFile_last_write_wins succeeded "q1"
                  "query-result.json" queryJson resultJson world
                  resultJson_well_formed eq_refl)).
Defined.

(** Storing the query does not disturb the stored result. *)
Lemma X3_sample_other_file :
  fst (retrieveJsonFile succeeded "q1" "query-result.json"
         (snd (storeJsonFile succeeded "q1" "query.json" queryJson stored)))
  = fst (retrieveJsonFile succeeded "q1" "query-result.json" stored).
Proof.
  exact (ManagerMore.storeJsonFile_leaves_other_files succeeded "q1" "query.json"
           "q1" "query-result.json" queryJson stored sample_paths_differ).
Defined.

(** The stored sample query and result reach the view. *)
Lemma X5_sample_open :
  viewCalls
    (snd (openRemoteQueryResults succeeded acceptingView "q1"
            (mkManager
               (snd (storeJsonFile succeeded "q1" "query-result.json" resultJson
                       (snd (storeJsonFile succeeded "q1" "query.json" queryJson world))))
               [])))
  = [ShowResults queryJson resultJson].
Proof.
  exact (proj1 (ManagerMore.openRemoteQueryResults_after_store succeeded acceptingView
                  "q1" queryJson resultJson manager
                  queryJson_well_formed resultJson_well_formed sample_paths_differ
                  _ (or_introl (conj eq_refl (conj eq_refl eq_refl))))).
Defined.

(** The cancelled sample workflow ends as completed, for the two
    repositories of its index. *)
Lemma X6_sample_cancelled :
  List.map
    (fun u => (UpdatedQueryStatusEvent.status u,
               UpdatedQueryStatusEvent.failureReason u,
               UpdatedQueryStatusEvent.repositoryCount u))
    (statusUpdates
       (emitted world
          (snd (monitorRemoteQuery cancelled "q1" remoteQuery (Token false) world))))
  = [ (Failed, Some "Cancelled", None); (Completed, None, Some 2) ].
Proof.
  exact (ManagerMore.monitorRemoteQuery_cancelled_updates cancelled "q1" remoteQuery
           (Token false) world
           (or_intror (conj eq_refl Samples.sample_error_is_cancellation))).
Defined.

(** The sample workflow that succeeded fires one update, [Completed]. *)
Lemma X7_sample_succeeded :
  exists update,
    statusUpdates
      (emitted world
         (snd (monitorRemoteQuery succeeded "q1" remoteQuery (Token false) world)))
    = [update]
    /\ UpdatedQueryStatusEvent.failureReason update = None
    /\ UpdatedQueryStatusEvent.status update = Completed.
Proof.
  exact (proj1 (ManagerMore.monitorRemoteQuery_succeeded_or_in_progress succeeded "q1"
                  remoteQuery (Token false) world) eq_refl).
Defined.

(** The two artifacts of the sample index get different links. *)
Lemma X9_sample_links :
  NoDup (List.map SuccessIndexItem.artifactId
           (RemoteQueryResultIndex.successes resultIndex))
  /\ NoDup
       (List.map (fun a => DownloadLink.urlPath (AnalysisSummary.downloadLink a))
          (RemoteQueryResult.analysisSummaries
             (mapQueryResult 0 resultIndex "q1" ∅))).
Proof.
  assert (Hids : NoDup (List.map SuccessIndexItem.artifactId
                          (RemoteQueryResultIndex.successes resultIndex)))
    by compute_done.
  split; [exact Hids |].
  exact (proj1 (ManagerMore.mapQueryResult_distinct_links 0 resultIndex "q1" ∅ Hids)).
Defined.

(** Without a stored result nothing is copied. *)
Lemma X11_sample_nothing_stored :
  exists e, copyRemoteQueryRepoListToClipboard succeeded "q1" world = (Throw e, world).
Proof.
  apply (proj2 (proj2 (ManagerMore.copyRemoteQueryRepoListToClipboard_failure succeeded
                         "q1" world))).
  apply lookup_empty.
Defined.

(** Both repositories of the sample index have results: after the
    download both are copied. *)
Lemma X12_sample_copy_after_download :
  clipboard
    (snd (copyRemoteQueryRepoListToClipboard succeeded "q1"
            (snd (downloadAvailableResults succeeded "q1" remoteQuery 5 world))))
  = dq +:+ "new-repo-list" +:+ dq +:+ ": [" +:+ Json.nl
    +:+ "    " +:+ dq +:+ "octo/one" +:+ dq +:+ "," +:+ Json.nl
    +:+ "    " +:+ dq +:+ "octo/two" +:+ dq +:+ Json.nl +:+ "]".
Proof.
  rewrite (ManagerMore.copy_after_download succeeded "q1" remoteQuery 5 world
             resultIndex eq_refl eq_refl).
  reflexivity.
Defined.

(** The stored sample has one repository with results. *)
Lemma X19_sample_clipboard_json :
  Json.parse
    ("{" +:+ clipboard (snd (copyRemoteQueryRepoListToClipboard succeeded "q1" stored))
     +:+ "}")
  = Ok (Json.JObj [("new-repo-list", Json.JArr [Json.JStr "octo/one"])]).
Proof.
  assert (Hstored : getRemoteQueryResult succeeded "q1" stored = (Ok queryResult, stored))
    by (vm_compute; reflexivity).
  apply (RepoListFacts.copied_repo_list_is_json succeeded "q1" queryResult stored Hstored).
  - discriminate.
  - repeat constructor.
  - reflexivity.
Defined.

Import CompareView.

(** The first sample query has no result set [nodes]. *)
Lemma X13_sample_no_such_schema :
  getResultSet viewEnv fromSchemas (Some "nodes") "from.bqrs"
  = Throw "Schema nodes not found.".
Proof.
  apply (proj1 (CompareViewMore.getResultSet_first_schema viewEnv fromSchemas "nodes"
                  "from.bqrs")).
  vm_compute. intuition discriminate.
Defined.

(** The second BQRS file cannot be read: the open comparison stays. *)
Lemma X14_sample_unreadable :
  showResults brokenEnv fromQuery toQuery None openView
  = (Throw "Failed to read the BQRS file", openView).
Proof.
  apply CompareViewMore.showResults_failure_keeps_view.
  right. exists fromSchemas. split; [reflexivity |]. left. reflexivity.
Defined.

(** The sample queries are compared by [#select]. *)
Lemma X15_sample_shown :
  comparePair (snd (showResults viewEnv fromQuery toQuery None closedView))
  = Some thePair.
Proof.
  exact (proj1 (CompareViewMore.showResults_messages viewEnv fromQuery toQuery None
                  closedView fromSchemas toSchemas ["#select"]
                  eq_refl eq_refl eq_refl)).
Defined.

(** Where the callback cannot open a query, the [openQuery] message
    makes [onMessage] throw; nothing is posted to the front end. *)
Lemma X16_sample_rejected_callback :
  postedMessages
    (CompareView.emitted openView (snd (onMessage closedDoorEnv (OpenQuery KindFrom) openView)))
  = []
  /\ fst (onMessage closedDoorEnv (OpenQuery KindFrom) openView)
     = Throw "Could not open the query results".
Proof.
  apply (proj2 (proj2 (CompareViewMore.onMessage_keeps_pair closedDoorEnv
                         (OpenQuery KindFrom) openView))).
  intros name. discriminate.
Defined.

(** After the sample comparison, [openQuery] for [to] opens the second
    query. *)
Lemma X17_sample_open_to :
  CompareView.emitted (snd (showResults viewEnv fromQuery toQuery None closedView))
    (snd (onMessage viewEnv (OpenQuery KindTo)
            (snd (showResults viewEnv fromQuery toQuery None closedView))))
  = [ ShowQueryResultsCallback toQuery;
      SendUIInteraction "compare-view-open-to-query" ].
Proof.
  rewrite (proj1 (CompareViewMore.openQuery_after_showResults viewEnv fromQuery toQuery
                    None closedView fromSchemas toSchemas ["#select"] KindTo
                    eq_refl eq_refl eq_refl)).
  reflexivity.
Defined.

(** The front end asks for [nodes], which the first query lacks. *)
Lemma X18_sample_unknown_table :
  onMessage viewEnv (ChangeCompare "nodes") openView
  = (Throw "Schema nodes not found.",
     mkView (Some thePair) [GetPanel; PanelReveal; WaitForPanelLoaded]).
Proof.
  apply (proj1 (CompareViewMore.changeCompare_unknown_result_set viewEnv openView thePair
                  "nodes"
                  (ResultSetNames.mk (Some "nodes") (Some "nodes") (Some "nodes"))
                  "nodes" "nodes" eq_refl eq_refl eq_refl eq_refl)).
  vm_compute. intuition discriminate.
Defined.

End MoreSamples.
